(** * Shallow embedding of the g3nd demos [shader.geometry] and
    [skybox.sanfrancisco]

    The two demo files are thin clients of the G3N engine.  The engine is
    modelled as an explicit host state ([World]) together with the engine
    calls the demos make; the demos themselves are translated statement by
    statement into a small state-and-abort monad over that host state. *)

From Stdlib Require Import ZArith Ascii String.
From stdpp Require Import base option list strings gmap.

Local Open Scope string_scope.
Local Open Scope list_scope.
Local Open Scope Z_scope.

(** ** Numeric constants and 32-bit floats *)

(** An untyped Go numeric constant as it is written in the source:
    [Num m e] is the decimal [m * 10^e], [Pi] is [math32.Pi]. *)
Inductive GoConst : Type :=
| Num (m e : Z)
| Pi
| Mul (a b : GoConst).

Definition int (n : Z) : GoConst := Num n 0.

(** [float32] arithmetic is left abstract: the development only needs the
    conversion of a constant and the addition performed by the node
    rotation setters. *)
Class Float32 : Type := {
  f32 : Type;
  f32_const : GoConst -> f32;
  f32_add : f32 -> f32 -> f32
}.

(** The term model of [Float32], used to run the demos on concrete worlds. *)
Inductive ExprF32 : Type :=
| FConst (c : GoConst)
| FAdd (a b : ExprF32).

Definition ExprFloat32 : Float32 :=
  {| f32 := ExprF32; f32_const := FConst; f32_add := FAdd |}.

(** Heap addresses; [option loc] is a Go pointer, [None] being [nil]. *)
Abbreviation loc := nat (only parsing).

(** ** Shader sources (the three raw string constants) *)

Definition TAB : string := String "009"%char EmptyString.
Definition DQUOTE : string := String "034"%char EmptyString.
Definition NL : string := String "010"%char EmptyString.

(** A Go raw string literal, given line by line. *)
Fixpoint raw_lines (ls : list string) : string :=
  match ls with
  | [] => EmptyString
  | [l] => l
  | l :: rest => l +:+ NL +:+ raw_lines rest
  end.

Definition sourceGSDemoVertex : string := raw_lines [
  EmptyString;
  "#version {{.Version}}";
  EmptyString;
  "{{template " +:+ DQUOTE +:+ "attributes" +:+ DQUOTE +:+ " .}}";
  EmptyString;
  "// Outputs for geometry shader";
  "out vec3 vnormal;";
  EmptyString;
  "void main() {";
  EmptyString;
  TAB +:+ "gl_Position = vec4(VertexPosition, 1.0);";
  "  " +:+ TAB +:+ "vnormal = VertexNormal;";
  "}";
  EmptyString;
  EmptyString
].


Definition sourceGSDemoGeometry : string := raw_lines [
  EmptyString;
  "#version {{.Version}}";
  EmptyString;
  "layout (triangles) in;";
  "layout (line_strip, max_vertices = 12) out;";
  EmptyString;
  "// Model uniforms";
  "uniform mat4 MVP;";
  EmptyString;
  "// Inputs from Vertex Shader";
  "in vec3 vnormal[];";
  EmptyString;
  "// Inputs uniforms";
  "uniform int ShowWireframe;";
  "uniform int ShowVnormal;";
  "uniform int ShowFnormal;";
  EmptyString;
  "// Colors";
  "const vec4 colorWire    = vec4(1, 1, 0, 1);";
  "const vec4 colorVnormal = vec4(1, 0, 0, 1);";
  "const vec4 colorFnormal = vec4(0, 0, 1, 1);";
  EmptyString;
  "// Output color to fragment shader";
  "out vec4 vertex_color;";
  EmptyString;
  "void main() {";
  EmptyString;
  TAB +:+ "// Emits triangle's vertices as lines to show wireframe";
  TAB +:+ "if (ShowWireframe != 0) {";
  TAB +:+ TAB +:+ "for (int n = 0; n < gl_in.length(); n++) {";
  TAB +:+ TAB +:+ TAB +:+ "// Vertex position";
  TAB +:+ TAB +:+ TAB +:+ "gl_Position = MVP * gl_in[n].gl_Position;";
  TAB +:+ TAB +:+ TAB +:+ "vertex_color = colorWire;";
  TAB +:+ TAB +:+ TAB +:+ "EmitVertex();";
  TAB +:+ TAB +:+ "}";
  TAB +:+ TAB +:+ "// Emit first triangle vertex to close the last line strip.";
  TAB +:+ TAB +:+ "gl_Position = MVP * gl_in[0].gl_Position;";
  TAB +:+ TAB +:+ "vertex_color = colorWire;";
  TAB +:+ TAB +:+ "EmitVertex();";
  TAB +:+ TAB +:+ "EndPrimitive();";
  TAB +:+ "}";
  EmptyString;
  TAB +:+ "// Emits lines representing the vertices normals";
  TAB +:+ "if (ShowVnormal != 0) {";
  TAB +:+ TAB +:+ "for (int i = 0; i < gl_in.length(); i++) {";
  EmptyString;
  TAB +:+ TAB +:+ TAB +:+ "vec3 position = gl_in[i].gl_Position.xyz;";
  TAB +:+ TAB +:+ TAB +:+ "vec3 normal = vnormal[i];";
  TAB +:+ TAB +:+ TAB;
  TAB +:+ TAB +:+ TAB +:+ "gl_Position = MVP * vec4(position, 1.0);";
  TAB +:+ TAB +:+ TAB +:+ "vertex_color = colorVnormal;";
  TAB +:+ TAB +:+ TAB +:+ "EmitVertex();";
  TAB +:+ TAB +:+ TAB;
  TAB +:+ TAB +:+ TAB +:+ "gl_Position = MVP * vec4(position + normal * 0.5, 1.0);";
  TAB +:+ TAB +:+ TAB +:+ "vertex_color = colorVnormal;";
  TAB +:+ TAB +:+ TAB +:+ "EmitVertex();";
  TAB +:+ TAB +:+ TAB;
  TAB +:+ TAB +:+ TAB +:+ "EndPrimitive();";
  TAB +:+ TAB +:+ "}";
  TAB +:+ "}";
  EmptyString;
  TAB +:+ "// Emits one line representing the face normal";
  TAB +:+ "if (ShowFnormal != 0) {";
  TAB +:+ TAB +:+ "vec3 p0 = gl_in[0].gl_Position.xyz;";
  TAB +:+ TAB +:+ "vec3 p1 = gl_in[1].gl_Position.xyz;";
  TAB +:+ TAB +:+ "vec3 p2 = gl_in[2].gl_Position.xyz;";
  TAB +:+ "  ";
  TAB +:+ TAB +:+ "vec3 v0 = p0 - p1;";
  TAB +:+ TAB +:+ "vec3 v1 = p2 - p1;";
  TAB +:+ TAB +:+ "vec3 faceN = normalize(cross(v1, v0));";
  EmptyString;
  TAB +:+ TAB +:+ "// Center of the triangle";
  TAB +:+ TAB +:+ "vec3 center = (p0 + p1 + p2) / 3.0;";
  TAB +:+ "  ";
  TAB +:+ TAB +:+ "gl_Position = MVP * vec4(center, 1.0);";
  TAB +:+ TAB +:+ "vertex_color = colorFnormal;";
  TAB +:+ TAB +:+ "EmitVertex();";
  TAB +:+ "  ";
  TAB +:+ TAB +:+ "gl_Position = MVP * vec4(center + faceN * 0.5, 1.0);";
  TAB +:+ TAB +:+ "vertex_color = colorFnormal;";
  TAB +:+ TAB +:+ "EmitVertex();";
  TAB +:+ TAB +:+ "EndPrimitive();";
  TAB +:+ "}";
  "}";
  EmptyString;
  EmptyString
].


Definition sourceGSDemoFrag : string := raw_lines [
  EmptyString;
  "#version {{.Version}}";
  EmptyString;
  "in vec4 vertex_color;";
  "out vec4 Out_Color;";
  EmptyString;
  "void main() {";
  TAB +:+ "Out_Color = vertex_color;";
  "}";
  EmptyString;
  EmptyString
].


Section Demos.
Context {F32 : Float32}.

(** ** Engine data the demos build *)

Record Vector3 : Type := { vX : f32; vY : f32; vZ : f32 }.

Definition vec3 (x y z : GoConst) : Vector3 :=
  {| vX := f32_const x; vY := f32_const y; vZ := f32_const z |}.

Record Color : Type := { R : GoConst; G : GoConst; B : GoConst }.

(** [gui.Label] with the two properties the demo sets. *)
Record Label : Type := {
  text : string;
  fontSize : option GoConst;
  labelPos : option (GoConst * GoConst)
}.

Record Directional : Type := {
  lightColor : Color;
  intensity : GoConst;
  lightPos : Vector3
}.

(** Geometry constructors, with their arguments as written. *)
Inductive Geometry : Type :=
| NewPlane (width height widthSegments heightSegments : GoConst)
| NewBox (width height length widthSegments heightSegments lengthSegments : GoConst)
| NewSphere (radius widthSegments heightSegments
             phiStart phiLength thetaStart thetaLength : GoConst).

(** [material.Side] *)
Inductive Side : Type := SideFront | SideBack | SideDouble.

(** [material.Material], the part the demos touch.  [mtextures] holds the
    texture pointers handed to [AddTexture]. *)
Record Material : Type := {
  refcount : Z;
  shader : string;
  side : Side;
  mtextures : list (option loc)
}.

(** [gls.Uniform1i]: a named [int32] uniform. *)
Record Uniform1i : Type := { uname : string; v0 : Z }.

Record NormalsMaterial : Type := {
  nm_Material : Material;
  ShowWireframe : Uniform1i;
  ShowVnormal : Uniform1i;
  ShowFnormal : Uniform1i
}.

(** [material.Standard] *)
Record Standard : Type := {
  std_Material : Material;
  std_color : Color
}.

(** [texture.Texture2D]: the image file it was decoded from. *)
Record Texture2D : Type := { tex_path : string }.

(** [material.IMaterial]: a pointer to either kind of material. *)
Inductive IMaterial : Type :=
| INormals (p : loc)
| IStandard (p : loc).

(** One material binding of a mesh: the material and the geometry group
    it covers ([None]: the whole geometry). *)
Record GraphicMaterial : Type := {
  imat : IMaterial;
  group : option nat
}.

Record Mesh : Type := {
  geom : Geometry;
  materials : list GraphicMaterial;
  position : Vector3;
  rotation : Vector3
}.

(** Children of the scene node. Meshes are shared with the demo object and
    therefore live on the heap. *)
Inductive INode : Type :=
| NodeLight (l : Directional)
| NodeAxis (size : GoConst)
| NodeMesh (p : option loc).

(** [renderer.AddProgram] arguments. *)
Record ProgramInfo : Type := {
  Vertex : string;
  Fragment : string;
  GeometryStage : string
}.

(** The demo object of [shader_geometry.go]. *)
Record ShaderGeometry : Type := {
  ctx : option unit;
  plane : option loc;
  box : option loc;
  sphere : option loc;
  showWireframe : Z;
  showVnormal : Z;
  showFnormal : Z;
  rotate : bool
}.

(** [&ShaderGeometry{}]: every field has its zero value. *)
Definition ShaderGeometry_zero : ShaderGeometry :=
  {| ctx := None; plane := None; box := None; sphere := None;
     showWireframe := 0; showVnormal := 0; showFnormal := 0; rotate := false |}.

(** The four function literals subscribed in [ShaderGeometry.Initialize],
    each with the variables it captures ([t], and [mat] where used). *)
Inductive Closure : Type :=
| OnRotate (t : loc)
| OnWireframe (t mat : loc)
| OnVnormal (t mat : loc)
| OnFnormal (t mat : loc).

(** [gui.CheckRadio] and the control folder holding it. *)
Record CheckBox : Type := {
  cb_label : string;
  cb_value : bool;
  cb_subs : list (string * Closure)
}.

Record Group : Type := {
  g_name : string;
  g_checks : list CheckBox
}.

Record ControlFolder : Type := { groups : list Group }.

(** A registered demo: the interface value stored in the lookup table. *)
Inductive IDemo : Type :=
| DemoShaderGeometry (t : loc)
| DemoSkybox.

(** The [error] returned by the texture loader for an image it cannot load. *)
Inductive error : Type := ErrLoad (path : string).

(** A [FATAL] record of the host logger: format string and argument. *)
Record LogEntry : Type := {
  log_format : string;
  log_arg : error
}.

(** Field updates of the records above. *)
Definition set_vX (x : f32) (r : Vector3) : Vector3 :=
  {| vX := x; vY := vY r; vZ := vZ r |}.
Definition set_vY (x : f32) (r : Vector3) : Vector3 :=
  {| vX := vX r; vY := x; vZ := vZ r |}.
Definition set_vZ (x : f32) (r : Vector3) : Vector3 :=
  {| vX := vX r; vY := vY r; vZ := x |}.

Definition set_fontSize (x : option GoConst) (r : Label) : Label :=
  {| text := text r; fontSize := x; labelPos := labelPos r |}.
Definition set_labelPos (x : option (GoConst * GoConst)) (r : Label) : Label :=
  {| text := text r; fontSize := fontSize r; labelPos := x |}.

Definition set_lightPos (x : Vector3) (r : Directional) : Directional :=
  {| lightColor := lightColor r; intensity := intensity r; lightPos := x |}.

Definition set_refcount (x : Z) (r : Material) : Material :=
  {| refcount := x; shader := shader r; side := side r; mtextures := mtextures r |}.
Definition set_shader (x : string) (r : Material) : Material :=
  {| refcount := refcount r; shader := x; side := side r; mtextures := mtextures r |}.
Definition set_side (x : Side) (r : Material) : Material :=
  {| refcount := refcount r; shader := shader r; side := x; mtextures := mtextures r |}.
Definition set_mtextures (x : list (option loc)) (r : Material) : Material :=
  {| refcount := refcount r; shader := shader r; side := side r; mtextures := x |}.

Definition set_nm_Material (x : Material) (r : NormalsMaterial) : NormalsMaterial :=
  {| nm_Material := x; ShowWireframe := ShowWireframe r; ShowVnormal := ShowVnormal r;
     ShowFnormal := ShowFnormal r |}.
Definition set_ShowWireframe (x : Uniform1i) (r : NormalsMaterial) : NormalsMaterial :=
  {| nm_Material := nm_Material r; ShowWireframe := x; ShowVnormal := ShowVnormal r;
     ShowFnormal := ShowFnormal r |}.
Definition set_ShowVnormal (x : Uniform1i) (r : NormalsMaterial) : NormalsMaterial :=
  {| nm_Material := nm_Material r; ShowWireframe := ShowWireframe r; ShowVnormal := x;
     ShowFnormal := ShowFnormal r |}.
Definition set_ShowFnormal (x : Uniform1i) (r : NormalsMaterial) : NormalsMaterial :=
  {| nm_Material := nm_Material r; ShowWireframe := ShowWireframe r;
     ShowVnormal := ShowVnormal r; ShowFnormal := x |}.

Definition set_std_Material (x : Material) (r : Standard) : Standard :=
  {| std_Material := x; std_color := std_color r |}.

Definition set_materials (x : list GraphicMaterial) (r : Mesh) : Mesh :=
  {| geom := geom r; materials := x; position := position r; rotation := rotation r |}.
Definition set_position (x : Vector3) (r : Mesh) : Mesh :=
  {| geom := geom r; materials := materials r; position := x; rotation := rotation r |}.
Definition set_rotation (x : Vector3) (r : Mesh) : Mesh :=
  {| geom := geom r; materials := materials r; position := position r; rotation := x |}.

Definition set_plane (x : option loc) (r : ShaderGeometry) : ShaderGeometry :=
  {| ctx := ctx r; plane := x; box := box r; sphere := sphere r;
     showWireframe := showWireframe r; showVnormal := showVnormal r;
     showFnormal := showFnormal r; rotate := rotate r |}.
Definition set_box (x : option loc) (r : ShaderGeometry) : ShaderGeometry :=
  {| ctx := ctx r; plane := plane r; box := x; sphere := sphere r;
     showWireframe := showWireframe r; showVnormal := showVnormal r;
     showFnormal := showFnormal r; rotate := rotate r |}.
Definition set_sphere (x : option loc) (r : ShaderGeometry) : ShaderGeometry :=
  {| ctx := ctx r; plane := plane r; box := box r; sphere := x;
     showWireframe := showWireframe r; showVnormal := showVnormal r;
     showFnormal := showFnormal r; rotate := rotate r |}.
Definition set_showWireframe (x : Z) (r : ShaderGeometry) : ShaderGeometry :=
  {| ctx := ctx r; plane := plane r; box := box r; sphere := sphere r;
     showWireframe := x; showVnormal := showVnormal r; showFnormal := showFnormal r;
     rotate := rotate r |}.
Definition set_showVnormal (x : Z) (r : ShaderGeometry) : ShaderGeometry :=
  {| ctx := ctx r; plane := plane r; box := box r; sphere := sphere r;
     showWireframe := showWireframe r; showVnormal := x; showFnormal := showFnormal r;
     rotate := rotate r |}.
Definition set_showFnormal (x : Z) (r : ShaderGeometry) : ShaderGeometry :=
  {| ctx := ctx r; plane := plane r; box := box r; sphere := sphere r;
     showWireframe := showWireframe r; showVnormal := showVnormal r; showFnormal := x;
     rotate := rotate r |}.
Definition set_rotate (x : bool) (r : ShaderGeometry) : ShaderGeometry :=
  {| ctx := ctx r; plane := plane r; box := box r; sphere := sphere r;
     showWireframe := showWireframe r; showVnormal := showVnormal r;
     showFnormal := showFnormal r; rotate := x |}.

Definition set_cb_value (x : bool) (r : CheckBox) : CheckBox :=
  {| cb_label := cb_label r; cb_value := x; cb_subs := cb_subs r |}.
Definition set_cb_subs (x : list (string * Closure)) (r : CheckBox) : CheckBox :=
  {| cb_label := cb_label r; cb_value := cb_value r; cb_subs := x |}.

Definition set_g_checks (x : list CheckBox) (r : Group) : Group :=
  {| g_name := g_name r; g_checks := x |}.


(** ** The host *)

(** Modelled from the spec: the host types [Context] and [app.App] are not
    part of the sources.  [World] gathers what the demos reach through them
    ([Gui], [Scene], [Renderer], [Control]; [Scene()], [DirData()], [Log()]),
    the host-supplied frame delta-time, the image files on disk, the two
    lookup tables, and the heap objects the demos allocate. *)
Record World : Type := {
  Gui : list Label;
  Scene : list INode;
  Shaders : gmap string string;
  Programs : gmap string ProgramInfo;
  Control : option ControlFolder;
  FrameDelta : f32;
  DirData : string;
  Images : gmap string unit;
  Log : list LogEntry;
  meshes : list Mesh;
  nmats : list NormalsMaterial;
  smats : list Standard;
  texs : list Texture2D;
  sgs : list ShaderGeometry;
  TestMap : gmap string IDemo;
  demos_Map : gmap string IDemo
}.

Definition set_Gui (x : list Label) (r : World) : World :=
  {| Gui := x; Scene := Scene r; Shaders := Shaders r; Programs := Programs r;
     Control := Control r; FrameDelta := FrameDelta r; DirData := DirData r;
     Images := Images r; Log := Log r; meshes := meshes r; nmats := nmats r;
     smats := smats r; texs := texs r; sgs := sgs r; TestMap := TestMap r;
     demos_Map := demos_Map r |}.
Definition set_Scene (x : list INode) (r : World) : World :=
  {| Gui := Gui r; Scene := x; Shaders := Shaders r; Programs := Programs r;
     Control := Control r; FrameDelta := FrameDelta r; DirData := DirData r;
     Images := Images r; Log := Log r; meshes := meshes r; nmats := nmats r;
     smats := smats r; texs := texs r; sgs := sgs r; TestMap := TestMap r;
     demos_Map := demos_Map r |}.
Definition set_Shaders (x : gmap string string) (r : World) : World :=
  {| Gui := Gui r; Scene := Scene r; Shaders := x; Programs := Programs r;
     Control := Control r; FrameDelta := FrameDelta r; DirData := DirData r;
     Images := Images r; Log := Log r; meshes := meshes r; nmats := nmats r;
     smats := smats r; texs := texs r; sgs := sgs r; TestMap := TestMap r;
     demos_Map := demos_Map r |}.
Definition set_Programs (x : gmap string ProgramInfo) (r : World) : World :=
  {| Gui := Gui r; Scene := Scene r; Shaders := Shaders r; Programs := x;
     Control := Control r; FrameDelta := FrameDelta r; DirData := DirData r;
     Images := Images r; Log := Log r; meshes := meshes r; nmats := nmats r;
     smats := smats r; texs := texs r; sgs := sgs r; TestMap := TestMap r;
     demos_Map := demos_Map r |}.
Definition set_Control (x : option ControlFolder) (r : World) : World :=
  {| Gui := Gui r; Scene := Scene r; Shaders := Shaders r; Programs := Programs r;
     Control := x; FrameDelta := FrameDelta r; DirData := DirData r;
     Images := Images r; Log := Log r; meshes := meshes r; nmats := nmats r;
     smats := smats r; texs := texs r; sgs := sgs r; TestMap := TestMap r;
     demos_Map := demos_Map r |}.
Definition set_FrameDelta (x : f32) (r : World) : World :=
  {| Gui := Gui r; Scene := Scene r; Shaders := Shaders r; Programs := Programs r;
     Control := Control r; FrameDelta := x; DirData := DirData r; Images := Images r;
     Log := Log r; meshes := meshes r; nmats := nmats r; smats := smats r;
     texs := texs r; sgs := sgs r; TestMap := TestMap r; demos_Map := demos_Map r |}.
Definition set_Log (x : list LogEntry) (r : World) : World :=
  {| Gui := Gui r; Scene := Scene r; Shaders := Shaders r; Programs := Programs r;
     Control := Control r; FrameDelta := FrameDelta r; DirData := DirData r;
     Images := Images r; Log := x; meshes := meshes r; nmats := nmats r;
     smats := smats r; texs := texs r; sgs := sgs r; TestMap := TestMap r;
     demos_Map := demos_Map r |}.
Definition set_meshes (x : list Mesh) (r : World) : World :=
  {| Gui := Gui r; Scene := Scene r; Shaders := Shaders r; Programs := Programs r;
     Control := Control r; FrameDelta := FrameDelta r; DirData := DirData r;
     Images := Images r; Log := Log r; meshes := x; nmats := nmats r; smats := smats r;
     texs := texs r; sgs := sgs r; TestMap := TestMap r; demos_Map := demos_Map r |}.
Definition set_nmats (x : list NormalsMaterial) (r : World) : World :=
  {| Gui := Gui r; Scene := Scene r; Shaders := Shaders r; Programs := Programs r;
     Control := Control r; FrameDelta := FrameDelta r; DirData := DirData r;
     Images := Images r; Log := Log r; meshes := meshes r; nmats := x;
     smats := smats r; texs := texs r; sgs := sgs r; TestMap := TestMap r;
     demos_Map := demos_Map r |}.
Definition set_smats (x : list Standard) (r : World) : World :=
  {| Gui := Gui r; Scene := Scene r; Shaders := Shaders r; Programs := Programs r;
     Control := Control r; FrameDelta := FrameDelta r; DirData := DirData r;
     Images := Images r; Log := Log r; meshes := meshes r; nmats := nmats r;
     smats := x; texs := texs r; sgs := sgs r; TestMap := TestMap r;
     demos_Map := demos_Map r |}.
Definition set_texs (x : list Texture2D) (r : World) : World :=
  {| Gui := Gui r; Scene := Scene r; Shaders := Shaders r; Programs := Programs r;
     Control := Control r; FrameDelta := FrameDelta r; DirData := DirData r;
     Images := Images r; Log := Log r; meshes := meshes r; nmats := nmats r;
     smats := smats r; texs := x; sgs := sgs r; TestMap := TestMap r;
     demos_Map := demos_Map r |}.
Definition set_sgs (x : list ShaderGeometry) (r : World) : World :=
  {| Gui := Gui r; Scene := Scene r; Shaders := Shaders r; Programs := Programs r;
     Control := Control r; FrameDelta := FrameDelta r; DirData := DirData r;
     Images := Images r; Log := Log r; meshes := meshes r; nmats := nmats r;
     smats := smats r; texs := texs r; sgs := x; TestMap := TestMap r;
     demos_Map := demos_Map r |}.
Definition set_TestMap (x : gmap string IDemo) (r : World) : World :=
  {| Gui := Gui r; Scene := Scene r; Shaders := Shaders r; Programs := Programs r;
     Control := Control r; FrameDelta := FrameDelta r; DirData := DirData r;
     Images := Images r; Log := Log r; meshes := meshes r; nmats := nmats r;
     smats := smats r; texs := texs r; sgs := sgs r; TestMap := x;
     demos_Map := demos_Map r |}.
Definition set_demos_Map (x : gmap string IDemo) (r : World) : World :=
  {| Gui := Gui r; Scene := Scene r; Shaders := Shaders r; Programs := Programs r;
     Control := Control r; FrameDelta := FrameDelta r; DirData := DirData r;
     Images := Images r; Log := Log r; meshes := meshes r; nmats := nmats r;
     smats := smats r; texs := texs r; sgs := sgs r; TestMap := TestMap r;
     demos_Map := x |}.

(** ** The monad of demo code *)

(** A call either returns, ends the program through the logger's fatal
    call, or hits a Go run-time panic (a nil or dangling pointer). *)
Inductive Outcome (A : Type) : Type :=
| Done (a : A) (w : World)
| Aborted (w : World)
| Panic.
Arguments Done {A} a w.
Arguments Aborted {A} w.
Arguments Panic {A}.

Definition M (A : Type) : Type := World -> Outcome A.

#[export] Instance M_ret : MRet M := λ A a w, Done a w.

#[export] Instance M_bind : MBind M := λ A B f m w,
  match m w with
  | Done a w' => f a w'
  | Aborted w' => Aborted w'
  | Panic => Panic
  end.

Definition update (f : World -> World) : M unit := λ w, Done tt (f w).

Definition panic {A : Type} : M A := λ _, Panic.

(** [*p] for a pointer into one of the heaps. *)
Definition load {A : Type} (heap : World -> list A) (p : option loc) : M A :=
  λ w, match p with
       | Some l => match heap w !! l with
                   | Some a => Done a w
                   | None => Panic
                   end
       | None => Panic
       end.

(** [new(T)] / a constructor returning a fresh pointer. *)
Definition alloc {A : Type} (heap : World -> list A)
    (set_heap : list A -> World -> World) (a : A) : M loc :=
  λ w, Done (length (heap w)) (set_heap (heap w ++ [a]) w).

(** An update through a pointer. *)
Definition store {A : Type} (heap : World -> list A)
    (set_heap : list A -> World -> World) (p : option loc) (f : A -> A) : M unit :=
  a ← load heap p;
  update (λ w, match p with
               | Some l => set_heap (<[l := f a]> (heap w)) w
               | None => w
               end).

(** [for i := from; i < from + count; i++ { body }] *)
Fixpoint for_range (from : nat) (count : nat) (body : nat -> M unit) : M unit :=
  match count with
  | O => mret tt
  | S count' => body from ;; for_range (S from) count' body
  end.

(** ** Engine calls *)

Definition gui_NewLabel (s : string) : Label :=
  {| text := s; fontSize := None; labelPos := None |}.
Definition Label_SetFontSize (size : GoConst) (l : Label) : Label :=
  set_fontSize (Some size) l.
Definition Label_SetPosition (x y : GoConst) (l : Label) : Label :=
  set_labelPos (Some (x, y)) l.
Definition Gui_Add (l : Label) : M unit :=
  update (λ w, set_Gui (Gui w ++ [l]) w).

Definition math32_NewColor (r g b : GoConst) : Color := {| R := r; G := g; B := b |}.
Definition light_NewDirectional (c : Color) (i : GoConst) : Directional :=
  {| lightColor := c; intensity := i; lightPos := vec3 (int 0) (int 0) (int 0) |}.
Definition Directional_SetPosition (x y z : GoConst) (l : Directional) : Directional :=
  set_lightPos (vec3 x y z) l.

Definition Scene_Add (n : INode) : M unit :=
  update (λ w, set_Scene (Scene w ++ [n]) w).

Definition Renderer_AddShader (name source : string) : M unit :=
  update (λ w, set_Shaders (<[name := source]> (Shaders w)) w).
Definition Renderer_AddProgram (name vertex frag : string) (others : list string) : M unit :=
  update (λ w, set_Programs
    (<[name := {| Vertex := vertex; Fragment := frag;
                  GeometryStage := default "" (head others) |}]> (Programs w)) w).

(** [Material.Init] *)
Definition Material_Init (m : Material) : Material :=
  {| refcount := 1; shader := ""; side := SideFront; mtextures := [] |}.
Definition Material_SetShader (sname : string) (m : Material) : Material :=
  set_shader sname m.
Definition Material_Incref (m : Material) : Material :=
  set_refcount (refcount m + 1) m.
Definition Material_AddTexture (tex : option loc) (m : Material) : Material :=
  set_mtextures (mtextures m ++ [tex]) m.
Definition Material_SetSide (s : Side) (m : Material) : Material :=
  set_side s m.

Definition Uniform1i_Init (name : string) (u : Uniform1i) : Uniform1i :=
  {| uname := name; v0 := v0 u |}.
Definition Uniform1i_Set (v : Z) (u : Uniform1i) : Uniform1i :=
  {| uname := uname u; v0 := v |}.

Definition material_NewStandard (c : Color) : M loc :=
  alloc smats set_smats
    {| std_Material := Material_Init {| refcount := 0; shader := ""; side := SideFront; mtextures := [] |};
       std_color := c |}.
Definition Standard_AddTexture (p : loc) (tex : option loc) : M unit :=
  store smats set_smats (Some p) (λ s, set_std_Material (Material_AddTexture tex (std_Material s)) s).
Definition Standard_SetSide (p : loc) (sd : Side) : M unit :=
  store smats set_smats (Some p) (λ s, set_std_Material (Material_SetSide sd (std_Material s)) s).

(** [graphic.NewMesh(geom, imat)]: a node at the origin, unrotated; a
    non-nil material covers the whole geometry. *)
Definition graphic_NewMesh (g : Geometry) (im : option IMaterial) : M loc :=
  alloc meshes set_meshes
    {| geom := g;
       materials := match im with
                    | Some i => [ {| imat := i; group := None |} ]
                    | None => []
                    end;
       position := vec3 (int 0) (int 0) (int 0);
       rotation := vec3 (int 0) (int 0) (int 0) |}.
Definition Mesh_SetPosition (p : option loc) (x y z : GoConst) : M unit :=
  store meshes set_meshes p (set_position (vec3 x y z)).
Definition Mesh_AddRotationX (p : option loc) (x : GoConst) : M unit :=
  store meshes set_meshes p
    (λ m, set_rotation (set_vX (f32_add (vX (rotation m)) (f32_const x)) (rotation m)) m).
Definition Mesh_AddRotationY (p : option loc) (y : GoConst) : M unit :=
  store meshes set_meshes p
    (λ m, set_rotation (set_vY (f32_add (vY (rotation m)) (f32_const y)) (rotation m)) m).
Definition Mesh_AddRotationZ (p : option loc) (z : GoConst) : M unit :=
  store meshes set_meshes p
    (λ m, set_rotation (set_vZ (f32_add (vZ (rotation m)) (f32_const z)) (rotation m)) m).
Definition Mesh_AddGroupMaterial (p : loc) (im : IMaterial) (gindex : nat) : M unit :=
  store meshes set_meshes (Some p)
    (λ m, set_materials (materials m ++ [ {| imat := im; group := Some gindex |} ]) m).

(** [texture.NewTexture2DFromImage]: the pair [(tex, err)]. *)
Definition texture_NewTexture2DFromImage (path : string) : M (option loc * option error) :=
  λ w, match Images w !! path with
       | Some _ => Done (Some (length (texs w)), None)
                        (set_texs (texs w ++ [ {| tex_path := path |} ]) w)
       | None => Done (None, Some (ErrLoad path)) w
       end.

(** [Logger.Fatal]: the record is written and the program ends. *)
Definition Log_Fatal {A : Type} (format : string) (arg : error) : M A :=
  λ w, Aborted (set_Log (Log w ++ [ {| log_format := format; log_arg := arg |} ]) w).

(** The control folder. A group is addressed by its index in the folder,
    a check box by the index of its group and its index in the group. *)
Definition gui_OnChange : string := "gui.OnChange".

Definition Control_AddGroup (name : string) : M nat :=
  λ w, match Control w with
       | Some cf =>
           Done (length (groups cf))
                (set_Control (Some {| groups := groups cf ++ [ {| g_name := name; g_checks := [] |} ] |}) w)
       | None => Panic
       end.

Definition load_group (g : nat) : M Group :=
  λ w, match Control w with
       | Some cf => match groups cf !! g with
                    | Some gr => Done gr w
                    | None => Panic
                    end
       | None => Panic
       end.

Definition store_group (g : nat) (f : Group -> Group) : M unit :=
  gr ← load_group g;
  update (λ w, match Control w with
               | Some cf => set_Control (Some {| groups := <[g := f gr]> (groups cf) |}) w
               | None => w
               end).

Definition load_check (cb : nat * nat) : M CheckBox :=
  gr ← load_group cb.1;
  match g_checks gr !! cb.2 return M CheckBox with
  | Some c => mret c
  | None => panic
  end.

Definition store_check (cb : nat * nat) (f : CheckBox -> CheckBox) : M unit :=
  c ← load_check cb;
  store_group cb.1 (λ gr, set_g_checks (<[cb.2 := f c]> (g_checks gr)) gr).

Definition Group_AddCheckBox (g : nat) (label : string) : M (nat * nat) :=
  gr ← load_group g;
  store_group g (set_g_checks
    (g_checks gr ++ [ {| cb_label := label; cb_value := false; cb_subs := [] |} ]));;
  mret (g, length (g_checks gr)).

Definition CheckBox_SetValue (cb : nat * nat) (state : bool) : M (nat * nat) :=
  store_check cb (set_cb_value state);;
  mret cb.

Definition CheckBox_Subscribe (cb : nat * nat) (evname : string) (cl : Closure) : M unit :=
  c ← load_check cb;
  store_check cb (set_cb_subs (cb_subs c ++ [(evname, cl)])).


Definition get_Control : M (option ControlFolder) := λ w, Done (Control w) w.
Definition get_DirData : M string := λ w, Done (DirData w) w.

(** ** [shader_geometry.go] *)

Definition init_shader_geometry : M unit :=
  t ← alloc sgs set_sgs ShaderGeometry_zero;
  update (λ w, set_TestMap (<["shader.geometry" := DemoShaderGeometry t]> (TestMap w)) w).

Definition NormalsMaterial_zero : NormalsMaterial :=
  {| nm_Material := {| refcount := 0; shader := ""; side := SideFront; mtextures := [] |};
     ShowWireframe := {| uname := ""; v0 := 0 |};
     ShowVnormal := {| uname := ""; v0 := 0 |};
     ShowFnormal := {| uname := ""; v0 := 0 |} |}.

(** The material is built in place and only then returned, so the
    statements act on the local value [m] before it is put on the heap. *)
Definition newNormalsMaterial : M loc :=
  let m := NormalsMaterial_zero in
  let m := set_nm_Material (Material_Init (nm_Material m)) m in
  let m := set_nm_Material (Material_SetShader "progGSDemo" (nm_Material m)) m in
  let m := set_ShowWireframe (Uniform1i_Init "ShowWireframe" (ShowWireframe m)) m in
  let m := set_ShowVnormal (Uniform1i_Init "ShowVnormal" (ShowVnormal m)) m in
  let m := set_ShowFnormal (Uniform1i_Init "ShowFnormal" (ShowFnormal m)) m in
  let m := set_ShowWireframe (Uniform1i_Set 1 (ShowWireframe m)) m in
  let m := set_ShowVnormal (Uniform1i_Set 1 (ShowVnormal m)) m in
  let m := set_ShowFnormal (Uniform1i_Set 1 (ShowFnormal m)) m in
  alloc nmats set_nmats m.

Definition NormalsMaterial_Incref (mat : loc) : M unit :=
  store nmats set_nmats (Some mat)
    (λ m, set_nm_Material (Material_Incref (nm_Material m)) m).

(** The bodies of the four [OnChange] function literals. *)
Definition call (cl : Closure) (evname : string) : M unit :=
  match cl with
  | OnRotate t =>
      s ← load sgs (Some t);
      store sgs set_sgs (Some t) (set_rotate (negb (rotate s)))
  | OnWireframe t mat =>
      s ← load sgs (Some t);
      (if showWireframe s =? 0
       then store sgs set_sgs (Some t) (set_showWireframe 1)
       else store sgs set_sgs (Some t) (set_showWireframe 0));;
      s ← load sgs (Some t);
      store nmats set_nmats (Some mat)
        (λ m, set_ShowWireframe (Uniform1i_Set (showWireframe s) (ShowWireframe m)) m)
  | OnVnormal t mat =>
      s ← load sgs (Some t);
      (if showVnormal s =? 0
       then store sgs set_sgs (Some t) (set_showVnormal 1)
       else store sgs set_sgs (Some t) (set_showVnormal 0));;
      s ← load sgs (Some t);
      store nmats set_nmats (Some mat)
        (λ m, set_ShowVnormal (Uniform1i_Set (showVnormal s) (ShowVnormal m)) m)
  | OnFnormal t mat =>
      s ← load sgs (Some t);
      (if showFnormal s =? 0
       then store sgs set_sgs (Some t) (set_showFnormal 1)
       else store sgs set_sgs (Some t) (set_showFnormal 0));;
      s ← load sgs (Some t);
      store nmats set_nmats (Some mat)
        (λ m, set_ShowFnormal (Uniform1i_Set (showFnormal s) (ShowFnormal m)) m)
  end.

(** The host delivering an event to the subscribers of a check box. *)
Fixpoint call_all (subs : list (string * Closure)) (evname : string) : M unit :=
  match subs with
  | [] => mret tt
  | (n, cl) :: rest =>
      (if String.eqb n evname then call cl evname else mret tt);;
      call_all rest evname
  end.

Definition Dispatch (cb : nat * nat) (evname : string) : M unit :=
  c ← load_check cb;
  call_all (cb_subs c) evname.

Definition ShaderGeometry_Initialize (t : loc) : M unit :=
  let help := "Wireframe, vertex and face normals generated by Geometry Shader" in
  let label1 := gui_NewLabel help in
  let label1 := Label_SetFontSize (int 16) label1 in
  let label1 := Label_SetPosition (int 10) (int 10) label1 in
  Gui_Add label1;;
  let dir1 := light_NewDirectional (math32_NewColor (int 1) (int 1) (int 1)) (Num 6 (-1)) in
  let dir1 := Directional_SetPosition (int 0) (int 0) (int 100) dir1 in
  Scene_Add (NodeLight dir1);;
  let axis := NodeAxis (int 1) in
  Scene_Add axis;;
  Renderer_AddShader "shaderGSDemoVertex" sourceGSDemoVertex;;
  Renderer_AddShader "shaderGSDemoGeometry" sourceGSDemoGeometry;;
  Renderer_AddShader "shaderGSDemoFrag" sourceGSDemoFrag;;
  Renderer_AddProgram "progGSDemo" "shaderGSDemoVertex" "shaderGSDemoFrag"
    ["shaderGSDemoGeometry"];;
  mat ← newNormalsMaterial;
  let planeGeom := NewPlane (int 1) (int 1) (int 1) (int 1) in
  NormalsMaterial_Incref mat;;
  m ← graphic_NewMesh planeGeom (Some (INormals mat));
  store sgs set_sgs (Some t) (set_plane (Some m));;
  s ← load sgs (Some t);
  Mesh_SetPosition (plane s) (Num (-22) (-1)) (int 0) (int 0);;
  Scene_Add (NodeMesh (plane s));;
  let boxGeom := NewBox (int 1) (int 1) (int 1) (int 1) (int 1) (int 1) in
  NormalsMaterial_Incref mat;;
  m ← graphic_NewMesh boxGeom (Some (INormals mat));
  store sgs set_sgs (Some t) (set_box (Some m));;
  s ← load sgs (Some t);
  Mesh_SetPosition (box s) (int 0) (int 0) (int 0);;
  Scene_Add (NodeMesh (box s));;
  let sphereGeom := NewSphere (Num 8 (-1)) (int 4) (int 4)
                      (int 0) (Mul Pi (int 2)) (int 0) Pi in
  NormalsMaterial_Incref mat;;
  m ← graphic_NewMesh sphereGeom (Some (INormals mat));
  store sgs set_sgs (Some t) (set_sphere (Some m));;
  s ← load sgs (Some t);
  Mesh_SetPosition (sphere s) (Num 22 (-1)) (int 0) (int 0);;
  Scene_Add (NodeMesh (sphere s));;
  control ← get_Control;
  match control return M unit with
  | None => mret tt
  | Some _ =>
      store sgs set_sgs (Some t) (set_showWireframe 1);;
      store sgs set_sgs (Some t) (set_showVnormal 1);;
      store sgs set_sgs (Some t) (set_showFnormal 1);;
      store sgs set_sgs (Some t) (set_rotate true);;
      g1 ← Control_AddGroup "Show";
      cb0 ← Group_AddCheckBox g1 "Rotate" ≫= λ c, CheckBox_SetValue c true;
      CheckBox_Subscribe cb0 gui_OnChange (OnRotate t);;
      cb1 ← Group_AddCheckBox g1 "Wireframe" ≫= λ c, CheckBox_SetValue c true;
      CheckBox_Subscribe cb1 gui_OnChange (OnWireframe t mat);;
      cb2 ← Group_AddCheckBox g1 "Vertex normals" ≫= λ c, CheckBox_SetValue c true;
      CheckBox_Subscribe cb2 gui_OnChange (OnVnormal t mat);;
      cb3 ← Group_AddCheckBox g1 "Face normals" ≫= λ c, CheckBox_SetValue c true;
      CheckBox_Subscribe cb3 gui_OnChange (OnFnormal t mat)
  end.

Definition ShaderGeometry_Render (t : loc) : M unit :=
  s ← load sgs (Some t);
  if rotate s then
    Mesh_AddRotationX (plane s) (Num 1 (-2));;
    s ← load sgs (Some t);
    Mesh_AddRotationY (box s) (Num 1 (-2));;
    s ← load sgs (Some t);
    Mesh_AddRotationZ (sphere s) (Num 5 (-3))
  else mret tt.

(** ** The skybox demo *)

Definition init_skybox : M unit :=
  update (λ w, set_demos_Map (<["skybox.sanfrancisco" := DemoSkybox]> (demos_Map w)) w).

Definition textures : list string := [
  "sanfrancisco/posx.jpg";
  "sanfrancisco/negx.jpg";
  "sanfrancisco/posy.jpg";
  "sanfrancisco/negy.jpg";
  "sanfrancisco/posz.jpg";
  "sanfrancisco/negz.jpg"
].

(** [textures[i]], with the run-time bounds check. *)
Definition index (l : list string) (i : nat) : M string :=
  match l !! i return M string with
  | Some s => mret s
  | None => panic
  end.

(** One iteration of the loop over the six faces. *)
Definition Skybox_face (skybox : loc) (i : nat) : M unit :=
  dir ← get_DirData;
  name ← index textures i;
  r ← texture_NewTexture2DFromImage (dir +:+ "/images/" +:+ name);
  match r.2 return M unit with
  | Some err => Log_Fatal "Error loading texture: %s" err
  | None => mret tt
  end;;
  matFace ← material_NewStandard {| R := int 1; G := int 1; B := int 1 |};
  Standard_AddTexture matFace r.1;;
  Standard_SetSide matFace SideBack;;
  Mesh_AddGroupMaterial skybox (IStandard matFace) i.

Definition Skybox_Initialize : M unit :=
  let axis := NodeAxis (int 2) in
  Scene_Add axis;;
  let geom := NewBox (int 50) (int 50) (int 50) (int 2) (int 2) (int 2) in
  skybox ← graphic_NewMesh geom None;
  for_range 0 6 (Skybox_face skybox);;
  Scene_Add (NodeMesh (Some skybox)).

Definition Skybox_Render : M unit := mret tt.

(** ** The demo interface: the two hooks the host calls *)

Definition Initialize (d : IDemo) : M unit :=
  match d with
  | DemoShaderGeometry t => ShaderGeometry_Initialize t
  | DemoSkybox => Skybox_Initialize
  end.

Definition Render (d : IDemo) : M unit :=
  match d with
  | DemoShaderGeometry t => ShaderGeometry_Render t
  | DemoSkybox => Skybox_Render
  end.

(** A demo name as the host builds it: category, a dot, the name. *)
Definition demo_name (category name : string) : string :=
  category +:+ "." +:+ name.


(** The state [ShaderGeometry.Initialize] builds, written out. *)

Definition helpLabel : Label :=
  {| text := "Wireframe, vertex and face normals generated by Geometry Shader";
     fontSize := Some (int 16);
     labelPos := Some (int 10, int 10) |}.

Definition frontLight : Directional :=
  {| lightColor := {| R := int 1; G := int 1; B := int 1 |};
     intensity := Num 6 (-1);
     lightPos := vec3 (int 0) (int 0) (int 100) |}.

Definition normalsMesh (g : Geometry) (mat : loc) (x : GoConst) : Mesh :=
  {| geom := g;
     materials := [ {| imat := INormals mat; group := None |} ];
     position := vec3 x (int 0) (int 0);
     rotation := vec3 (int 0) (int 0) (int 0) |}.

Definition normalsMaterial (rc w v f : Z) : NormalsMaterial :=
  {| nm_Material := {| refcount := rc; shader := "progGSDemo";
                       side := SideFront; mtextures := [] |};
     ShowWireframe := {| uname := "ShowWireframe"; v0 := w |};
     ShowVnormal := {| uname := "ShowVnormal"; v0 := v |};
     ShowFnormal := {| uname := "ShowFnormal"; v0 := f |} |}.

Definition showGroup (t mat : loc) : Group :=
  {| g_name := "Show";
     g_checks := [
       {| cb_label := "Rotate"; cb_value := true;
          cb_subs := [(gui_OnChange, OnRotate t)] |};
       {| cb_label := "Wireframe"; cb_value := true;
          cb_subs := [(gui_OnChange, OnWireframe t mat)] |};
       {| cb_label := "Vertex normals"; cb_value := true;
          cb_subs := [(gui_OnChange, OnVnormal t mat)] |};
       {| cb_label := "Face normals"; cb_value := true;
          cb_subs := [(gui_OnChange, OnFnormal t mat)] |} ] |}.

Definition initialized (t : loc) (s : ShaderGeometry) (w : World) : World :=
  let n := length (meshes w) in
  let mat := length (nmats w) in
  {| Gui := Gui w ++ [helpLabel];
     Scene := Scene w ++ [NodeLight frontLight; NodeAxis (int 1);
                          NodeMesh (Some n); NodeMesh (Some (S n));
                          NodeMesh (Some (S (S n)))];
     Shaders := <["shaderGSDemoFrag" := sourceGSDemoFrag]>
                  (<["shaderGSDemoGeometry" := sourceGSDemoGeometry]>
                     (<["shaderGSDemoVertex" := sourceGSDemoVertex]> (Shaders w)));
     Programs := <["progGSDemo" := {| Vertex := "shaderGSDemoVertex";
                                      Fragment := "shaderGSDemoFrag";
                                      GeometryStage := "shaderGSDemoGeometry" |}]>
                   (Programs w);
     Control := match Control w with
                | Some cf => Some {| groups := groups cf ++ [showGroup t mat] |}
                | None => None
                end;
     FrameDelta := FrameDelta w;
     DirData := DirData w;
     Images := Images w;
     Log := Log w;
     meshes := meshes w ++
               [normalsMesh (NewPlane (int 1) (int 1) (int 1) (int 1)) mat (Num (-22) (-1));
                normalsMesh (NewBox (int 1) (int 1) (int 1) (int 1) (int 1) (int 1)) mat (int 0);
                normalsMesh (NewSphere (Num 8 (-1)) (int 4) (int 4)
                               (int 0) (Mul Pi (int 2)) (int 0) Pi) mat (Num 22 (-1))];
     nmats := nmats w ++ [normalsMaterial 4 1 1 1];
     smats := smats w;
     texs := texs w;
     sgs := <[t := match Control w with
                   | Some _ =>
                       {| ctx := ctx s; plane := Some n; box := Some (S n);
                          sphere := Some (S (S n));
                          showWireframe := 1; showVnormal := 1; showFnormal := 1;
                          rotate := true |}
                   | None =>
                       {| ctx := ctx s; plane := Some n; box := Some (S n);
                          sphere := Some (S (S n));
                          showWireframe := showWireframe s;
                          showVnormal := showVnormal s;
                          showFnormal := showFnormal s;
                          rotate := rotate s |}
                   end]> (sgs w);
     TestMap := TestMap w;
     demos_Map := demos_Map w |}.

(** The value written by the three show handlers: [0] becomes [1], anything
    else becomes [0]. *)
Definition flip01 (v : Z) : Z := if v =? 0 then 1 else 0.

(** The effect of [AddRotationX], [AddRotationY], [AddRotationZ] on a mesh. *)
Definition rotatedX (x : GoConst) (m : Mesh) : Mesh :=
  set_rotation (set_vX (f32_add (vX (rotation m)) (f32_const x)) (rotation m)) m.
Definition rotatedY (y : GoConst) (m : Mesh) : Mesh :=
  set_rotation (set_vY (f32_add (vY (rotation m)) (f32_const y)) (rotation m)) m.
Definition rotatedZ (z : GoConst) (m : Mesh) : Mesh :=
  set_rotation (set_vZ (f32_add (vZ (rotation m)) (f32_const z)) (rotation m)) m.

(** ** The host loop after [Initialize] *)

(** Between two frames the host either renders or delivers [OnChange] to
    the [i]-th check box of a group of the control folder. *)
Inductive HostEvent : Type :=
| Frame
| Change (i : nat).

Definition host_step (t : loc) (g : nat) (e : HostEvent) : M unit :=
  match e with
  | Frame => ShaderGeometry_Render t
  | Change i => Dispatch (g, i) gui_OnChange
  end.

Fixpoint host_run (t : loc) (g : nat) (es : list HostEvent) : M unit :=
  match es with
  | [] => mret tt
  | e :: es' => host_step t g e;; host_run t g es'
  end.

(** The "Show" group has four check boxes. *)
Definition event_ok (e : HostEvent) : Prop :=
  match e with
  | Frame => True
  | Change i => (i < 4)%nat
  end.

Fixpoint repeat_m (n : nat) (m : M unit) : M unit :=
  match n with
  | O => mret tt
  | S n' => m;; repeat_m n' m
  end.

(** Each show field is 0 or 1 and is the value held by its uniform. *)
Definition toggles_consistent (t mat : loc) (w : World) : Prop :=
  ∃ s m, sgs w !! t = Some s ∧ nmats w !! mat = Some m ∧
    (showWireframe s = 0 ∨ showWireframe s = 1) ∧
    (showVnormal s = 0 ∨ showVnormal s = 1) ∧
    (showFnormal s = 0 ∨ showFnormal s = 1) ∧
    v0 (ShowWireframe m) = showWireframe s ∧
    v0 (ShowVnormal m) = showVnormal s ∧
    v0 (ShowFnormal m) = showFnormal s.

(** What [Initialize] establishes when a control folder is present and
    what every later event preserves. *)
Definition wired (t mat : loc) (g : nat) (w : World) : Prop :=
  toggles_consistent t mat w ∧
  (∃ cf, Control w = Some cf ∧ groups cf !! g = Some (showGroup t mat)) ∧
  (∃ s pl bx sp, sgs w !! t = Some s ∧
     plane s = Some pl ∧ box s = Some bx ∧ sphere s = Some sp ∧
     is_Some (meshes w !! pl) ∧ is_Some (meshes w !! bx) ∧
     is_Some (meshes w !! sp)).

(** ** The state [Skybox.Initialize] builds, written out *)

Definition face_path (w : World) (name : string) : string :=
  DirData w +:+ "/images/" +:+ name.

Definition faceTexture (w : World) (name : string) : Texture2D :=
  {| tex_path := face_path w name |}.

Definition faceMaterial (tex : loc) : Standard :=
  {| std_Material := {| refcount := 1; shader := ""; side := SideBack;
                        mtextures := [Some tex] |};
     std_color := {| R := int 1; G := int 1; B := int 1 |} |}.

Definition faceBinding (mat : loc) (i : nat) : GraphicMaterial :=
  {| imat := IStandard mat; group := Some i |}.

Definition skyboxMesh (bindings : list GraphicMaterial) : Mesh :=
  {| geom := NewBox (int 50) (int 50) (int 50) (int 2) (int 2) (int 2);
     materials := bindings;
     position := vec3 (int 0) (int 0) (int 0);
     rotation := vec3 (int 0) (int 0) (int 0) |}.

(** The world once the first [k] faces are attached to the new mesh. *)
Definition faces_attached (k : nat) (w : World) : World :=
  let nt := length (texs w) in
  let nm := length (smats w) in
  set_Scene (Scene w ++ [NodeAxis (int 2)])
    (set_meshes (meshes w ++ [skyboxMesh ((λ i, faceBinding (i + nm) i) <$> seq 0 k)])
       (set_smats (smats w ++ ((λ i, faceMaterial (i + nt)) <$> seq 0 k))
          (set_texs (texs w ++ (faceTexture w <$> take k textures)) w))).

Definition skybox_built (w : World) : World :=
  set_Scene (Scene w ++ [NodeAxis (int 2); NodeMesh (Some (length (meshes w)))])
    (faces_attached 6 w).

Definition fatal_entry (w : World) (name : string) : LogEntry :=
  {| log_format := "Error loading texture: %s"; log_arg := ErrLoad (face_path w name) |}.

(** The first of the six images that cannot be loaded, with its index. *)
Definition first_missing (w : World) : option (nat * string) :=
  list_find (λ name, Images w !! face_path w name = None) textures.

(** ** Calls that report nothing *)

(** A call is [quiet] when it never ends in the logger's fatal call and
    leaves the log as it found it. *)
Definition quiet {A : Type} (m : M A) : Prop :=
  ∀ w, match m w with
       | Done _ w' => Log w' = Log w
       | Aborted _ => False
       | Panic => True
       end.

End Demos.


Arguments Done {F32 A} a w.
Arguments Aborted {F32 A} w.
Arguments Panic {F32 A}.

(** * Concrete runs *)

(** The demos run on the term model of [float32], from a host that has a
    control folder, a data directory and the six skybox images. *)
Section Runs.
#[local] Existing Instance ExprFloat32.

Definition host : World :=
  {| Gui := []; Scene := []; Shaders := ∅; Programs := ∅;
     Control := Some {| groups := [] |};
     FrameDelta := FConst (Num 16 (-3));
     DirData := "data";
     Images := list_to_map ((λ name, ("data/images/" +:+ name, ())) <$> textures);
     Log := [];
     meshes := []; nmats := []; smats := []; texs := []; sgs := [];
     TestMap := ∅; demos_Map := ∅ |}.

Definition after {A : Type} (m : M A) (w : World) : World :=
  match m w with
  | Done _ w' => w'
  | Aborted w' => w'
  | Panic => w
  end.

(** The host after [init]: the demo object is at address 0. *)
Definition registered : World := after init_shader_geometry host.

(** The host after [init] and [Initialize]. *)
Definition started : World := after (ShaderGeometry_Initialize 0) registered.

(** The same without a control folder. *)
Definition headless : World := set_Control None registered.

(** Two frame delta-times: 16 ms and 33 ms. *)
Definition delta_16ms : f32 := FConst (Num 16 (-3)).
Definition delta_33ms : f32 := FConst (Num 33 (-3)).

Definition started_object : ShaderGeometry :=
  {| ctx := None; plane := Some 0%nat; box := Some 1%nat; sphere := Some 2%nat;
     showWireframe := 1; showVnormal := 1; showFnormal := 1; rotate := true |}.

End Runs.

(** * Rendering: [RenderSetup] and the geometry shader *)

(** ** Vectors of the shading language *)

(** The vector and matrix operations the geometry shader uses, left
    abstract like [float32].  [Vec3], [Vec4] and [Mat4] are the types
    [vec3], [vec4] and [mat4]. *)
Class GLSL : Type := {
  Vec3 : Type;
  Vec4 : Type;
  Mat4 : Type;
  vec4_of : GoConst -> GoConst -> GoConst -> GoConst -> Vec4;
  vec4_ext : Vec3 -> GoConst -> Vec4;
  xyz : Vec4 -> Vec3;
  mat_mul : Mat4 -> Vec4 -> Vec4;
  v3_add : Vec3 -> Vec3 -> Vec3;
  v3_sub : Vec3 -> Vec3 -> Vec3;
  v3_mul : Vec3 -> GoConst -> Vec3;
  v3_div : Vec3 -> GoConst -> Vec3;
  cross : Vec3 -> Vec3 -> Vec3;
  normalize : Vec3 -> Vec3
}.

(** The term model of [GLSL]. *)
Inductive ExprMat4 : Type := MVPmatrix.

Inductive ExprVec3 : Type :=
| V3normal (i : nat)
| V3xyz (v : ExprVec4)
| V3add (a b : ExprVec3)
| V3sub (a b : ExprVec3)
| V3mul (a : ExprVec3) (c : GoConst)
| V3div (a : ExprVec3) (c : GoConst)
| V3cross (a b : ExprVec3)
| V3normalize (a : ExprVec3)
with ExprVec4 : Type :=
| V4position (i : nat)
| V4of (a b c d : GoConst)
| V4ext (v : ExprVec3) (c : GoConst)
| V4mul (m : ExprMat4) (v : ExprVec4).

Definition ExprGLSL : GLSL :=
  {| Vec3 := ExprVec3; Vec4 := ExprVec4; Mat4 := ExprMat4;
     vec4_of := V4of; vec4_ext := V4ext; xyz := V3xyz; mat_mul := V4mul;
     v3_add := V3add; v3_sub := V3sub; v3_mul := V3mul; v3_div := V3div;
     cross := V3cross; normalize := V3normalize |}.

Section Rendering.
Context {F32 : Float32} {GL : GLSL}.

(** ** [NormalsMaterial.RenderSetup] *)

(** [gls.GLS] as the material reaches it: the [int] uniforms of the
    program in use, by name. *)
Record GLS : Type := { uniform1i : gmap string Z }.

(** [Uniform1i.Transfer]: the value goes to the uniform of that name. *)
Definition Uniform1i_Transfer (u : Uniform1i) (gs : GLS) : GLS :=
  {| uniform1i := <[uname u := v0 u]> (uniform1i gs) |}.

(** A uniform the program never received reads 0. *)
Definition uniform_int (gs : GLS) (name : string) : Z :=
  default 0 (uniform1i gs !! name).

Section RenderSetup.
(** [Material.RenderSetup] of the embedded material is engine code: any
    function of the material and the GL state. *)
Variable Material_RenderSetup : Material -> GLS -> GLS.

Definition NormalsMaterial_RenderSetup (m : loc) (gs : GLS) : M GLS :=
  mat ← load nmats (Some m);
  let gs := Material_RenderSetup (nm_Material mat) gs in
  mat ← load nmats (Some m);
  let gs := Uniform1i_Transfer (ShowWireframe mat) gs in
  mat ← load nmats (Some m);
  let gs := Uniform1i_Transfer (ShowVnormal mat) gs in
  mat ← load nmats (Some m);
  let gs := Uniform1i_Transfer (ShowFnormal mat) gs in
  mret gs.

End RenderSetup.

(** ** The geometry shader [sourceGSDemoGeometry] *)

(** One emitted vertex: the outputs [gl_Position] and [vertex_color]. *)
Record GSVertex : Type := { out_Position : Vec4; out_color : Vec4 }.

(** The output of one invocation: the line strip being built and the
    primitives already ended. *)
Record GSOut : Type := {
  strip : list GSVertex;
  primitives : list (list GSVertex)
}.

Definition GSOut_empty : GSOut := {| strip := []; primitives := [] |}.

Definition EmitVertex (gl_Position vertex_color : Vec4) (o : GSOut) : GSOut :=
  {| strip := strip o ++ [ {| out_Position := gl_Position; out_color := vertex_color |} ];
     primitives := primitives o |}.

Definition EndPrimitive (o : GSOut) : GSOut :=
  {| strip := []; primitives := primitives o ++ [strip o] |}.

(** [layout (triangles) in]: [gl_in.length()] is 3. *)
Definition gl_in_length : nat := 3.

(** [layout (line_strip, max_vertices = 12) out] *)
Definition max_vertices : nat := 12.

Definition colorWire : Vec4 := vec4_of (int 1) (int 1) (int 0) (int 1).
Definition colorVnormal : Vec4 := vec4_of (int 1) (int 0) (int 0) (int 1).
Definition colorFnormal : Vec4 := vec4_of (int 0) (int 0) (int 1) (int 1).

(** [for (int n = from; n < from + count; n++) body] *)
Fixpoint glsl_for (from count : nat) (body : nat -> GSOut -> GSOut) (o : GSOut) : GSOut :=
  match count with
  | O => o
  | S count' => glsl_for (S from) count' body (body from o)
  end.

(** [main] of the geometry shader, for the uniforms [MVP], [ShowWireframe],
    [ShowVnormal], [ShowFnormal] and the inputs [gl_in[i].gl_Position] and
    [vnormal[i]]; an assignment to an output is a [let]. *)
Definition geometry_main (MVP : Mat4) (ShowWireframe ShowVnormal ShowFnormal : Z)
    (gl_in : nat -> Vec4) (vnormal : nat -> Vec3) (o : GSOut) : GSOut :=
  let o :=
    if negb (ShowWireframe =? 0) then
      let o := glsl_for 0 gl_in_length (λ n o,
        let gl_Position := mat_mul MVP (gl_in n) in
        let vertex_color := colorWire in
        EmitVertex gl_Position vertex_color o) o in
      let gl_Position := mat_mul MVP (gl_in 0%nat) in
      let vertex_color := colorWire in
      let o := EmitVertex gl_Position vertex_color o in
      EndPrimitive o
    else o in
  let o :=
    if negb (ShowVnormal =? 0) then
      glsl_for 0 gl_in_length (λ i o,
        let position := xyz (gl_in i) in
        let normal := vnormal i in
        let gl_Position := mat_mul MVP (vec4_ext position (Num 10 (-1))) in
        let vertex_color := colorVnormal in
        let o := EmitVertex gl_Position vertex_color o in
        let gl_Position :=
          mat_mul MVP (vec4_ext (v3_add position (v3_mul normal (Num 5 (-1))))
                         (Num 10 (-1))) in
        let vertex_color := colorVnormal in
        let o := EmitVertex gl_Position vertex_color o in
        EndPrimitive o) o
    else o in
  let o :=
    if negb (ShowFnormal =? 0) then
      let p0 := xyz (gl_in 0%nat) in
      let p1 := xyz (gl_in 1%nat) in
      let p2 := xyz (gl_in 2%nat) in
      let v0 := v3_sub p0 p1 in
      let v1 := v3_sub p2 p1 in
      let faceN := normalize (cross v1 v0) in
      let center := v3_div (v3_add (v3_add p0 p1) p2) (Num 30 (-1)) in
      let gl_Position := mat_mul MVP (vec4_ext center (Num 10 (-1))) in
      let vertex_color := colorFnormal in
      let o := EmitVertex gl_Position vertex_color o in
      let gl_Position :=
        mat_mul MVP (vec4_ext (v3_add center (v3_mul faceN (Num 5 (-1))))
                       (Num 10 (-1))) in
      let vertex_color := colorFnormal in
      let o := EmitVertex gl_Position vertex_color o in
      EndPrimitive o
    else o in
  o.

(** The shader run on the uniforms a GL state holds. *)
Definition geometry_shader (MVP : Mat4) (gs : GLS)
    (gl_in : nat -> Vec4) (vnormal : nat -> Vec3) : GSOut :=
  geometry_main MVP (uniform_int gs "ShowWireframe") (uniform_int gs "ShowVnormal")
    (uniform_int gs "ShowFnormal") gl_in vnormal GSOut_empty.

(** The number of vertices an invocation has emitted. *)
Definition emitted (o : GSOut) : nat :=
  length (concat (primitives o)) + length (strip o).

(** The material of the demo keeps the uniform names [newNormalsMaterial]
    gave it. *)
Definition uniforms_named (mat : loc) (w : World) : Prop :=
  ∃ m, nmats w !! mat = Some m ∧
    uname (ShowWireframe m) = "ShowWireframe" ∧
    uname (ShowVnormal m) = "ShowVnormal" ∧
    uname (ShowFnormal m) = "ShowFnormal".

End Rendering.

(** * The demo template of the README ([tests/model.go]) *)

(** [float32] multiplication, which only the template uses. *)
Class Float32Mul (F32 : Float32) : Type := {
  f32_mul : f32 -> f32 -> f32
}.

(** The term model with multiplication. *)
Inductive ExprF32M : Type :=
| MConst (c : GoConst)
| MAdd (a b : ExprF32M)
| MMul (a b : ExprF32M).

Definition ExprFloat32M : Float32 :=
  {| f32 := ExprF32M; f32_const := MConst; f32_add := MAdd |}.

Definition ExprFloat32Mul : Float32Mul ExprFloat32M :=
  Build_Float32Mul ExprFloat32M MMul.

Section Model.
Context {F32 : Float32} {F32M : Float32Mul F32}.

(** [graphic.GridHelper]: its constructor arguments and its rotation. *)
Record GridHelper : Type := {
  grid_size : GoConst;
  grid_step : GoConst;
  grid_color : Color;
  grid_rotation : Vector3
}.

(** The demo object of the template. *)
Record testsModel : Type := { grid : option loc }.

Inductive AppNode : Type :=
| AppAxisHelper (size : GoConst)
| AppGridHelper (p : option loc).

(** Modelled from the spec: the host type [g3nd.App] is not part of the
    sources.  [App] gathers what the template reaches through it
    ([Scene()], [Camera()], [FrameDeltaSeconds()]), the lookup table
    [demos.Map], and the heap objects the template allocates. *)
Record App : Type := {
  app_Scene : list AppNode;
  app_Camera : Vector3;
  app_FrameDeltaSeconds : f32;
  app_grids : list GridHelper;
  app_models : list testsModel;
  app_Map : gmap string loc
}.

Definition set_app_Scene (x : list AppNode) (a : App) : App :=
  {| app_Scene := x; app_Camera := app_Camera a;
     app_FrameDeltaSeconds := app_FrameDeltaSeconds a; app_grids := app_grids a;
     app_models := app_models a; app_Map := app_Map a |}.
Definition set_app_Camera (x : Vector3) (a : App) : App :=
  {| app_Scene := app_Scene a; app_Camera := x;
     app_FrameDeltaSeconds := app_FrameDeltaSeconds a; app_grids := app_grids a;
     app_models := app_models a; app_Map := app_Map a |}.
Definition set_app_FrameDeltaSeconds (x : f32) (a : App) : App :=
  {| app_Scene := app_Scene a; app_Camera := app_Camera a;
     app_FrameDeltaSeconds := x; app_grids := app_grids a;
     app_models := app_models a; app_Map := app_Map a |}.
Definition set_app_grids (x : list GridHelper) (a : App) : App :=
  {| app_Scene := app_Scene a; app_Camera := app_Camera a;
     app_FrameDeltaSeconds := app_FrameDeltaSeconds a; app_grids := x;
     app_models := app_models a; app_Map := app_Map a |}.
Definition set_app_models (x : list testsModel) (a : App) : App :=
  {| app_Scene := app_Scene a; app_Camera := app_Camera a;
     app_FrameDeltaSeconds := app_FrameDeltaSeconds a; app_grids := app_grids a;
     app_models := x; app_Map := app_Map a |}.
Definition set_app_Map (x : gmap string loc) (a : App) : App :=
  {| app_Scene := app_Scene a; app_Camera := app_Camera a;
     app_FrameDeltaSeconds := app_FrameDeltaSeconds a; app_grids := app_grids a;
     app_models := app_models a; app_Map := x |}.

(** [graphic.NewGridHelper]: a node that is not rotated. *)
Definition graphic_NewGridHelper (size step : GoConst) (c : Color) : GridHelper :=
  {| grid_size := size; grid_step := step; grid_color := c;
     grid_rotation := vec3 (int 0) (int 0) (int 0) |}.

Definition GridHelper_AddRotationY (y : f32) (g : GridHelper) : GridHelper :=
  {| grid_size := grid_size g; grid_step := grid_step g; grid_color := grid_color g;
     grid_rotation := set_vY (f32_add (vY (grid_rotation g)) y) (grid_rotation g) |}.

(** The functions of the template return [None] for a Go run-time panic. *)
Definition init_tests_model (a : App) : App :=
  set_app_Map (<["|tests|.model" := length (app_models a)]> (app_Map a))
    (set_app_models (app_models a ++ [ {| grid := None |} ]) a).

Definition testsModel_Initialize (t : loc) (a : App) : option App :=
  let ah := AppAxisHelper (Num 10 (-1)) in
  let a := set_app_Scene (app_Scene a ++ [ah]) a in
  let g := length (app_grids a) in
  let a := set_app_grids
             (app_grids a ++
              [graphic_NewGridHelper (int 50) (int 1)
                 {| R := Num 4 (-1); G := Num 4 (-1); B := Num 4 (-1) |}]) a in
  _ ← app_models a !! t;
  let a := set_app_models (<[t := {| grid := Some g |}]> (app_models a)) a in
  m ← app_models a !! t;
  let a := set_app_Scene (app_Scene a ++ [AppGridHelper (grid m)]) a in
  Some (set_app_Camera (vec3 (int 0) (int 4) (int 10)) a).

Definition testsModel_Render (t : loc) (a : App) : option App :=
  let rps := f32_mul (f32_mul (app_FrameDeltaSeconds a) (f32_const (int 2)))
               (f32_const Pi) in
  m ← app_models a !! t;
  p ← grid m;
  g ← app_grids a !! p;
  Some (set_app_grids
          (<[p := GridHelper_AddRotationY (f32_mul rps (f32_const (Num 5 (-2)))) g]>
             (app_grids a)) a).

(** The host rendering one frame per delta-time of the list. *)
Fixpoint model_frames (t : loc) (deltas : list f32) (a : App) : option App :=
  match deltas with
  | [] => Some a
  | d :: deltas' =>
      a' ← testsModel_Render t (set_app_FrameDeltaSeconds d a);
      model_frames t deltas' a'
  end.

(** The angle one frame of [d] seconds adds. *)
Definition model_step (d : f32) : f32 :=
  f32_mul (f32_mul (f32_mul d (f32_const (int 2))) (f32_const Pi))
    (f32_const (Num 5 (-2))).

End Model.

(** * More concrete runs *)

Section MoreRuns.
#[local] Existing Instance ExprFloat32.
#[local] Existing Instance ExprGLSL.

(** A GL state without uniforms, and an embedded [RenderSetup] that leaves
    the uniforms alone. *)
Definition gs_empty : GLS := {| uniform1i := ∅ |}.
Definition plain_setup (m : Material) (gs : GLS) : GLS := gs.

(** A demo object that claims to rotate but has no meshes. *)
Definition spinning_without_meshes : World :=
  set_sgs [set_rotate true ShaderGeometry_zero] host.

(** The host with the third image, "posy", missing. *)
Definition host_without_posy : World :=
  {| Gui := Gui host; Scene := Scene host; Shaders := Shaders host;
     Programs := Programs host; Control := Control host;
     FrameDelta := FrameDelta host; DirData := DirData host;
     Images := delete "data/images/sanfrancisco/posy.jpg" (Images host);
     Log := Log host; meshes := meshes host; nmats := nmats host;
     smats := smats host; texs := texs host; sgs := sgs host;
     TestMap := TestMap host; demos_Map := demos_Map host |}.

(** The full host after the first statements of [Skybox.Initialize]: the
    axis helper is in the scene and the skybox mesh, still without
    materials, is at address 0. *)
Definition skybox_created : World :=
  after (graphic_NewMesh (NewBox (int 50) (int 50) (int 50) (int 2) (int 2) (int 2)) None)
    (after (Scene_Add (NodeAxis (int 2))) host).

(** A run of the host loop. *)
Definition some_events : list HostEvent :=
  [Frame; Change 1; Frame; Change 0; Change 3; Frame].

End MoreRuns.

Section ModelRuns.
#[local] Existing Instance ExprFloat32M.
#[local] Existing Instance ExprFloat32Mul.

(** A host of the template with one registered demo object. *)
Definition model_app : App :=
  init_tests_model
    {| app_Scene := []; app_Camera := vec3 (int 0) (int 0) (int 0);
       app_FrameDeltaSeconds := MConst (int 0);
       app_grids := []; app_models := []; app_Map := ∅ |}.

(** Frames of 16 ms and 33 ms. *)
Definition model_deltas : list f32 := [MConst (Num 16 (-3)); MConst (Num 33 (-3))].

End ModelRuns.


(** * Properties of the demos *)

Section Theory.
Context {F32 : Float32}.

(** ** Reasoning tools *)

Lemma lookup_snoc {A : Type} (l : list A) (x : A) : (l ++ [x]) !! length l = Some x.
Proof. by rewrite list_lookup_middle. Qed.

Lemma insert_snoc {A : Type} (l : list A) (x y : A) :
  <[length l := y]> (l ++ [x]) = l ++ [y].
Proof.
  rewrite insert_app_r_alt; [|lia]. by rewrite Nat.sub_diag.
Qed.

(** Read a field of the host through the field updates applied to it. *)
Ltac wsimpl :=
  cbn [Gui Scene Shaders Programs Control FrameDelta DirData Images Log
       meshes nmats smats texs sgs TestMap demos_Map
       set_Gui set_Scene set_Shaders set_Programs set_Control set_FrameDelta
       set_Log set_meshes set_nmats set_smats set_texs set_sgs set_TestMap
       set_demos_Map].

(** Run a demo on a symbolic host: unfold the calls, compute on the
    records, and resolve heap accesses with the lemmas above. *)
Create HintDb demo.
#[local] Hint Unfold mbind mret M_bind M_ret update panic load store alloc
  Gui_Add Scene_Add Renderer_AddShader Renderer_AddProgram
  material_NewStandard Standard_AddTexture Standard_SetSide
  graphic_NewMesh Mesh_SetPosition Mesh_AddRotationX Mesh_AddRotationY
  Mesh_AddRotationZ Mesh_AddGroupMaterial texture_NewTexture2DFromImage
  Log_Fatal Control_AddGroup load_group store_group load_check
  store_check Group_AddCheckBox CheckBox_SetValue CheckBox_Subscribe
  get_Control get_DirData newNormalsMaterial NormalsMaterial_Incref : demo.

Ltac mstep1 :=
  autounfold with demo;
  cbn beta iota zeta delta
      [for_range fst snd default head from_option
       gui_NewLabel Label_SetFontSize Label_SetPosition math32_NewColor
       light_NewDirectional Directional_SetPosition vec3
       Material_Init Material_SetShader Material_Incref Material_AddTexture
       Material_SetSide Uniform1i_Init Uniform1i_Set NormalsMaterial_zero
       set_vX set_vY set_vZ set_fontSize set_labelPos set_lightPos
       set_refcount set_shader set_side set_mtextures
       set_nm_Material set_ShowWireframe set_ShowVnormal set_ShowFnormal
       set_std_Material set_materials set_position set_rotation
       set_plane set_box set_sphere set_showWireframe set_showVnormal
       set_showFnormal set_rotate set_cb_value set_cb_subs set_g_checks
       vX vY vZ text fontSize labelPos lightColor intensity lightPos
       refcount shader side mtextures uname v0
       nm_Material ShowWireframe ShowVnormal ShowFnormal std_Material std_color
       geom materials position rotation
       ctx plane box sphere showWireframe showVnormal showFnormal rotate
       cb_label cb_value cb_subs g_name g_checks groups];
  wsimpl.

Ltac mstep := repeat (progress mstep1).

Ltac heap_rw :=
  first [ rewrite lookup_snoc | rewrite insert_snoc
        | rewrite list_insert_insert_eq
        | rewrite list_lookup_insert_eq by (eapply lookup_lt_Some; eassumption)
        | match goal with
          | H : ?x = Some _ |- context [?x] => rewrite H
          | H : ?x = None |- context [?x] => rewrite H
          end ].

Ltac mrun := mstep; repeat (heap_rw; mstep).

(** Two hosts are equal when their fields are. *)
Lemma World_eq (w1 w2 : World) :
  Gui w1 = Gui w2 -> Scene w1 = Scene w2 -> Shaders w1 = Shaders w2 ->
  Programs w1 = Programs w2 -> Control w1 = Control w2 ->
  FrameDelta w1 = FrameDelta w2 -> DirData w1 = DirData w2 ->
  Images w1 = Images w2 -> Log w1 = Log w2 -> meshes w1 = meshes w2 ->
  nmats w1 = nmats w2 -> smats w1 = smats w2 -> texs w1 = texs w2 ->
  sgs w1 = sgs w2 -> TestMap w1 = TestMap w2 -> demos_Map w1 = demos_Map w2 ->
  w1 = w2.
Proof. destruct w1, w2; simpl; intros; by subst. Qed.

Lemma length_snoc {A : Type} (l : list A) (x : A) : length (l ++ [x]) = S (length l).
Proof. rewrite length_app. simpl. lia. Qed.

(** *** [ShaderGeometry.Initialize] *)

Lemma ShaderGeometry_Initialize_eq (t : loc) (s : ShaderGeometry) (w : World) :
  sgs w !! t = Some s ->
  ShaderGeometry_Initialize t w = Done tt (initialized t s w).
Proof.
  intros Ht. unfold ShaderGeometry_Initialize, initialized.
  destruct (Control w) as [cf|] eqn:Hc.
  - mrun. f_equal.
    apply World_eq; wsimpl; rewrite ?length_snoc, <- ?app_assoc; reflexivity.
  - mrun. f_equal.
    apply World_eq; wsimpl; rewrite ?Hc, ?length_snoc, <- ?app_assoc; reflexivity.
Qed.

(** *** The four handlers *)

Lemma call_OnRotate (t : loc) (s : ShaderGeometry) (w : World) (ev : string) :
  sgs w !! t = Some s ->
  call (OnRotate t) ev w =
    Done tt (set_sgs (<[t := set_rotate (negb (rotate s)) s]> (sgs w)) w).
Proof. intros Ht. unfold call. mrun. reflexivity. Qed.

Lemma call_OnWireframe (t mat : loc) (s : ShaderGeometry) (m : NormalsMaterial)
    (w : World) (ev : string) :
  sgs w !! t = Some s -> nmats w !! mat = Some m ->
  call (OnWireframe t mat) ev w =
    Done tt (set_nmats
               (<[mat := set_ShowWireframe
                           (Uniform1i_Set (flip01 (showWireframe s)) (ShowWireframe m)) m]>
                  (nmats w))
               (set_sgs (<[t := set_showWireframe (flip01 (showWireframe s)) s]> (sgs w)) w)).
Proof.
  intros Ht Hm. unfold call, flip01. mrun.
  destruct (showWireframe s =? 0); mrun; reflexivity.
Qed.

Lemma call_OnVnormal (t mat : loc) (s : ShaderGeometry) (m : NormalsMaterial)
    (w : World) (ev : string) :
  sgs w !! t = Some s -> nmats w !! mat = Some m ->
  call (OnVnormal t mat) ev w =
    Done tt (set_nmats
               (<[mat := set_ShowVnormal
                           (Uniform1i_Set (flip01 (showVnormal s)) (ShowVnormal m)) m]>
                  (nmats w))
               (set_sgs (<[t := set_showVnormal (flip01 (showVnormal s)) s]> (sgs w)) w)).
Proof.
  intros Ht Hm. unfold call, flip01. mrun.
  destruct (showVnormal s =? 0); mrun; reflexivity.
Qed.

Lemma call_OnFnormal (t mat : loc) (s : ShaderGeometry) (m : NormalsMaterial)
    (w : World) (ev : string) :
  sgs w !! t = Some s -> nmats w !! mat = Some m ->
  call (OnFnormal t mat) ev w =
    Done tt (set_nmats
               (<[mat := set_ShowFnormal
                           (Uniform1i_Set (flip01 (showFnormal s)) (ShowFnormal m)) m]>
                  (nmats w))
               (set_sgs (<[t := set_showFnormal (flip01 (showFnormal s)) s]> (sgs w)) w)).
Proof.
  intros Ht Hm. unfold call, flip01. mrun.
  destruct (showFnormal s =? 0); mrun; reflexivity.
Qed.

(** *** [Render] *)

Lemma Render_not_rotating (t : loc) (s : ShaderGeometry) (w : World) :
  sgs w !! t = Some s -> rotate s = false ->
  ShaderGeometry_Render t w = Done tt w.
Proof.
  intros Ht Hr. unfold ShaderGeometry_Render. mrun. rewrite Hr. reflexivity.
Qed.

Lemma insert_alter {A : Type} (f : A -> A) (l : list A) (i : nat) (a y : A) :
  l !! i = Some a -> y = f a -> <[i := y]> l = alter f i l.
Proof.
  intros H ->. revert i H.
  induction l as [|x l IH]; intros [|i] H; simplify_eq/=; [done|].
  f_equal. by apply IH.
Qed.

Lemma lookup_alter_is_Some {A : Type} (f : A -> A) (l : list A) (i j : nat) :
  is_Some (l !! j) -> is_Some (alter f i l !! j).
Proof.
  rewrite !lookup_lt_is_Some. by rewrite length_alter.
Qed.

Lemma Render_rotating (t : loc) (s : ShaderGeometry) (w : World) (pl bx sp : loc) :
  sgs w !! t = Some s -> rotate s = true ->
  plane s = Some pl -> box s = Some bx -> sphere s = Some sp ->
  is_Some (meshes w !! pl) -> is_Some (meshes w !! bx) -> is_Some (meshes w !! sp) ->
  ShaderGeometry_Render t w =
    Done tt (set_meshes
               (alter (rotatedZ (Num 5 (-3))) sp
                  (alter (rotatedY (Num 1 (-2))) bx
                     (alter (rotatedX (Num 1 (-2))) pl (meshes w)))) w).
Proof.
  intros Ht Hr Hpl Hbx Hsp [mp Hmp] Hb Hs.
  apply (lookup_alter_is_Some (rotatedX (Num 1 (-2))) _ pl) in Hb as [mb Hmb].
  apply (lookup_alter_is_Some (rotatedX (Num 1 (-2))) _ pl) in Hs.
  apply (lookup_alter_is_Some (rotatedY (Num 1 (-2))) _ bx) in Hs as [ms Hms].
  unfold ShaderGeometry_Render. mstep. rewrite Ht. mstep. rewrite Hr. mstep.
  rewrite Hpl, Hmp. mstep. rewrite Ht. mstep.
  erewrite (insert_alter (rotatedX (Num 1 (-2))) _ _ _ _ Hmp) by reflexivity.
  rewrite Hbx, Hmb. mstep. rewrite Ht. mstep.
  erewrite (insert_alter (rotatedY (Num 1 (-2))) _ _ _ _ Hmb) by reflexivity.
  rewrite Hsp, Hms. mstep.
  erewrite (insert_alter (rotatedZ (Num 5 (-3))) _ _ _ _ Hms) by reflexivity.
  reflexivity.
Qed.

(** *** The invariant of the host loop *)

Lemma initialized_wired (t : loc) (s : ShaderGeometry) (cf : ControlFolder) (w : World) :
  sgs w !! t = Some s -> Control w = Some cf ->
  wired t (length (nmats w)) (length (groups cf)) (initialized t s w).
Proof.
  intros Ht Hc. pose proof (lookup_lt_Some _ _ _ Ht) as Hlt.
  unfold wired, toggles_consistent, initialized. wsimpl. rewrite Hc.
  split; [|split].
  - eexists _, _. rewrite list_lookup_insert_eq by done. rewrite lookup_snoc.
    split; [reflexivity|]. split; [reflexivity|]. cbn. tauto.
  - eexists. split; [reflexivity|]. cbn [groups]. apply lookup_snoc.
  - eexists _, _, _, _. rewrite list_lookup_insert_eq by done.
    split; [reflexivity|]. cbn [plane box sphere].
    do 3 (split; [reflexivity|]).
    rewrite !lookup_lt_is_Some, !length_app. cbn [length]. lia.
Qed.

Lemma Dispatch_show (t mat : loc) (g i : nat) (cl : Closure) (w : World) (cf : ControlFolder) :
  Control w = Some cf -> groups cf !! g = Some (showGroup t mat) ->
  (cb_subs <$> g_checks (showGroup t mat) !! i) = Some [(gui_OnChange, cl)] ->
  Dispatch (g, i) gui_OnChange w =
    match call cl gui_OnChange w with
    | Done _ w' => Done tt w'
    | Aborted w' => Aborted w'
    | Panic => Panic
    end.
Proof.
  intros Hc Hg Hi. unfold Dispatch. mstep. rewrite Hc, Hg.
  destruct (g_checks (showGroup t mat) !! i) as [c|] eqn:Hi'; [|done].
  injection Hi as Hi. mstep. rewrite Hi. cbn [call_all].
  rewrite String.eqb_refl. mstep.
  destruct (call cl gui_OnChange w); reflexivity.
Qed.

Lemma flip01_cases (v : Z) : flip01 v = 0 ∨ flip01 v = 1.
Proof. unfold flip01. destruct (v =? 0); auto. Qed.

Lemma flip01_involutive (v : Z) : v = 0 ∨ v = 1 -> flip01 (flip01 v) = v.
Proof. intros [-> | ->]; reflexivity. Qed.

Lemma handler_effect (t mat : loc) (g i : nat) (w : World) :
  wired t mat g w -> (i < 4)%nat ->
  ∃ s m, sgs w !! t = Some s ∧ nmats w !! mat = Some m ∧
    Dispatch (g, i) gui_OnChange w =
      Done tt
        match i with
        | 0%nat => set_sgs (<[t := set_rotate (negb (rotate s)) s]> (sgs w)) w
        | 1%nat =>
            set_nmats (<[mat := set_ShowWireframe
                                  (Uniform1i_Set (flip01 (showWireframe s)) (ShowWireframe m)) m]>
                         (nmats w))
              (set_sgs (<[t := set_showWireframe (flip01 (showWireframe s)) s]> (sgs w)) w)
        | 2%nat =>
            set_nmats (<[mat := set_ShowVnormal
                                  (Uniform1i_Set (flip01 (showVnormal s)) (ShowVnormal m)) m]>
                         (nmats w))
              (set_sgs (<[t := set_showVnormal (flip01 (showVnormal s)) s]> (sgs w)) w)
        | _ =>
            set_nmats (<[mat := set_ShowFnormal
                                  (Uniform1i_Set (flip01 (showFnormal s)) (ShowFnormal m)) m]>
                         (nmats w))
              (set_sgs (<[t := set_showFnormal (flip01 (showFnormal s)) s]> (sgs w)) w)
        end.
Proof.
  intros [(s & m & Hs & Hm & _) [(cf & Hc & Hg) _]] Hi.
  exists s, m. split; [done|]. split; [done|].
  destruct i as [|[|[|[|i]]]]; [| | | |lia].
  - rewrite (Dispatch_show t mat g 0 (OnRotate t) w cf) by done.
    by rewrite (call_OnRotate t s).
  - rewrite (Dispatch_show t mat g 1 (OnWireframe t mat) w cf) by done.
    by rewrite (call_OnWireframe t mat s m).
  - rewrite (Dispatch_show t mat g 2 (OnVnormal t mat) w cf) by done.
    by rewrite (call_OnVnormal t mat s m).
  - rewrite (Dispatch_show t mat g 3 (OnFnormal t mat) w cf) by done.
    by rewrite (call_OnFnormal t mat s m).
Qed.

Lemma wired_Change (t mat : loc) (g i : nat) (w : World) :
  wired t mat g w -> (i < 4)%nat ->
  ∃ w', Dispatch (g, i) gui_OnChange w = Done tt w' ∧ wired t mat g w'.
Proof.
  intros Hw Hi.
  destruct (handler_effect t mat g i w Hw Hi) as (s & m & Hs & Hm & ->).
  eexists. split; [reflexivity|].
  destruct Hw as [(s0 & m0 & Hs0 & Hm0 & Hw1 & Hv1 & Hf1 & Hw2 & Hv2 & Hf2)
                    [(cf & Hc & Hg) (s1 & pl & bx & sp & Hs1 & Hpl & Hbx & Hsp & Hm1 & Hm2 & Hm3)]].
  assert (s0 = s) as -> by congruence. assert (s1 = s) as -> by congruence.
  assert (m0 = m) as -> by congruence.
  pose proof (lookup_lt_Some _ _ _ Hs) as Hlt.
  pose proof (lookup_lt_Some _ _ _ Hm) as Hlm.
  pose proof (flip01_cases (showWireframe s)).
  pose proof (flip01_cases (showVnormal s)).
  pose proof (flip01_cases (showFnormal s)).
  destruct i as [|[|[|[|i]]]]; [| | | |lia].
  all: split; [|split].
  all: try (exists cf; wsimpl; done).
  all: try (eexists _, pl, bx, sp; wsimpl; rewrite list_lookup_insert_eq by done;
            split; [reflexivity|]; done).
  all: eexists _, _; wsimpl;
       rewrite ?list_lookup_insert_eq by done;
       (split; [reflexivity|]); (split; [first [reflexivity | eassumption]|]);
       cbn; tauto.
Qed.

Lemma wired_Frame (t mat : loc) (g : nat) (w : World) :
  wired t mat g w ->
  ∃ w', ShaderGeometry_Render t w = Done tt w' ∧ wired t mat g w'.
Proof.
  intros Hw.
  destruct Hw as [Htc [Hcf (s & pl & bx & sp & Hs & Hpl & Hbx & Hsp & Hm1 & Hm2 & Hm3)]].
  destruct (rotate s) eqn:Hr.
  - rewrite (Render_rotating t s w pl bx sp) by done.
    eexists. split; [reflexivity|].
    split; [exact Htc|]. split; [exact Hcf|].
    exists s, pl, bx, sp. wsimpl.
    do 4 (split; [done|]).
    split; [|split]; by do 3 apply lookup_alter_is_Some.
  - rewrite (Render_not_rotating t s w) by done.
    eexists. split; [reflexivity|].
    split; [exact Htc|]. split; [exact Hcf|].
    by exists s, pl, bx, sp.
Qed.

Lemma host_run_wired (t mat : loc) (g : nat) (es : list HostEvent) (w : World) :
  wired t mat g w -> Forall event_ok es ->
  ∃ w', host_run t g es w = Done tt w' ∧ wired t mat g w'.
Proof.
  intros Hw Hes. revert w Hw.
  induction Hes as [|e es He Hes IH]; intros w Hw.
  - by exists w.
  - assert (∃ w1, host_step t g e w = Done tt w1 ∧ wired t mat g w1) as (w1 & Hstep & Hw1).
    { destruct e as [|i]; [by apply wired_Frame | by apply wired_Change]. }
    destruct (IH w1 Hw1) as (w' & Hrun & Hw').
    exists w'. split; [|done].
    cbn [host_run]. unfold mbind, M_bind. by rewrite Hstep.
Qed.

Lemma handler_twice (t mat : loc) (g i : nat) (w : World) :
  wired t mat g w -> (i < 4)%nat ->
  repeat_m 2 (Dispatch (g, i) gui_OnChange) w = Done tt w.
Proof.
  intros Hw Hi.
  destruct (wired_Change t mat g i w Hw Hi) as (w1 & H1 & Hw1).
  destruct (handler_effect t mat g i w Hw Hi) as (s & m & Hs & Hm & E1).
  destruct (handler_effect t mat g i w1 Hw1 Hi) as (s1 & m1 & Hs1 & Hm1 & E2).
  cbn [repeat_m]. unfold mbind, mret, M_bind, M_ret. rewrite H1, E2.
  rewrite E1 in H1. injection H1 as <-.
  destruct Hw as [(s0 & m0 & Hs0 & Hm0 & Hw1' & Hv1 & Hf1 & Hw2 & Hv2 & Hf2) _].
  assert (s0 = s) as -> by congruence. assert (m0 = m) as -> by congruence.
  pose proof (lookup_lt_Some _ _ _ Hs) as Hlt.
  pose proof (lookup_lt_Some _ _ _ Hm) as Hlm.
  f_equal.
  destruct i as [|[|[|[|i]]]]; [| | | |lia].
  all: revert Hs1 Hm1; wsimpl; rewrite ?list_lookup_insert_eq by done;
       intros; simplify_eq.
  all: apply World_eq; wsimpl; try reflexivity.
  all: rewrite list_insert_insert_eq; apply list_insert_id.
  all: match goal with H : ?l !! ?i = Some _ |- ?l !! ?i = _ => rewrite H end; f_equal.
  all: destruct s, m as [? [] [] []]; cbn in *; subst;
       rewrite ?flip01_involutive by done; rewrite ?negb_involutive; reflexivity.
Qed.

Lemma handler_even (t mat : loc) (g i n : nat) (w : World) :
  wired t mat g w -> (i < 4)%nat ->
  repeat_m (2 * n) (Dispatch (g, i) gui_OnChange) w = Done tt w.
Proof.
  intros Hw Hi. induction n as [|n IH]; [reflexivity|].
  replace (2 * S n)%nat with (S (S (2 * n))) by lia.
  pose proof (handler_twice t mat g i w Hw Hi) as H2.
  cbn [repeat_m] in *. unfold mbind, mret, M_bind, M_ret in *.
  destruct (Dispatch (g, i) gui_OnChange w) as [[] w1| |]; [|done..].
  destruct (Dispatch (g, i) gui_OnChange w1) as [[] w2| |]; [|done..].
  by simplify_eq.
Qed.

(** *** [Skybox.Initialize] *)

Lemma bind_Done {A B : Type} (m : M A) (k : A -> M B) (w : World) (a : A) (w1 : World) :
  m w = Done a w1 -> (m ≫= k) w = k a w1.
Proof. intros H. unfold mbind, M_bind. by rewrite H. Qed.

Lemma bind_Aborted {A B : Type} (m : M A) (k : A -> M B) (w w1 : World) :
  m w = Aborted w1 -> (m ≫= k) w = Aborted w1.
Proof. intros H. unfold mbind, M_bind. by rewrite H. Qed.

(** One iteration, run in the state the previous iterations left. *)
Lemma faces_step (k : nat) (name : string) (w : World) :
  textures !! k = Some name ->
  Skybox_face (length (meshes w)) k (faces_attached k w) =
    match Images w !! face_path w name with
    | Some _ => Done tt (faces_attached (S k) w)
    | None => Aborted (set_Log (Log w ++ [fatal_entry w name]) (faces_attached k w))
    end.
Proof.
  intros Hk. pose proof (lookup_lt_Some _ _ _ Hk) as Hlt. cbn in Hlt.
  unfold Skybox_face, index. rewrite Hk.
  unfold faces_attached, face_path, fatal_entry. mstep.
  destruct (Images w !! (DirData w +:+ "/images/" +:+ name)) as [u|]; mstep;
    [|reflexivity].
  rewrite !lookup_snoc. mstep. rewrite !insert_snoc, !lookup_snoc. mstep.
  rewrite !insert_snoc, lookup_snoc. mstep. rewrite insert_snoc.
  f_equal. apply World_eq; wsimpl; try reflexivity.
  all: rewrite ?length_app, ?length_fmap, ?length_seq, ?length_take.
  all: replace (k `min` length textures)%nat with k by (cbn; lia).
  all: rewrite ?seq_S, ?(take_S_r _ _ _ Hk), ?fmap_app, ?app_assoc.
  all: cbn [fmap list_fmap Nat.add]; unfold faceBinding, faceTexture, face_path.
  all: rewrite ?(Nat.add_comm (length (smats w)) k), ?(Nat.add_comm (length (texs w)) k).
  all: reflexivity.
Qed.

Lemma for_range_S (from count : nat) (body : nat -> M unit) (w : World) :
  for_range from (S count) body w =
    match body from w with
    | Done _ w1 => for_range (S from) count body w1
    | Aborted w1 => Aborted w1
    | Panic => Panic
    end.
Proof. reflexivity. Qed.

(** The loop, from any iteration on: it stops at the first image that
    cannot be loaded. *)
Lemma faces_loop (n k : nat) (w : World) :
  (k + n = 6)%nat ->
  for_range k n (Skybox_face (length (meshes w))) (faces_attached k w) =
    match list_find (λ name, Images w !! face_path w name = None) (drop k textures) with
    | None => Done tt (faces_attached 6 w)
    | Some (i, name) =>
        Aborted (set_Log (Log w ++ [fatal_entry w name]) (faces_attached (k + i) w))
    end.
Proof.
  revert k. induction n as [|n IH]; intros k Hk.
  - replace k with 6%nat by lia. reflexivity.
  - destruct (textures !! k) as [name|] eqn:Hname;
      [|apply lookup_ge_None in Hname; cbn in Hname; lia].
    rewrite for_range_S, (faces_step k name w Hname).
    rewrite (drop_S _ _ _ Hname). cbn [list_find].
    destruct (Images w !! face_path w name) as [u|] eqn:Himg.
    + rewrite decide_False by done. rewrite IH by lia.
      destruct (list_find _ (drop (S k) textures)) as [[i name']|]; [|reflexivity].
      cbn. by rewrite Nat.add_succ_r.
    + rewrite decide_True by done. cbn. by rewrite Nat.add_0_r.
Qed.

Lemma faces_attached_0 (w : World) :
  graphic_NewMesh (NewBox (int 50) (int 50) (int 50) (int 2) (int 2) (int 2)) None
    (set_Scene (Scene w ++ [NodeAxis (int 2)]) w)
  = Done (length (meshes w)) (faces_attached 0 w).
Proof.
  unfold graphic_NewMesh, alloc, faces_attached. wsimpl. f_equal.
  apply World_eq; wsimpl; cbn [fmap list_fmap seq firstn];
    rewrite ?app_nil_r; reflexivity.
Qed.

Lemma Skybox_Initialize_eq (w : World) :
  Skybox_Initialize w =
    match first_missing w with
    | None => Done tt (skybox_built w)
    | Some (i, name) =>
        Aborted (set_Log (Log w ++ [fatal_entry w name]) (faces_attached i w))
    end.
Proof.
  unfold Skybox_Initialize.
  rewrite (bind_Done _ _ w tt (set_Scene (Scene w ++ [NodeAxis (int 2)]) w) eq_refl).
  rewrite (bind_Done _ _ _ _ _ (faces_attached_0 w)).
  pose proof (faces_loop 6 0 w eq_refl) as Hloop.
  change (drop 0 textures) with textures in Hloop. fold (first_missing w) in Hloop.
  destruct (first_missing w) as [[i name]|].
  - by rewrite (bind_Aborted _ _ _ _ Hloop).
  - rewrite (bind_Done _ _ _ _ _ Hloop). unfold Scene_Add, update. f_equal.
    apply World_eq; try reflexivity.
    unfold skybox_built, faces_attached. wsimpl. by rewrite <- app_assoc.
Qed.

(** *** Quiet calls compose *)

Lemma quiet_ret {A : Type} (a : A) : quiet (mret a).
Proof. intros w. reflexivity. Qed.

Lemma quiet_bind {A B : Type} (m : M A) (k : A -> M B) :
  quiet m -> (∀ a, quiet (k a)) -> quiet (m ≫= k).
Proof.
  intros Hm Hk w. unfold mbind, M_bind. specialize (Hm w).
  destruct (m w) as [a w1| |]; [|done..].
  specialize (Hk a w1). destruct (k a w1); [congruence|done..].
Qed.

Lemma quiet_update (f : World -> World) :
  (∀ w, Log (f w) = Log w) -> quiet (update f).
Proof. intros Hf w. apply Hf. Qed.

Lemma quiet_panic {A : Type} : quiet (panic (A := A)).
Proof. intros w. exact I. Qed.

Lemma quiet_load {A : Type} (heap : World -> list A) (p : option loc) :
  quiet (load heap p).
Proof. intros w. unfold load. destruct p as [l|]; [|done]. by destruct (heap w !! l). Qed.

Lemma quiet_alloc {A : Type} (heap : World -> list A) set_heap (a : A) :
  (∀ x w, Log (set_heap x w) = Log w) -> quiet (alloc heap set_heap a).
Proof. intros H w. apply H. Qed.

Lemma quiet_store {A : Type} (heap : World -> list A) set_heap p (f : A -> A) :
  (∀ x w, Log (set_heap x w) = Log w) -> quiet (store heap set_heap p f).
Proof.
  intros H. apply quiet_bind; [apply quiet_load|].
  intros a. apply quiet_update. intros w. by destruct p.
Qed.

Lemma quiet_match_option {A B : Type} (o : option A) (m1 : A -> M B) (m2 : M B) :
  (∀ a, quiet (m1 a)) -> quiet m2 ->
  quiet (match o with Some a => m1 a | None => m2 end).
Proof. by destruct o. Qed.

Lemma quiet_if {A : Type} (b : bool) (m1 m2 : M A) :
  quiet m1 -> quiet m2 -> quiet (if b then m1 else m2).
Proof. by destruct b. Qed.

Lemma quiet_load_group (g : nat) : quiet (load_group g).
Proof.
  intros w. unfold load_group. destruct (Control w) as [cf|]; [|done].
  by destruct (groups cf !! g).
Qed.

Lemma quiet_Control_AddGroup (name : string) : quiet (Control_AddGroup name).
Proof. intros w. unfold Control_AddGroup. by destruct (Control w). Qed.

Lemma quiet_get_Control : quiet get_Control.
Proof. by intros w. Qed.

Ltac quiet_step :=
  first
    [ apply quiet_ret | apply quiet_panic | apply quiet_load
    | apply quiet_load_group | apply quiet_Control_AddGroup
    | apply quiet_get_Control
    | apply quiet_alloc; reflexivity
    | apply quiet_store; reflexivity
    | apply quiet_update; intros w; (reflexivity || (destruct (Control w); reflexivity))
    | apply quiet_if
    | apply quiet_match_option; [intros ?|]
    | apply quiet_bind; [|intros ?] ].

Ltac quiet_tac := repeat quiet_step.

Lemma quiet_store_check (cb : nat * nat) (f : CheckBox -> CheckBox) :
  quiet (store_check cb f).
Proof. unfold store_check, load_check, store_group. quiet_tac. Qed.

Lemma quiet_Group_AddCheckBox (g : nat) (label : string) :
  quiet (Group_AddCheckBox g label).
Proof. unfold Group_AddCheckBox, store_group. quiet_tac. Qed.

Lemma quiet_CheckBox_SetValue (cb : nat * nat) (state : bool) :
  quiet (CheckBox_SetValue cb state).
Proof. unfold CheckBox_SetValue. apply quiet_bind; [apply quiet_store_check|quiet_tac]. Qed.

Lemma quiet_CheckBox_Subscribe (cb : nat * nat) (evname : string) (cl : Closure) :
  quiet (CheckBox_Subscribe cb evname cl).
Proof.
  unfold CheckBox_Subscribe, load_check.
  apply quiet_bind; [quiet_tac|]. intros c. apply quiet_store_check.
Qed.

Lemma quiet_Scene_Add (n : INode) : quiet (Scene_Add n).
Proof. unfold Scene_Add. quiet_tac. Qed.

Lemma quiet_Renderer_AddShader (name source : string) :
  quiet (Renderer_AddShader name source).
Proof. unfold Renderer_AddShader. quiet_tac. Qed.

Lemma quiet_NormalsMaterial_Incref (mat : loc) : quiet (NormalsMaterial_Incref mat).
Proof. unfold NormalsMaterial_Incref. quiet_tac. Qed.

Lemma quiet_graphic_NewMesh (g : Geometry) (im : option IMaterial) :
  quiet (graphic_NewMesh g im).
Proof. unfold graphic_NewMesh. quiet_tac. Qed.

Lemma quiet_Mesh_SetPosition (p : option loc) (x y z : GoConst) :
  quiet (Mesh_SetPosition p x y z).
Proof. unfold Mesh_SetPosition. quiet_tac. Qed.

Lemma quiet_call (cl : Closure) (ev : string) : quiet (call cl ev).
Proof. destruct cl; unfold call; quiet_tac. Qed.

Lemma quiet_ShaderGeometry_Render (t : loc) : quiet (ShaderGeometry_Render t).
Proof.
  unfold ShaderGeometry_Render, Mesh_AddRotationX, Mesh_AddRotationY,
    Mesh_AddRotationZ. quiet_tac.
Qed.

Lemma quiet_ShaderGeometry_Initialize (t : loc) : quiet (ShaderGeometry_Initialize t).
Proof.
  unfold ShaderGeometry_Initialize.
  repeat lazymatch goal with
    | |- quiet (_ ≫= _) => apply quiet_bind; [|intros ?]
    | |- quiet (Scene_Add _) => apply quiet_Scene_Add
    | |- quiet (Renderer_AddShader _ _) => apply quiet_Renderer_AddShader
    | |- quiet (NormalsMaterial_Incref _) => apply quiet_NormalsMaterial_Incref
    | |- quiet (graphic_NewMesh _ _) => apply quiet_graphic_NewMesh
    | |- quiet (Mesh_SetPosition _ _ _ _) => apply quiet_Mesh_SetPosition
    | |- quiet (Group_AddCheckBox _ _) => apply quiet_Group_AddCheckBox
    | |- quiet (CheckBox_SetValue _ _) => apply quiet_CheckBox_SetValue
    | |- quiet (CheckBox_Subscribe _ _ _) => apply quiet_CheckBox_Subscribe
    | |- quiet (Control_AddGroup _) => apply quiet_Control_AddGroup
    | |- quiet get_Control => apply quiet_get_Control
    | |- quiet (load _ _) => apply quiet_load
    | |- quiet (store _ _ _ _) => apply quiet_store; reflexivity
    | |- quiet (mret _) => apply quiet_ret
    | |- quiet (match _ with Some _ => _ | None => _ end) =>
        apply quiet_match_option; [intros ?|]
    end.
  all: unfold Gui_Add, Renderer_AddProgram, newNormalsMaterial; quiet_tac.
Qed.

Lemma quiet_init_shader_geometry : quiet init_shader_geometry.
Proof. unfold init_shader_geometry. quiet_tac. Qed.

Lemma quiet_init_skybox : quiet init_skybox.
Proof. unfold init_skybox. quiet_tac. Qed.

Lemma quiet_Skybox_Render : quiet Skybox_Render.
Proof. unfold Skybox_Render. quiet_tac. Qed.

Lemma quiet_attach_face (sk : loc) (tex : option loc) (i : nat) :
  quiet (matFace ← material_NewStandard {| R := int 1; G := int 1; B := int 1 |};
         Standard_AddTexture matFace tex;;
         Standard_SetSide matFace SideBack;;
         Mesh_AddGroupMaterial sk (IStandard matFace) i).
Proof.
  unfold material_NewStandard, Standard_AddTexture, Standard_SetSide,
    Mesh_AddGroupMaterial. quiet_tac.
Qed.

Lemma first_missing_None (w : World) :
  (∀ name, name ∈ textures -> is_Some (Images w !! face_path w name)) ->
  first_missing w = None.
Proof.
  intros H. unfold first_missing. apply list_find_None, Forall_forall.
  intros name Hin Hnone. destruct (H name Hin) as [u Hu]. congruence.
Qed.

(** ** The claims *)

(** C1 (as amended). [ShaderGeometry.Render] does not look at the host's
    frame delta-time: whatever delta-time the host supplies, a call with
    [rotate] set adds the fixed constants 0.01 to the X rotation of the
    plane, 0.01 to the Y rotation of the box and 0.005 to the Z rotation
    of the sphere, and changes nothing else. *)
Theorem C1_render_adds_fixed_increments
    (t : loc) (s : ShaderGeometry) (w : World) (pl bx sp : loc) (dt : f32) :
  sgs w !! t = Some s -> rotate s = true ->
  plane s = Some pl -> box s = Some bx -> sphere s = Some sp ->
  is_Some (meshes w !! pl) -> is_Some (meshes w !! bx) -> is_Some (meshes w !! sp) ->
  ShaderGeometry_Render t (set_FrameDelta dt w) =
    Done tt (set_FrameDelta dt
               (set_meshes
                  (alter (rotatedZ (Num 5 (-3))) sp
                     (alter (rotatedY (Num 1 (-2))) bx
                        (alter (rotatedX (Num 1 (-2))) pl (meshes w)))) w)).
Proof.
  intros Ht Hr Hpl Hbx Hsp Hm1 Hm2 Hm3.
  by rewrite (Render_rotating t s (set_FrameDelta dt w) pl bx sp).
Qed.

(** C2. The fatal log call of [Skybox.Initialize] is the only failure
    handling: in the loop over the six face textures the call is made if
    and only if loading that texture returns an error, with that error as
    argument; [Skybox.Initialize] as a whole ends in the fatal call exactly
    when one of the six images cannot be loaded, and otherwise leaves the
    log untouched; no other operation of the two demos ([Initialize],
    [Render], the four check-box handlers, [newNormalsMaterial],
    [NormalsMaterial.RenderSetup] around any embedded setup, and the two
    [init] functions) ever makes the fatal call or writes to the log. *)
Theorem C2_fatal_only_on_texture_load_failure :
  (∀ (sk : loc) (i : nat) (name : string) (w : World),
     textures !! i = Some name ->
     ∃ tex err w1,
       texture_NewTexture2DFromImage (DirData w +:+ "/images/" +:+ name) w
         = Done (tex, err) w1 ∧
       match err with
       | Some e =>
           Skybox_face sk i w =
             Aborted (set_Log (Log w1 ++ [ {| log_format := "Error loading texture: %s";
                                               log_arg := e |} ]) w1)
       | None => ∀ w', Skybox_face sk i w ≠ Aborted w'
       end)
  ∧ (∀ w, (∃ w', Skybox_Initialize w = Aborted w') ↔
          (∃ name, name ∈ textures ∧
                   Images w !! (DirData w +:+ "/images/" +:+ name) = None))
  ∧ (∀ w w', Skybox_Initialize w = Aborted w' ->
       ∃ name, name ∈ textures ∧
         Log w' = Log w ++ [ {| log_format := "Error loading texture: %s";
                                log_arg := ErrLoad (DirData w +:+ "/images/" +:+ name) |} ])
  ∧ (∀ w w', Skybox_Initialize w = Done tt w' -> Log w' = Log w)
  ∧ (∀ t, quiet (ShaderGeometry_Initialize t))
  ∧ (∀ t, quiet (ShaderGeometry_Render t))
  ∧ (∀ cl ev, quiet (call cl ev))
  ∧ quiet Skybox_Render
  ∧ quiet init_shader_geometry
  ∧ quiet init_skybox
  ∧ quiet newNormalsMaterial
  ∧ (∀ (base : Material -> GLS -> GLS) (m : loc) (gs : GLS),
       quiet (NormalsMaterial_RenderSetup base m gs)).
Proof.
  split; [|split; [|split; [|split]]].
  - intros sk i name w Hi.
    unfold Skybox_face, index. rewrite Hi.
    rewrite (bind_Done get_DirData _ w (DirData w) w eq_refl).
    rewrite (bind_Done (mret name) _ w name w eq_refl).
    destruct (Images w !! (DirData w +:+ "/images/" +:+ name)) as [u|] eqn:Himg.
    + assert (texture_NewTexture2DFromImage (DirData w +:+ "/images/" +:+ name) w =
                Done (Some (length (texs w)), None)
                  (set_texs (texs w ++
                     [ {| tex_path := DirData w +:+ "/images/" +:+ name |} ]) w)) as Hload.
      { unfold texture_NewTexture2DFromImage. by rewrite Himg. }
      eexists _, None, _. split; [exact Hload|].
      intros w'. rewrite (bind_Done _ _ _ _ _ Hload). cbn [snd fst].
      rewrite (bind_Done (mret tt) _ _ tt _ eq_refl).
      intros Habs.
      pose proof (quiet_attach_face sk (Some (length (texs w))) i
                    (set_texs (texs w ++
                       [ {| tex_path := DirData w +:+ "/images/" +:+ name |} ]) w)) as Hq.
      by rewrite Habs in Hq.
    + assert (texture_NewTexture2DFromImage (DirData w +:+ "/images/" +:+ name) w =
                Done (None, Some (ErrLoad (DirData w +:+ "/images/" +:+ name))) w) as Hload.
      { unfold texture_NewTexture2DFromImage. by rewrite Himg. }
      eexists None, (Some _), _. split; [exact Hload|].
      by rewrite (bind_Done _ _ _ _ _ Hload).
  - intros w. rewrite Skybox_Initialize_eq. split.
    + intros [w' Hw'].
      destruct (first_missing w) as [[i name]|] eqn:Hfm; [|done].
      apply list_find_Some in Hfm as (Hi & Hnone & _).
      exists name. split; [by eapply list_elem_of_lookup_2|done].
    + intros (name & Hin & Hnone).
      destruct (list_find_elem_of (λ name, Images w !! face_path w name = None)
                  textures name Hin Hnone) as [[i n] Hfm].
      unfold first_missing. rewrite Hfm. by eexists.
  - intros w w'. rewrite Skybox_Initialize_eq.
    destruct (first_missing w) as [[i name]|] eqn:Hfm; [|done].
    intros [= <-]. apply list_find_Some in Hfm as (Hi & Hnone & _).
    exists name. split; [by eapply list_elem_of_lookup_2|done].
  - intros w w'. rewrite Skybox_Initialize_eq.
    destruct (first_missing w) as [[i name]|] eqn:Hfm; [done|].
    by intros [= <-].
  - split; [exact quiet_ShaderGeometry_Initialize|].
    split; [exact quiet_ShaderGeometry_Render|].
    split; [exact quiet_call|].
    split; [exact quiet_Skybox_Render|].
    split; [exact quiet_init_shader_geometry|].
    split; [exact quiet_init_skybox|].
    split.
    + unfold newNormalsMaterial. cbv zeta. apply quiet_alloc.
      intros x w. reflexivity.
    + intros base m gs. unfold NormalsMaterial_RenderSetup. cbv zeta.
      apply quiet_bind; [apply quiet_load|]. intros m1.
      apply quiet_bind; [apply quiet_load|]. intros m2.
      apply quiet_bind; [apply quiet_load|]. intros m3.
      apply quiet_bind; [apply quiet_load|]. intros m4.
      apply quiet_ret.
Qed.

(** C3. Each [init] registers exactly one demo object, under the single
    key "shader.geometry" resp. "skybox.sanfrancisco" (category, dot,
    name), in its lookup table.  Read from the state [init] returns: the
    table holds the demo under that key and every other key is as before;
    for the geometry demo the entry points to one new object, the zero
    value, and the objects that existed are unchanged; the entry exposes
    [Initialize] and [Render]; every other part of the host is as it
    was. *)
Theorem C3_init_registers_one_demo (w : World) :
  (∃ w' t,
     init_shader_geometry w = Done tt w' ∧
     TestMap w' !! "shader.geometry" = Some (DemoShaderGeometry t) ∧
     (∀ k, k ≠ "shader.geometry" -> TestMap w' !! k = TestMap w !! k) ∧
     sgs w !! t = None ∧
     sgs w' !! t = Some ShaderGeometry_zero ∧
     length (sgs w') = S (length (sgs w)) ∧
     (∀ i, i ≠ t -> sgs w' !! i = sgs w !! i) ∧
     Initialize (DemoShaderGeometry t) = ShaderGeometry_Initialize t ∧
     Render (DemoShaderGeometry t) = ShaderGeometry_Render t ∧
     demos_Map w' = demos_Map w ∧
     Gui w' = Gui w ∧ Scene w' = Scene w ∧ Shaders w' = Shaders w ∧
     Programs w' = Programs w ∧ Control w' = Control w ∧
     FrameDelta w' = FrameDelta w ∧ DirData w' = DirData w ∧
     Images w' = Images w ∧ Log w' = Log w ∧ meshes w' = meshes w ∧
     nmats w' = nmats w ∧ smats w' = smats w ∧ texs w' = texs w)
  ∧ (∃ w',
     init_skybox w = Done tt w' ∧
     demos_Map w' !! "skybox.sanfrancisco" = Some DemoSkybox ∧
     (∀ k, k ≠ "skybox.sanfrancisco" -> demos_Map w' !! k = demos_Map w !! k) ∧
     Initialize DemoSkybox = Skybox_Initialize ∧
     Render DemoSkybox = Skybox_Render ∧
     TestMap w' = TestMap w ∧ sgs w' = sgs w ∧
     Gui w' = Gui w ∧ Scene w' = Scene w ∧ Shaders w' = Shaders w ∧
     Programs w' = Programs w ∧ Control w' = Control w ∧
     FrameDelta w' = FrameDelta w ∧ DirData w' = DirData w ∧
     Images w' = Images w ∧ Log w' = Log w ∧ meshes w' = meshes w ∧
     nmats w' = nmats w ∧ smats w' = smats w ∧ texs w' = texs w)
  ∧ "shader.geometry" = demo_name "shader" "geometry"
  ∧ "skybox.sanfrancisco" = demo_name "skybox" "sanfrancisco".
Proof.
  split; [|split; [|split; reflexivity]].
  - destruct (init_shader_geometry w) as [[] w'| |] eqn:Hrun;
      [|discriminate Hrun..].
    exists w', (length (sgs w)). split; [reflexivity|].
    injection Hrun as <-. wsimpl.
    split; [by rewrite lookup_insert_eq|].
    split; [intros k Hk; by rewrite lookup_insert_ne|].
    split; [apply lookup_ge_None_2; lia|].
    split; [apply lookup_snoc|].
    split; [apply length_snoc|].
    split.
    { intros i Hi. destruct (decide (i < length (sgs w))%nat) as [Hlt|Hge].
      - by rewrite lookup_app_l.
      - rewrite !lookup_ge_None_2; [done|lia|rewrite length_snoc; lia]. }
    repeat split.
  - destruct (init_skybox w) as [[] w'| |] eqn:Hrun; [|discriminate Hrun..].
    exists w'. split; [reflexivity|].
    injection Hrun as <-. wsimpl.
    split; [by rewrite lookup_insert_eq|].
    split; [intros k Hk; by rewrite lookup_insert_ne|].
    repeat split.
Qed.

(** C4. [ShaderGeometry.Initialize] registers with the renderer the three
    shader stages "shaderGSDemoVertex", "shaderGSDemoGeometry" and
    "shaderGSDemoFrag", each with its source constant unchanged, and the
    one program "progGSDemo" naming these three stages; no other shader or
    program entry of the renderer changes. *)
Theorem C4_initialize_registers_shaders (t : loc) (s : ShaderGeometry) (w : World) :
  sgs w !! t = Some s ->
  ∃ w', ShaderGeometry_Initialize t w = Done tt w'
    ∧ Shaders w' !! "shaderGSDemoVertex" = Some sourceGSDemoVertex
    ∧ Shaders w' !! "shaderGSDemoGeometry" = Some sourceGSDemoGeometry
    ∧ Shaders w' !! "shaderGSDemoFrag" = Some sourceGSDemoFrag
    ∧ (∀ k, k ∉ ["shaderGSDemoVertex"; "shaderGSDemoGeometry"; "shaderGSDemoFrag"] ->
         Shaders w' !! k = Shaders w !! k)
    ∧ Programs w' !! "progGSDemo" =
        Some {| Vertex := "shaderGSDemoVertex"; Fragment := "shaderGSDemoFrag";
                GeometryStage := "shaderGSDemoGeometry" |}
    ∧ (∀ k, k ≠ "progGSDemo" -> Programs w' !! k = Programs w !! k).
Proof.
  intros Ht. eexists. split; [by apply (ShaderGeometry_Initialize_eq t s)|].
  unfold initialized. wsimpl.
  split; [by rewrite !lookup_insert_ne, lookup_insert_eq by done|].
  split; [by rewrite lookup_insert_ne, lookup_insert_eq by done|].
  split; [by rewrite lookup_insert_eq|].
  split.
  - intros k Hk. rewrite !lookup_insert_ne; [done|..];
      intros <-; apply Hk; set_solver.
  - split; [by rewrite lookup_insert_eq|].
    intros k Hk. by rewrite lookup_insert_ne.
Qed.

(** C5. When the six images load, [Skybox.Initialize] creates one box mesh
    and attaches to its face groups 0..5 six distinct, newly created
    materials; the material of group [i] carries exactly the texture
    loaded from the [i]-th file of the list and renders its back side; the
    mesh is then added to the scene. *)
Theorem C5_skybox_faces (w : World) :
  Forall (λ name, is_Some (Images w !! (DirData w +:+ "/images/" +:+ name))) textures ->
  ∃ w' skybox,
    Skybox_Initialize w = Done tt w' ∧
    Scene w' = Scene w ++ [NodeAxis (int 2); NodeMesh (Some (length (meshes w)))] ∧
    meshes w' = meshes w ++ [skybox] ∧
    geom skybox = NewBox (int 50) (int 50) (int 50) (int 2) (int 2) (int 2) ∧
    length (materials skybox) = 6%nat ∧
    NoDup (imat <$> materials skybox) ∧
    (∀ i name, textures !! i = Some name ->
       ∃ mat tex sm,
         materials skybox !! i = Some {| imat := IStandard mat; group := Some i |} ∧
         smats w !! mat = None ∧
         smats w' !! mat = Some sm ∧
         side (std_Material sm) = SideBack ∧
         mtextures (std_Material sm) = [Some tex] ∧
         texs w !! tex = None ∧
         texs w' !! tex = Some {| tex_path := DirData w +:+ "/images/" +:+ name |}).
Proof.
  intros Himg. rewrite Forall_forall in Himg.
  rewrite Skybox_Initialize_eq, (first_missing_None w Himg).
  eexists _, _. split; [reflexivity|].
  unfold skybox_built, faces_attached. wsimpl.
  split; [reflexivity|]. split; [reflexivity|]. split; [reflexivity|].
  split; [reflexivity|]. split.
  - cbn. repeat (apply NoDup_cons; split;
      [rewrite ?not_elem_of_cons; repeat split;
       try (intros [=]; lia); apply not_elem_of_nil|]).
    apply NoDup_nil_2.
  - intros i name Hi.
    exists (i + length (smats w))%nat, (i + length (texs w))%nat,
           (faceMaterial (i + length (texs w))).
    assert (i < 6)%nat as Hlt by (apply lookup_lt_Some in Hi; exact Hi).
    split; [|split; [|split; [|split; [|split; [|split]]]]].
    + destruct i as [|[|[|[|[|[|i]]]]]]; [reflexivity..|lia].
    + apply lookup_ge_None. lia.
    + rewrite lookup_app_r by lia.
      replace (i + length (smats w) - length (smats w))%nat with i by lia.
      destruct i as [|[|[|[|[|[|i]]]]]]; [reflexivity..|lia].
    + reflexivity.
    + reflexivity.
    + apply lookup_ge_None. lia.
    + rewrite lookup_app_r by lia.
      replace (i + length (texs w) - length (texs w))%nat with i by lia.
      destruct i as [|[|[|[|[|[|i]]]]]]; [..|lia]; simplify_eq/=; reflexivity.
Qed.

(** C6. With a control folder present, [ShaderGeometry.Initialize] adds the
    group "Show" with the check boxes "Rotate", "Wireframe",
    "Vertex normals" and "Face normals", each checked and with one
    [OnChange] handler.  Every invocation of the handler of one of the last
    three sets its show field to 1 if it was 0 and to 0 otherwise, and
    writes that new value into the uniform of the same name of the shared
    material; the "Rotate" handler negates [rotate] and leaves every
    material as it was. *)
Theorem C6_checkbox_handlers :
  (∀ (t : loc) (s : ShaderGeometry) (cf : ControlFolder) (w : World),
     sgs w !! t = Some s -> Control w = Some cf ->
     ∃ w', ShaderGeometry_Initialize t w = Done tt w' ∧
       Control w' =
         Some {| groups := groups cf ++ [
           {| g_name := "Show";
              g_checks := [
                {| cb_label := "Rotate"; cb_value := true;
                   cb_subs := [(gui_OnChange, OnRotate t)] |};
                {| cb_label := "Wireframe"; cb_value := true;
                   cb_subs := [(gui_OnChange, OnWireframe t (length (nmats w)))] |};
                {| cb_label := "Vertex normals"; cb_value := true;
                   cb_subs := [(gui_OnChange, OnVnormal t (length (nmats w)))] |};
                {| cb_label := "Face normals"; cb_value := true;
                   cb_subs := [(gui_OnChange, OnFnormal t (length (nmats w)))] |} ] |} ] |} ∧
       (∀ i, (i < 3)%nat ->
          materials <$> meshes w' !! (length (meshes w) + i)%nat =
            Some [ {| imat := INormals (length (nmats w)); group := None |} ]))
  ∧ (∀ (t mat : loc) (s : ShaderGeometry) (m : NormalsMaterial) (w : World) (ev : string),
       sgs w !! t = Some s -> nmats w !! mat = Some m ->
       let flip (v : Z) : Z := if v =? 0 then 1 else 0 in
       call (OnWireframe t mat) ev w =
         Done tt (set_nmats
                    (<[mat := set_ShowWireframe
                                {| uname := uname (ShowWireframe m);
                                   v0 := flip (showWireframe s) |} m]> (nmats w))
                    (set_sgs (<[t := set_showWireframe (flip (showWireframe s)) s]> (sgs w)) w))
       ∧ call (OnVnormal t mat) ev w =
         Done tt (set_nmats
                    (<[mat := set_ShowVnormal
                                {| uname := uname (ShowVnormal m);
                                   v0 := flip (showVnormal s) |} m]> (nmats w))
                    (set_sgs (<[t := set_showVnormal (flip (showVnormal s)) s]> (sgs w)) w))
       ∧ call (OnFnormal t mat) ev w =
         Done tt (set_nmats
                    (<[mat := set_ShowFnormal
                                {| uname := uname (ShowFnormal m);
                                   v0 := flip (showFnormal s) |} m]> (nmats w))
                    (set_sgs (<[t := set_showFnormal (flip (showFnormal s)) s]> (sgs w)) w))
       ∧ call (OnRotate t) ev w =
         Done tt (set_sgs (<[t := set_rotate (negb (rotate s)) s]> (sgs w)) w)).
Proof.
  split.
  - intros t s cf w Ht Hc. eexists.
    split; [by apply (ShaderGeometry_Initialize_eq t s)|].
    unfold initialized. wsimpl. rewrite Hc. split; [reflexivity|].
    intros i Hi. destruct i as [|[|[|i]]]; [| | |lia].
    + by rewrite Nat.add_0_r, lookup_app_r, Nat.sub_diag.
    + rewrite lookup_app_r by lia.
      by replace (length (meshes w) + 1 - length (meshes w))%nat with 1%nat by lia.
    + rewrite lookup_app_r by lia.
      by replace (length (meshes w) + 2 - length (meshes w))%nat with 2%nat by lia.
  - intros t mat s m w ev Ht Hm flip.
    rewrite (call_OnWireframe t mat s m), (call_OnVnormal t mat s m),
      (call_OnFnormal t mat s m), (call_OnRotate t s) by done.
    done.
Qed.

(** C7. After [ShaderGeometry.Initialize] has completed with a control
    folder present, and after any sequence of frames and of [OnChange]
    deliveries to the four check boxes, each of [showWireframe],
    [showVnormal], [showFnormal] is 0 or 1 and is the value held by its
    material uniform; from any such state, delivering [OnChange] to one
    check box an even number of times gives back the same state. *)
Theorem C7_toggles_consistent
    (t : loc) (s : ShaderGeometry) (cf : ControlFolder) (w : World)
    (es : list HostEvent) :
  sgs w !! t = Some s -> Control w = Some cf -> Forall event_ok es ->
  ∃ w1 w',
    ShaderGeometry_Initialize t w = Done tt w1 ∧
    host_run t (length (groups cf)) es w1 = Done tt w' ∧
    (∃ s' m', sgs w' !! t = Some s' ∧ nmats w' !! length (nmats w) = Some m' ∧
       (showWireframe s' = 0 ∨ showWireframe s' = 1) ∧
       (showVnormal s' = 0 ∨ showVnormal s' = 1) ∧
       (showFnormal s' = 0 ∨ showFnormal s' = 1) ∧
       v0 (ShowWireframe m') = showWireframe s' ∧
       v0 (ShowVnormal m') = showVnormal s' ∧
       v0 (ShowFnormal m') = showFnormal s') ∧
    (∀ i n, (i < 4)%nat ->
       repeat_m (2 * n) (Dispatch (length (groups cf), i) gui_OnChange) w' = Done tt w').
Proof.
  intros Ht Hc Hes.
  pose proof (initialized_wired t s cf w Ht Hc) as Hw1.
  destruct (host_run_wired _ _ _ es _ Hw1 Hes) as (w' & Hrun & Hw').
  exists (initialized t s w), w'.
  split; [by apply ShaderGeometry_Initialize_eq|].
  split; [done|]. split; [apply Hw'|].
  intros i n Hi. by apply (handler_even t (length (nmats w))).
Qed.

(** C8. If the host has no control folder, [ShaderGeometry.Initialize]
    returns without touching the toggle state: a demo object whose [rotate]
    is false (as registered by [init]) keeps it false and keeps its show
    fields, the uniforms of the new material hold their initial value 1,
    and any number of [Render] calls afterwards leaves the whole state,
    mesh rotations included, unchanged. *)
Theorem C8_no_control_no_rotation
    (t : loc) (s : ShaderGeometry) (w : World) (n : nat) :
  sgs w !! t = Some s -> Control w = None -> rotate s = false ->
  ∃ w1,
    ShaderGeometry_Initialize t w = Done tt w1 ∧
    (∃ s1, sgs w1 !! t = Some s1 ∧ rotate s1 = false ∧
       showWireframe s1 = showWireframe s ∧ showVnormal s1 = showVnormal s ∧
       showFnormal s1 = showFnormal s) ∧
    (∃ m, nmats w1 !! length (nmats w) = Some m ∧
       v0 (ShowWireframe m) = 1 ∧ v0 (ShowVnormal m) = 1 ∧ v0 (ShowFnormal m) = 1) ∧
    Control w1 = None ∧
    repeat_m n (ShaderGeometry_Render t) w1 = Done tt w1.
Proof.
  intros Ht Hc Hr. pose proof (lookup_lt_Some _ _ _ Ht) as Hlt.
  exists (initialized t s w).
  split; [by apply ShaderGeometry_Initialize_eq|].
  assert (∃ s1, sgs (initialized t s w) !! t = Some s1 ∧ rotate s1 = false ∧
            showWireframe s1 = showWireframe s ∧ showVnormal s1 = showVnormal s ∧
            showFnormal s1 = showFnormal s) as Hs1.
  { unfold initialized. wsimpl. rewrite Hc.
    eexists. rewrite list_lookup_insert_eq by done. by split. }
  split; [exact Hs1|]. split; [|split].
  - unfold initialized. wsimpl. eexists. rewrite lookup_snoc. by split.
  - unfold initialized. wsimpl. by rewrite Hc.
  - destruct Hs1 as (s1 & Hs1 & Hr1 & _).
    induction n as [|n IH]; [reflexivity|].
    cbn [repeat_m]. unfold mbind, M_bind.
    by rewrite (Render_not_rotating t s1).
Qed.

(** C9. [Skybox.Render] is a no-op: it returns and the whole state is
    what it was. *)
Theorem C9_skybox_render_noop (w : World) : Skybox_Render w = Done tt w.
Proof. reflexivity. Qed.

(** ** Further properties of [shader_geometry.go] *)

(** What [ShaderGeometry.Initialize] builds: the help label, then in the
    scene, in this order, the front light, the axis helper and the plane,
    box and sphere meshes that the demo object points to; the three meshes
    sit at x = -2.2, 0 and 2.2 and all use the one new material, whose
    reference count is 4 (one from [Init], one per mesh). *)
Theorem Initialize_builds_scene (t : loc) (s : ShaderGeometry) (w : World) :
  sgs w !! t = Some s ->
  ∃ w' s' m mp mb ms,
    ShaderGeometry_Initialize t w = Done tt w' ∧
    sgs w' !! t = Some s' ∧
    meshes w' = meshes w ++ [mp; mb; ms] ∧
    nmats w' = nmats w ++ [m] ∧
    plane s' = Some (length (meshes w)) ∧
    box s' = Some (S (length (meshes w))) ∧
    sphere s' = Some (S (S (length (meshes w)))) ∧
    Gui w' = Gui w ++
      [ {| text := "Wireframe, vertex and face normals generated by Geometry Shader";
           fontSize := Some (int 16); labelPos := Some (int 10, int 10) |} ] ∧
    Scene w' = Scene w ++
      [ NodeLight {| lightColor := {| R := int 1; G := int 1; B := int 1 |};
                     intensity := Num 6 (-1);
                     lightPos := vec3 (int 0) (int 0) (int 100) |};
        NodeAxis (int 1);
        NodeMesh (plane s'); NodeMesh (box s'); NodeMesh (sphere s') ] ∧
    geom mp = NewPlane (int 1) (int 1) (int 1) (int 1) ∧
    geom mb = NewBox (int 1) (int 1) (int 1) (int 1) (int 1) (int 1) ∧
    geom ms = NewSphere (Num 8 (-1)) (int 4) (int 4) (int 0) (Mul Pi (int 2)) (int 0) Pi ∧
    position mp = vec3 (Num (-22) (-1)) (int 0) (int 0) ∧
    position mb = vec3 (int 0) (int 0) (int 0) ∧
    position ms = vec3 (Num 22 (-1)) (int 0) (int 0) ∧
    materials mp = [ {| imat := INormals (length (nmats w)); group := None |} ] ∧
    materials mb = materials mp ∧ materials ms = materials mp ∧
    refcount (nm_Material m) = 4 ∧ shader (nm_Material m) = "progGSDemo".
Proof.
  intros Ht. pose proof (lookup_lt_Some _ _ _ Ht) as Hlt.
  rewrite (ShaderGeometry_Initialize_eq t s) by done.
  unfold initialized.
  destruct (Control w); eexists _, _, _, _, _, _;
    (split; [reflexivity|]); wsimpl;
    rewrite list_lookup_insert_eq by done;
    repeat (split; [reflexivity|]); reflexivity.
Qed.

(** [ShaderGeometry.Initialize] only adds: what the host already had stays.
    The log, the files, the other heaps and both lookup tables are
    untouched; the existing meshes, materials, scene nodes, GUI elements
    and control groups are kept in place; no other demo object changes. *)
Theorem Initialize_preserves_host (t : loc) (s : ShaderGeometry) (w : World) :
  sgs w !! t = Some s ->
  ∃ w', ShaderGeometry_Initialize t w = Done tt w' ∧
    Log w' = Log w ∧ Images w' = Images w ∧ DirData w' = DirData w ∧
    FrameDelta w' = FrameDelta w ∧ smats w' = smats w ∧ texs w' = texs w ∧
    TestMap w' = TestMap w ∧ demos_Map w' = demos_Map w ∧
    Gui w `prefix_of` Gui w' ∧ Scene w `prefix_of` Scene w' ∧
    meshes w `prefix_of` meshes w' ∧ nmats w `prefix_of` nmats w' ∧
    (∀ cf, Control w = Some cf ->
       ∃ cf', Control w' = Some cf' ∧ groups cf `prefix_of` groups cf') ∧
    (Control w = None -> Control w' = None) ∧
    length (sgs w') = length (sgs w) ∧
    (∀ t', t' ≠ t -> sgs w' !! t' = sgs w !! t').
Proof.
  intros Ht. eexists.
  split; [by apply (ShaderGeometry_Initialize_eq t s)|].
  unfold initialized. wsimpl.
  do 8 (split; [reflexivity|]).
  do 4 (split; [by eexists|]).
  split; [intros cf ->; eexists; split; [reflexivity|by eexists]|].
  split; [by intros ->|].
  split; [by rewrite length_insert|].
  intros t' Hne. by rewrite list_lookup_insert_ne.
Qed.

(** [ShaderGeometry.Render] is guarded by [rotate] alone.  On a demo object
    that was registered but never initialized the mesh pointers are nil,
    yet every frame returns and changes nothing, because the zero value of
    [rotate] is false; with [rotate] set and one of the three mesh pointers
    nil, or on a nil demo object, the call panics. *)
Theorem Render_guarded_by_rotate :
  (∀ (w : World) (n : nat),
     ∃ w1, init_shader_geometry w = Done tt w1 ∧
           repeat_m n (ShaderGeometry_Render (length (sgs w))) w1 = Done tt w1)
  ∧ (∀ (t : loc) (s : ShaderGeometry) (w : World),
       sgs w !! t = Some s -> rotate s = true ->
       plane s = None ∨ box s = None ∨ sphere s = None ->
       ShaderGeometry_Render t w = Panic)
  ∧ (∀ (t : loc) (w : World), sgs w !! t = None -> ShaderGeometry_Render t w = Panic).
Proof.
  split; [|split].
  - intros w n. eexists. split; [reflexivity|].
    induction n as [|n IH]; [reflexivity|].
    cbn [repeat_m]. unfold mbind, M_bind.
    rewrite (Render_not_rotating _ ShaderGeometry_zero); [exact IH| |reflexivity].
    wsimpl. apply lookup_snoc.
  - intros t s w Ht Hr Hnil. unfold ShaderGeometry_Render.
    mstep. rewrite Ht. mstep. rewrite Hr. mstep.
    destruct (plane s) as [pl|]; [|reflexivity].
    destruct (meshes w !! pl) as [mp|]; [|reflexivity].
    mstep. rewrite Ht. mstep.
    destruct (box s) as [bx|]; [|reflexivity].
    destruct (<[pl:=_]> (meshes w) !! bx) as [mb|]; [|reflexivity].
    mstep. rewrite Ht. mstep.
    destruct (sphere s) as [sp|]; [|reflexivity].
    by destruct Hnil as [?|[?|?]].
  - intros t w Ht. unfold ShaderGeometry_Render. mstep. by rewrite Ht.
Qed.

Lemma alter_snoc3 {A : Type} (f : A -> A) (pre : list A) (a b c : A) :
  alter f (length pre) (pre ++ [a; b; c]) = pre ++ [f a; b; c] ∧
  alter f (S (length pre)) (pre ++ [a; b; c]) = pre ++ [a; f b; c] ∧
  alter f (S (S (length pre))) (pre ++ [a; b; c]) = pre ++ [a; b; f c].
Proof.
  induction pre as [|x pre IH]; [done|].
  destruct IH as (H1 & H2 & H3). cbn. by rewrite H1, H2, H3.
Qed.

(** One frame on the three meshes as [Initialize] lays them out. *)
Lemma Render_layout (t : loc) (s : ShaderGeometry) (w : World)
    (pre : list Mesh) (a b c : Mesh) :
  sgs w !! t = Some s -> rotate s = true ->
  plane s = Some (length pre) -> box s = Some (S (length pre)) ->
  sphere s = Some (S (S (length pre))) ->
  meshes w = pre ++ [a; b; c] ->
  ShaderGeometry_Render t w =
    Done tt (set_meshes
               (pre ++ [rotatedX (Num 1 (-2)) a; rotatedY (Num 1 (-2)) b;
                        rotatedZ (Num 5 (-3)) c]) w).
Proof.
  intros Ht Hr Hpl Hbx Hsp Hm.
  rewrite (Render_rotating t s w _ _ _ Ht Hr Hpl Hbx Hsp);
    rewrite Hm; [|rewrite lookup_lt_is_Some, length_app; cbn; lia..].
  destruct (alter_snoc3 (rotatedX (Num 1 (-2))) pre a b c) as (-> & _ & _).
  destruct (alter_snoc3 (rotatedY (Num 1 (-2))) pre (rotatedX (Num 1 (-2)) a) b c)
    as (_ & -> & _).
  destruct (alter_snoc3 (rotatedZ (Num 5 (-3))) pre (rotatedX (Num 1 (-2)) a)
              (rotatedY (Num 1 (-2)) b) c) as (_ & _ & ->).
  reflexivity.
Qed.

Lemma frames_layout (k : nat) (t : loc) (s : ShaderGeometry) (w : World)
    (pre : list Mesh) (a b c : Mesh) :
  sgs w !! t = Some s -> rotate s = true ->
  plane s = Some (length pre) -> box s = Some (S (length pre)) ->
  sphere s = Some (S (S (length pre))) ->
  repeat_m k (ShaderGeometry_Render t) (set_meshes (pre ++ [a; b; c]) w) =
    Done tt (set_meshes
               (pre ++ [Nat.iter k (rotatedX (Num 1 (-2))) a;
                        Nat.iter k (rotatedY (Num 1 (-2))) b;
                        Nat.iter k (rotatedZ (Num 5 (-3))) c]) w).
Proof.
  intros Ht Hr Hpl Hbx Hsp. revert a b c.
  induction k as [|k IH]; intros a b c; [reflexivity|].
  cbn [repeat_m]. unfold mbind, M_bind.
  rewrite (Render_layout t s _ pre a b c) by done.
  change (set_meshes ?x (set_meshes ?y w)) with (set_meshes x w).
  rewrite IH. by rewrite !Nat.iter_succ_r.
Qed.

Lemma iter_rotation (k : nat) (c : GoConst) (m : Mesh) :
  let add := λ r, f32_add r (f32_const c) in
  (rotation (Nat.iter k (rotatedX c) m) =
     {| vX := Nat.iter k add (vX (rotation m)); vY := vY (rotation m);
        vZ := vZ (rotation m) |}) ∧
  (rotation (Nat.iter k (rotatedY c) m) =
     {| vX := vX (rotation m); vY := Nat.iter k add (vY (rotation m));
        vZ := vZ (rotation m) |}) ∧
  (rotation (Nat.iter k (rotatedZ c) m) =
     {| vX := vX (rotation m); vY := vY (rotation m);
        vZ := Nat.iter k add (vZ (rotation m)) |}).
Proof.
  intros add. induction k as [|k (IHx & IHy & IHz)].
  - by destruct m as [? ? ? []].
  - rewrite !Nat.iter_succ.
    change (rotation (rotatedX c ?M)) with
      (set_vX (f32_add (vX (rotation M)) (f32_const c)) (rotation M)).
    change (rotation (rotatedY c ?M)) with
      (set_vY (f32_add (vY (rotation M)) (f32_const c)) (rotation M)).
    change (rotation (rotatedZ c ?M)) with
      (set_vZ (f32_add (vZ (rotation M)) (f32_const c)) (rotation M)).
    by rewrite IHx, IHy, IHz.
Qed.

Lemma iter_rotated_keeps (k : nat) (f : Mesh -> Mesh) (m : Mesh) :
  (∀ x, position (f x) = position x ∧ geom (f x) = geom x ∧
        materials (f x) = materials x) ->
  position (Nat.iter k f m) = position m ∧ geom (Nat.iter k f m) = geom m ∧
  materials (Nat.iter k f m) = materials m.
Proof.
  intros Hf. induction k as [|k (IH1 & IH2 & IH3)]; [done|].
  rewrite Nat.iter_succ. destruct (Hf (Nat.iter k f m)) as (-> & -> & ->). done.
Qed.

(** Rotation accumulates frame by frame.  After [Initialize] with a control
    folder, [k] frames add 0.01 [k] times to the X rotation of the plane,
    0.01 [k] times to the Y rotation of the box and 0.005 [k] times to the
    Z rotation of the sphere, each starting from 0; the other two angles
    of each mesh stay 0, positions, geometries and materials stay, and
    nothing but the three meshes changes. *)
Theorem frames_accumulate_rotation
    (t : loc) (s : ShaderGeometry) (cf : ControlFolder) (w : World) (k : nat) :
  sgs w !! t = Some s -> Control w = Some cf ->
  ∃ w1 wk mp mb ms mp' mb' ms',
    ShaderGeometry_Initialize t w = Done tt w1 ∧
    meshes w1 = meshes w ++ [mp; mb; ms] ∧
    repeat_m k (ShaderGeometry_Render t) w1 = Done tt wk ∧
    wk = set_meshes (meshes w ++ [mp'; mb'; ms']) w1 ∧
    rotation mp' = {| vX := Nat.iter k (λ r, f32_add r (f32_const (Num 1 (-2))))
                                     (f32_const (int 0));
                      vY := f32_const (int 0); vZ := f32_const (int 0) |} ∧
    rotation mb' = {| vX := f32_const (int 0);
                      vY := Nat.iter k (λ r, f32_add r (f32_const (Num 1 (-2))))
                                     (f32_const (int 0));
                      vZ := f32_const (int 0) |} ∧
    rotation ms' = {| vX := f32_const (int 0); vY := f32_const (int 0);
                      vZ := Nat.iter k (λ r, f32_add r (f32_const (Num 5 (-3))))
                                     (f32_const (int 0)) |} ∧
    position mp' = position mp ∧ position mb' = position mb ∧
    position ms' = position ms ∧
    geom mp' = geom mp ∧ geom mb' = geom mb ∧ geom ms' = geom ms ∧
    materials mp' = materials mp ∧ materials mb' = materials mb ∧
    materials ms' = materials ms.
Proof.
  intros Ht Hc. pose proof (lookup_lt_Some _ _ _ Ht) as Hlt.
  rewrite (ShaderGeometry_Initialize_eq t s) by done.
  eexists _, _, _, _, _, _, _, _. split; [reflexivity|].
  split; [unfold initialized; wsimpl; reflexivity|].
  split.
  { assert (initialized t s w = set_meshes (meshes (initialized t s w)) (initialized t s w))
      as -> by (by destruct (initialized t s w)).
    unfold initialized at 1. wsimpl.
    eapply (frames_layout k t); unfold initialized; wsimpl;
      rewrite ?Hc, ?list_lookup_insert_eq by done; reflexivity. }
  split; [apply World_eq; reflexivity|].
  destruct (iter_rotation k (Num 1 (-2))
              (normalsMesh (NewPlane (int 1) (int 1) (int 1) (int 1))
                 (length (nmats w)) (Num (-22) (-1)))) as (Hx & _ & _).
  destruct (iter_rotation k (Num 1 (-2))
              (normalsMesh (NewBox (int 1) (int 1) (int 1) (int 1) (int 1) (int 1))
                 (length (nmats w)) (int 0))) as (_ & Hy & _).
  destruct (iter_rotation k (Num 5 (-3))
              (normalsMesh (NewSphere (Num 8 (-1)) (int 4) (int 4) (int 0)
                              (Mul Pi (int 2)) (int 0) Pi)
                 (length (nmats w)) (Num 22 (-1)))) as (_ & _ & Hz).
  split; [exact Hx|]. split; [exact Hy|]. split; [exact Hz|].
  assert (∀ f m, (∀ x, position (f x) = position x ∧ geom (f x) = geom x ∧
                       materials (f x) = materials x) ->
            position (Nat.iter k f m) = position m ∧ geom (Nat.iter k f m) = geom m ∧
            materials (Nat.iter k f m) = materials m) as Hk
    by (intros; by apply iter_rotated_keeps).
  destruct (Hk (rotatedX (Num 1 (-2)))
              (normalsMesh (NewPlane (int 1) (int 1) (int 1) (int 1))
                 (length (nmats w)) (Num (-22) (-1)))) as (P1 & G1 & M1); [done|].
  destruct (Hk (rotatedY (Num 1 (-2)))
              (normalsMesh (NewBox (int 1) (int 1) (int 1) (int 1) (int 1) (int 1))
                 (length (nmats w)) (int 0))) as (P2 & G2 & M2); [done|].
  destruct (Hk (rotatedZ (Num 5 (-3)))
              (normalsMesh (NewSphere (Num 8 (-1)) (int 4) (int 4) (int 0)
                              (Mul Pi (int 2)) (int 0) Pi)
                 (length (nmats w)) (Num 22 (-1)))) as (P3 & G3 & M3); [done|].
  repeat split; assumption.
Qed.

(** The states the host can reach after [Initialize]. *)
Lemma reachable_wired (t : loc) (s : ShaderGeometry) (cf : ControlFolder) (w : World)
    (es : list HostEvent) :
  sgs w !! t = Some s -> Control w = Some cf -> Forall event_ok es ->
  ∃ w1 w', ShaderGeometry_Initialize t w = Done tt w1 ∧
           host_run t (length (groups cf)) es w1 = Done tt w' ∧
           wired t (length (nmats w)) (length (groups cf)) w'.
Proof.
  intros Ht Hc Hes.
  pose proof (initialized_wired t s cf w Ht Hc) as Hw1.
  destruct (host_run_wired _ _ _ es _ Hw1 Hes) as (w' & Hrun & Hw').
  exists (initialized t s w), w'. split; [by apply ShaderGeometry_Initialize_eq|done].
Qed.

(** The "Rotate" check box switches the animation off and on.  In any
    state reached after [Initialize], if [rotate] is set, one [OnChange] of
    "Rotate" clears it and every following frame leaves the whole state
    unchanged; if it is clear, the [OnChange] sets it again. *)
Theorem rotate_checkbox_gates_render
    (t : loc) (s : ShaderGeometry) (cf : ControlFolder) (w : World)
    (es : list HostEvent) (k : nat) :
  sgs w !! t = Some s -> Control w = Some cf -> Forall event_ok es ->
  ∃ w1 w' w'' s' s'',
    ShaderGeometry_Initialize t w = Done tt w1 ∧
    host_run t (length (groups cf)) es w1 = Done tt w' ∧
    sgs w' !! t = Some s' ∧
    Dispatch (length (groups cf), 0%nat) gui_OnChange w' = Done tt w'' ∧
    sgs w'' !! t = Some s'' ∧ rotate s'' = negb (rotate s') ∧
    meshes w'' = meshes w' ∧
    (rotate s' = true ->
       repeat_m k (ShaderGeometry_Render t) w'' = Done tt w'').
Proof.
  intros Ht Hc Hes.
  destruct (reachable_wired t s cf w es Ht Hc Hes) as (w1 & w' & Hini & Hrun & Hw').
  destruct (handler_effect _ _ _ 0 w' Hw' ltac:(lia)) as (s' & m' & Hs' & Hm' & Hd).
  pose proof (lookup_lt_Some _ _ _ Hs') as Hlt.
  eexists w1, w', _, s', _. split; [done|]. split; [done|]. split; [done|].
  split; [exact Hd|]. wsimpl. rewrite list_lookup_insert_eq by done.
  split; [reflexivity|]. split; [reflexivity|]. split; [reflexivity|].
  intros Hr. induction k as [|k IH]; [reflexivity|].
  cbn [repeat_m]. unfold mbind, M_bind.
  rewrite (Render_not_rotating t (set_rotate (negb (rotate s')) s')); [exact IH| |].
  - wsimpl. by rewrite list_lookup_insert_eq.
  - cbn. by rewrite Hr.
Qed.

(** One invocation of a show handler brings its field and its uniform in
    line whatever they were before: the field becomes 0 or 1 (1 only if it
    was 0) and the uniform of the same name holds that value.  The other
    fields of the demo object, the other two uniforms, the uniform names
    and the rest of the material are left alone. *)
Theorem show_handler_resyncs
    (t mat : loc) (s : ShaderGeometry) (m : NormalsMaterial) (w : World) (ev : string) :
  sgs w !! t = Some s -> nmats w !! mat = Some m ->
  (∃ w' s' m',
     call (OnWireframe t mat) ev w = Done tt w' ∧
     sgs w' !! t = Some s' ∧ nmats w' !! mat = Some m' ∧
     (showWireframe s' = 0 ∨ showWireframe s' = 1) ∧
     (showWireframe s' = 1 ↔ showWireframe s = 0) ∧
     v0 (ShowWireframe m') = showWireframe s' ∧
     s' = set_showWireframe (showWireframe s') s ∧
     m' = set_ShowWireframe {| uname := uname (ShowWireframe m);
                               v0 := showWireframe s' |} m)
  ∧ (∃ w' s' m',
     call (OnVnormal t mat) ev w = Done tt w' ∧
     sgs w' !! t = Some s' ∧ nmats w' !! mat = Some m' ∧
     (showVnormal s' = 0 ∨ showVnormal s' = 1) ∧
     (showVnormal s' = 1 ↔ showVnormal s = 0) ∧
     v0 (ShowVnormal m') = showVnormal s' ∧
     s' = set_showVnormal (showVnormal s') s ∧
     m' = set_ShowVnormal {| uname := uname (ShowVnormal m);
                             v0 := showVnormal s' |} m)
  ∧ (∃ w' s' m',
     call (OnFnormal t mat) ev w = Done tt w' ∧
     sgs w' !! t = Some s' ∧ nmats w' !! mat = Some m' ∧
     (showFnormal s' = 0 ∨ showFnormal s' = 1) ∧
     (showFnormal s' = 1 ↔ showFnormal s = 0) ∧
     v0 (ShowFnormal m') = showFnormal s' ∧
     s' = set_showFnormal (showFnormal s') s ∧
     m' = set_ShowFnormal {| uname := uname (ShowFnormal m);
                             v0 := showFnormal s' |} m).
Proof.
  intros Ht Hm.
  pose proof (lookup_lt_Some _ _ _ Ht) as Hlt.
  pose proof (lookup_lt_Some _ _ _ Hm) as Hlm.
  assert (∀ v, (flip01 v = 0 ∨ flip01 v = 1) ∧ (flip01 v = 1 ↔ v = 0)) as Hflip.
  { intros v. unfold flip01. destruct (Z.eqb_spec v 0); split; auto; split; lia || done. }
  split; [|split].
  - rewrite (call_OnWireframe t mat s m) by done.
    eexists _, _, _. split; [reflexivity|]. wsimpl.
    rewrite !list_lookup_insert_eq by done.
    split; [reflexivity|]. split; [reflexivity|]. cbn.
    split; [apply Hflip|]. split; [apply Hflip|]. done.
  - rewrite (call_OnVnormal t mat s m) by done.
    eexists _, _, _. split; [reflexivity|]. wsimpl.
    rewrite !list_lookup_insert_eq by done.
    split; [reflexivity|]. split; [reflexivity|]. cbn.
    split; [apply Hflip|]. split; [apply Hflip|]. done.
  - rewrite (call_OnFnormal t mat s m) by done.
    eexists _, _, _. split; [reflexivity|]. wsimpl.
    rewrite !list_lookup_insert_eq by done.
    split; [reflexivity|]. split; [reflexivity|]. cbn.
    split; [apply Hflip|]. split; [apply Hflip|]. done.
Qed.

Lemma wired_Change_eq (t mat : loc) (g i : nat) (w w1 : World) :
  wired t mat g w -> (i < 4)%nat ->
  Dispatch (g, i) gui_OnChange w = Done tt w1 -> wired t mat g w1.
Proof.
  intros Hw Hi Hd. destruct (wired_Change t mat g i w Hw Hi) as (w2 & Hd2 & Hw2).
  congruence.
Qed.

Ltac dispatch_at Hw i s m Hs Hm Hd :=
  let Hlt := fresh "Hlt" in let Hlm := fresh "Hlm" in
  destruct (handler_effect _ _ _ i _ Hw ltac:(lia)) as (s & m & Hs & Hm & Hd);
  pose proof (lookup_lt_Some _ _ _ Hs) as Hlt;
  pose proof (lookup_lt_Some _ _ _ Hm) as Hlm.

Lemma handlers_commute_wired (t mat : loc) (g i j : nat) (w : World) :
  wired t mat g w -> (i < 4)%nat -> (j < 4)%nat ->
  ∃ w', (Dispatch (g, i) gui_OnChange ≫= λ _, Dispatch (g, j) gui_OnChange) w = Done tt w' ∧
        (Dispatch (g, j) gui_OnChange ≫= λ _, Dispatch (g, i) gui_OnChange) w = Done tt w'.
Proof.
  intros Hw Hi Hj.
  dispatch_at Hw i s m Hs Hm Hdi.
  dispatch_at Hw j s0 m0 Hs0 Hm0 Hdj.
  assert (s0 = s) as -> by congruence. assert (m0 = m) as -> by congruence.
  pose proof (wired_Change_eq _ _ _ _ _ _ Hw Hi Hdi) as Hwi.
  pose proof (wired_Change_eq _ _ _ _ _ _ Hw Hj Hdj) as Hwj.
  dispatch_at Hwi j si mi Hsi Hmi Hdij.
  dispatch_at Hwj i sj mj Hsj Hmj Hdji.
  rewrite (bind_Done _ _ _ _ _ Hdi), (bind_Done _ _ _ _ _ Hdj), Hdij, Hdji.
  eexists. split; [reflexivity|]. f_equal.
  destruct i as [|[|[|[|i]]]]; [| | | |lia];
    destruct j as [|[|[|[|j]]]]; try lia.
  all: revert Hsi Hmi Hsj Hmj; wsimpl;
       rewrite ?list_lookup_insert_eq by done; rewrite ?Hm; intros; simplify_eq.
  all: apply World_eq; wsimpl; rewrite ?list_insert_insert_eq; reflexivity.
Qed.

(** The four handlers act on separate fields and uniforms: in any state
    reached after [Initialize], [OnChange] of two check boxes gives the
    same state in either order. *)
Theorem handlers_commute
    (t : loc) (s : ShaderGeometry) (cf : ControlFolder) (w : World)
    (es : list HostEvent) (i j : nat) :
  sgs w !! t = Some s -> Control w = Some cf -> Forall event_ok es ->
  (i < 4)%nat -> (j < 4)%nat ->
  ∃ w1 w' w'',
    ShaderGeometry_Initialize t w = Done tt w1 ∧
    host_run t (length (groups cf)) es w1 = Done tt w' ∧
    host_run t (length (groups cf)) [Change i; Change j] w' = Done tt w'' ∧
    host_run t (length (groups cf)) [Change j; Change i] w' = Done tt w''.
Proof.
  intros Ht Hc Hes Hi Hj.
  destruct (reachable_wired t s cf w es Ht Hc Hes) as (w1 & w' & Hini & Hrun & Hw').
  destruct (handlers_commute_wired _ _ _ i j w' Hw' Hi Hj) as (w'' & H1 & H2).
  exists w1, w', w''. split; [done|]. split; [done|].
  cbn [host_run host_step]. unfold mbind, mret, M_bind, M_ret in *.
  split.
  - destruct (Dispatch _ _ w') as [[] wa| |]; [|done..].
    by destruct (Dispatch _ _ wa) as [[] wb| |].
  - destruct (Dispatch (_, j) _ w') as [[] wa| |]; [|done..].
    by destruct (Dispatch _ _ wa) as [[] wb| |].
Qed.

(** The show check boxes do not interfere with the animation: in any state
    reached after [Initialize], a frame followed by [OnChange] of
    "Wireframe", "Vertex normals" or "Face normals" gives the same state
    as the [OnChange] followed by the frame. *)
Theorem show_toggle_commutes_with_frame
    (t : loc) (s : ShaderGeometry) (cf : ControlFolder) (w : World)
    (es : list HostEvent) (i : nat) :
  sgs w !! t = Some s -> Control w = Some cf -> Forall event_ok es ->
  (0 < i < 4)%nat ->
  ∃ w1 w' w'',
    ShaderGeometry_Initialize t w = Done tt w1 ∧
    host_run t (length (groups cf)) es w1 = Done tt w' ∧
    host_run t (length (groups cf)) [Frame; Change i] w' = Done tt w'' ∧
    host_run t (length (groups cf)) [Change i; Frame] w' = Done tt w''.
Proof.
  intros Ht Hc Hes Hi.
  destruct (reachable_wired t s cf w es Ht Hc Hes) as (w1 & w' & Hini & Hrun & Hw').
  exists w1, w'.
  assert (∃ w'', (ShaderGeometry_Render t ≫= λ _, Dispatch (length (groups cf), i) gui_OnChange) w'
                   = Done tt w'' ∧
                 (Dispatch (length (groups cf), i) gui_OnChange ≫= λ _, ShaderGeometry_Render t) w'
                   = Done tt w'') as (w'' & H1 & H2).
  { destruct (wired_Frame _ _ _ _ Hw') as (wf & Hf & Hwf).
    dispatch_at Hw' i s' m' Hs' Hm' Hd.
    dispatch_at Hwf i sf mf Hsf Hmf Hdf.
    rewrite (bind_Done _ _ _ _ _ Hf), (bind_Done _ _ _ _ _ Hd), Hdf.
    destruct Hw' as (_ & _ & (s0 & pl & bx & sp & Hs0 & Hpl & Hbx & Hsp & Hm1 & Hm2 & Hm3)).
    assert (s0 = s') as -> by congruence.
    destruct (rotate s') eqn:Hr.
    - rewrite (Render_rotating t s' w' pl bx sp) in Hf by done.
      injection Hf as <-. revert Hsf Hmf. wsimpl. intros.
      assert (sf = s') as -> by congruence. assert (mf = m') as -> by congruence.
      eexists. split; [reflexivity|].
      destruct i as [|[|[|[|i]]]]; [lia| | | |lia].
      all: erewrite (Render_rotating t _ _ pl bx sp);
        [ f_equal; apply World_eq; reflexivity
        | wsimpl; by rewrite list_lookup_insert_eq
        | done..].
    - rewrite (Render_not_rotating t s' w') in Hf by done.
      injection Hf as <-.
      assert (sf = s') as -> by congruence. assert (mf = m') as -> by congruence.
      eexists. split; [reflexivity|].
      destruct i as [|[|[|[|i]]]]; [lia| | | |lia].
      all: erewrite (Render_not_rotating t);
        [ reflexivity | wsimpl; by rewrite list_lookup_insert_eq | done ]. }
  exists w''. split; [done|]. split; [done|].
  cbn [host_run host_step]. unfold mbind, mret, M_bind, M_ret in *.
  split.
  - destruct (ShaderGeometry_Render t w') as [[] wa| |]; [|done..].
    by destruct (Dispatch _ _ wa) as [[] wb| |].
  - destruct (Dispatch _ _ w') as [[] wa| |]; [|done..].
    by destruct (ShaderGeometry_Render t wa) as [[] wb| |].
Qed.

(** [ShaderGeometry.Initialize] panics exactly on a demo pointer that is
    nil or dangling (at the first assignment through [t]); on a valid one
    it returns. *)
Theorem Initialize_panics_iff_nil (t : loc) (w : World) :
  ShaderGeometry_Initialize t w = Panic ↔ sgs w !! t = None.
Proof.
  split.
  - intros Hp. destruct (sgs w !! t) as [s|] eqn:Ht; [|done].
    by rewrite (ShaderGeometry_Initialize_eq t s) in Hp.
  - intros Ht. unfold ShaderGeometry_Initialize. mrun. reflexivity.
Qed.

Lemma quiet_call_all (subs : list (string * Closure)) (ev : string) :
  quiet (call_all subs ev).
Proof.
  induction subs as [|[n cl] subs IH]; cbn [call_all]; [apply quiet_ret|].
  apply quiet_bind; [|intros _; exact IH].
  destruct (String.eqb n ev); [apply quiet_call|apply quiet_ret].
Qed.

Lemma quiet_host_run (t : loc) (g : nat) (es : list HostEvent) :
  quiet (host_run t g es).
Proof.
  induction es as [|e es IH]; cbn [host_run]; [apply quiet_ret|].
  apply quiet_bind; [|intros _; exact IH].
  destruct e as [|i]; [apply quiet_ShaderGeometry_Render|].
  unfold host_step, Dispatch, load_check.
  apply quiet_bind; [quiet_tac|]. intros c. apply quiet_call_all.
Qed.

Lemma frames_not_rotating (t : loc) (s : ShaderGeometry) (w : World)
    (g : nat) (es : list HostEvent) :
  sgs w !! t = Some s -> rotate s = false -> Forall (λ e, e = Frame) es ->
  host_run t g es w = Done tt w.
Proof.
  intros Ht Hr Hes. induction Hes as [|e es -> Hes IH]; [reflexivity|].
  cbn [host_run host_step]. unfold mbind, M_bind.
  by rewrite (Render_not_rotating t s w).
Qed.

(** The whole life of the demo never fails.  From any host state: [init]
    registers the demo, the table gives it back under "shader.geometry",
    [Initialize] on it returns, and every later sequence of frames and
    check-box changes (frames only, when the host has no control folder)
    returns as well, with nothing written to the log. *)
Theorem shader_geometry_lifecycle_never_fails (w : World) (es : list HostEvent) :
  Forall event_ok es ->
  (Control w = None -> Forall (λ e, e = Frame) es) ->
  ∃ w1 d w2 w3,
    init_shader_geometry w = Done tt w1 ∧
    TestMap w1 !! "shader.geometry" = Some d ∧
    Initialize d w1 = Done tt w2 ∧
    host_run (length (sgs w))
      (from_option (λ cf, length (groups cf)) 0%nat (Control w)) es w2 = Done tt w3 ∧
    Log w3 = Log w.
Proof.
  intros Hok Hframes.
  eexists _, (DemoShaderGeometry (length (sgs w))).
  assert (sgs (set_TestMap
                 (<["shader.geometry" := DemoShaderGeometry (length (sgs w))]> (TestMap w))
                 (set_sgs (sgs w ++ [ShaderGeometry_zero]) w)) !! length (sgs w)
          = Some ShaderGeometry_zero) as Ht by (wsimpl; apply lookup_snoc).
  assert (∃ w2 w3,
            ShaderGeometry_Initialize (length (sgs w))
              (set_TestMap
                 (<["shader.geometry" := DemoShaderGeometry (length (sgs w))]> (TestMap w))
                 (set_sgs (sgs w ++ [ShaderGeometry_zero]) w)) = Done tt w2 ∧
            host_run (length (sgs w))
              (from_option (λ cf, length (groups cf)) 0%nat (Control w)) es w2
              = Done tt w3) as (w2 & w3 & Hini & Hrun).
  { destruct (Control w) as [cf|] eqn:Hc.
    - destruct (reachable_wired _ _ cf _ es Ht Hc Hok) as (w2 & w3 & Hini & Hrun & _).
      by exists w2, w3.
    - eexists _, _. split; [by apply (ShaderGeometry_Initialize_eq _ _ _ Ht)|].
      assert (∃ s2, sgs (initialized (length (sgs w)) ShaderGeometry_zero
                           (set_TestMap
                              (<["shader.geometry" := DemoShaderGeometry (length (sgs w))]>
                                 (TestMap w))
                              (set_sgs (sgs w ++ [ShaderGeometry_zero]) w)))
                      !! length (sgs w) = Some s2 ∧ rotate s2 = false) as (s2 & Hs2 & Hr2).
      { unfold initialized. wsimpl. rewrite Hc. eexists.
        rewrite list_lookup_insert_eq by (rewrite length_app; cbn; lia).
        split; reflexivity. }
      by apply (frames_not_rotating _ s2); [| |apply Hframes]. }
  exists w2, w3. split; [reflexivity|].
  split; [wsimpl; apply lookup_insert_eq|].
  split; [exact Hini|]. split; [exact Hrun|].
  pose proof (quiet_ShaderGeometry_Initialize (length (sgs w))
                (set_TestMap
                   (<["shader.geometry" := DemoShaderGeometry (length (sgs w))]> (TestMap w))
                   (set_sgs (sgs w ++ [ShaderGeometry_zero]) w))) as Hq1.
  rewrite Hini in Hq1.
  pose proof (quiet_host_run (length (sgs w))
                (from_option (λ cf, length (groups cf)) 0%nat (Control w)) es w2) as Hq2.
  rewrite Hrun in Hq2. rewrite Hq2, Hq1. reflexivity.
Qed.

(** ** [NormalsMaterial.RenderSetup] and the geometry shader *)

Section ShaderTheory.
Context {GL : GLSL}.

Lemma RenderSetup_named
    (base : Material -> GLS -> GLS) (mat : loc) (gs : GLS) (w : World)
    (m : NormalsMaterial) :
  nmats w !! mat = Some m ->
  uname (ShowWireframe m) = "ShowWireframe" ->
  uname (ShowVnormal m) = "ShowVnormal" ->
  uname (ShowFnormal m) = "ShowFnormal" ->
  ∃ gs', NormalsMaterial_RenderSetup base mat gs w = Done gs' w ∧
    uniform_int gs' "ShowWireframe" = v0 (ShowWireframe m) ∧
    uniform_int gs' "ShowVnormal" = v0 (ShowVnormal m) ∧
    uniform_int gs' "ShowFnormal" = v0 (ShowFnormal m) ∧
    (∀ k, k ∉ ["ShowWireframe"; "ShowVnormal"; "ShowFnormal"] ->
       uniform1i gs' !! k = uniform1i (base (nm_Material m) gs) !! k).
Proof.
  intros Hm Hw Hv Hf. unfold NormalsMaterial_RenderSetup. mrun.
  eexists. split; [reflexivity|].
  unfold uniform_int, Uniform1i_Transfer. cbn [uniform1i]. rewrite Hw, Hv, Hf.
  split; [by rewrite !lookup_insert_ne, lookup_insert_eq by done|].
  split; [by rewrite lookup_insert_ne, lookup_insert_eq by done|].
  split; [by rewrite lookup_insert_eq|].
  intros k Hk. rewrite !lookup_insert_ne; [done|..]; intros <-; apply Hk; set_solver.
Qed.

(** [RenderSetup] hands the three toggles to the shader program.  Whatever
    the embedded material's [RenderSetup] does to the GL state, afterwards
    the uniforms "ShowWireframe", "ShowVnormal" and "ShowFnormal" hold the
    values of the material, every other uniform is as the embedded setup
    left it, and the material and the rest of the host are unchanged; on a
    nil material the call panics. *)
Theorem RenderSetup_transfers_uniforms
    (base : Material -> GLS -> GLS) (mat : loc) (gs : GLS) (w : World) :
  (∀ m, nmats w !! mat = Some m ->
     uname (ShowWireframe m) = "ShowWireframe" ->
     uname (ShowVnormal m) = "ShowVnormal" ->
     uname (ShowFnormal m) = "ShowFnormal" ->
     ∃ gs', NormalsMaterial_RenderSetup base mat gs w = Done gs' w ∧
       uniform_int gs' "ShowWireframe" = v0 (ShowWireframe m) ∧
       uniform_int gs' "ShowVnormal" = v0 (ShowVnormal m) ∧
       uniform_int gs' "ShowFnormal" = v0 (ShowFnormal m) ∧
       (∀ k, k ∉ ["ShowWireframe"; "ShowVnormal"; "ShowFnormal"] ->
          uniform1i gs' !! k = uniform1i (base (nm_Material m) gs) !! k))
  ∧ (nmats w !! mat = None -> NormalsMaterial_RenderSetup base mat gs w = Panic).
Proof.
  split.
  - intros m. apply RenderSetup_named.
  - intros Hm. unfold NormalsMaterial_RenderSetup. mstep. by rewrite Hm.
Qed.

Lemma glsl_for_3 (body : nat -> GSOut -> GSOut) (o : GSOut) :
  glsl_for 0 gl_in_length body o = body 2%nat (body 1%nat (body 0%nat o)).
Proof. reflexivity. Qed.

Lemma emitted_geometry_main
    (MVP : Mat4) (ShowWireframe ShowVnormal ShowFnormal : Z)
    (gl_in : nat -> Vec4) (vnormal : nat -> Vec3) :
  emitted (geometry_main MVP ShowWireframe ShowVnormal ShowFnormal gl_in vnormal
             GSOut_empty)
  = ((if (ShowWireframe =? 0)%Z then 0 else 4) +
     (if (ShowVnormal =? 0)%Z then 0 else 6) +
     (if (ShowFnormal =? 0)%Z then 0 else 2))%nat.
Proof.
  unfold geometry_main. rewrite !glsl_for_3.
  by destruct (ShowWireframe =? 0), (ShowVnormal =? 0), (ShowFnormal =? 0).
Qed.

(** The vertex budget of the geometry shader.  For every input triangle
    and every value of the uniforms, one invocation emits 4 vertices if
    [ShowWireframe] is not 0, plus 6 if [ShowVnormal] is not 0, plus 2 if
    [ShowFnormal] is not 0: never more than the declared [max_vertices],
    which is reached when all three are on; every emitted vertex is in a
    primitive that was ended. *)
Theorem geometry_shader_vertex_budget
    (MVP : Mat4) (ShowWireframe ShowVnormal ShowFnormal : Z)
    (gl_in : nat -> Vec4) (vnormal : nat -> Vec3) :
  let o := geometry_main MVP ShowWireframe ShowVnormal ShowFnormal gl_in vnormal
             GSOut_empty in
  emitted o = ((if (ShowWireframe =? 0)%Z then 0 else 4) +
               (if (ShowVnormal =? 0)%Z then 0 else 6) +
               (if (ShowFnormal =? 0)%Z then 0 else 2))%nat ∧
  (emitted o ≤ max_vertices)%nat ∧
  (emitted o = max_vertices ↔
     ShowWireframe ≠ 0 ∧ ShowVnormal ≠ 0 ∧ ShowFnormal ≠ 0) ∧
  strip o = [].
Proof.
  cbv zeta. unfold geometry_main. rewrite !glsl_for_3.
  destruct (Z.eqb_spec ShowWireframe 0), (Z.eqb_spec ShowVnormal 0),
    (Z.eqb_spec ShowFnormal 0); cbn; unfold max_vertices;
    (split; [reflexivity|]); (split; [lia|]); (split; [|reflexivity]);
    split; try lia; try tauto; intros (? & ? & ?); done.
Qed.

(** The shape of what the geometry shader draws.  Every primitive is a
    line strip of one colour with at least two vertices; with
    [ShowWireframe] on, the first one is the closed outline of the
    triangle (four vertices in the wire colour, the last at the position
    of the first); the normals are lines of exactly two vertices; with all
    three uniforms 0 nothing is drawn. *)
Theorem geometry_shader_primitives
    (MVP : Mat4) (ShowWireframe ShowVnormal ShowFnormal : Z)
    (gl_in : nat -> Vec4) (vnormal : nat -> Vec3) :
  let o := geometry_main MVP ShowWireframe ShowVnormal ShowFnormal gl_in vnormal
             GSOut_empty in
  Forall (λ p, (2 ≤ length p)%nat ∧
               ∃ c, c ∈ [colorWire; colorVnormal; colorFnormal] ∧
                    Forall (λ v, out_color v = c) p) (primitives o) ∧
  length (primitives o) = ((if (ShowWireframe =? 0)%Z then 0 else 1) +
                           (if (ShowVnormal =? 0)%Z then 0 else 3) +
                           (if (ShowFnormal =? 0)%Z then 0 else 1))%nat ∧
  (ShowWireframe ≠ 0 ->
     ∃ rest, primitives o =
       [ {| out_Position := mat_mul MVP (gl_in 0%nat); out_color := colorWire |};
         {| out_Position := mat_mul MVP (gl_in 1%nat); out_color := colorWire |};
         {| out_Position := mat_mul MVP (gl_in 2%nat); out_color := colorWire |};
         {| out_Position := mat_mul MVP (gl_in 0%nat); out_color := colorWire |} ]
       :: rest ∧
       Forall (λ p, length p = 2%nat) rest) ∧
  (ShowWireframe = 0 -> Forall (λ p, length p = 2%nat) (primitives o)) ∧
  (ShowWireframe = 0 -> ShowVnormal = 0 -> ShowFnormal = 0 -> primitives o = []).
Proof.
  cbv zeta. unfold geometry_main. rewrite !glsl_for_3.
  destruct (Z.eqb_spec ShowWireframe 0), (Z.eqb_spec ShowVnormal 0),
    (Z.eqb_spec ShowFnormal 0); cbn.
  all: split;
    [repeat (constructor;
       [split; [cbn; lia|]; eexists; split;
          [|repeat (constructor; [reflexivity|]); constructor];
        set_solver|]); constructor|].
  all: split; [reflexivity|].
  all: split;
    [intros ?; first [done | eexists; split; [reflexivity|];
                             repeat (constructor; [reflexivity|]); constructor]|].
  all: split;
    [intros ?; first [done | repeat (constructor; [reflexivity|]); constructor]|].
  all: intros; first [done | reflexivity].
Qed.

Lemma uniforms_named_initialized (t : loc) (s : ShaderGeometry) (w : World) :
  uniforms_named (length (nmats w)) (initialized t s w).
Proof.
  unfold uniforms_named, initialized. wsimpl. eexists. rewrite lookup_snoc.
  split; [reflexivity|]. done.
Qed.

Lemma uniforms_named_step (t mat : loc) (g : nat) (e : HostEvent) (w w1 : World) :
  wired t mat g w -> event_ok e -> uniforms_named mat w ->
  host_step t g e w = Done tt w1 -> uniforms_named mat w1.
Proof.
  intros Hw He (m & Hm & N1 & N2 & N3) Hstep. destruct e as [|i]; cbn in He, Hstep.
  - destruct Hw as (_ & _ & (s & pl & bx & sp & Hs & Hpl & Hbx & Hsp & H1 & H2 & H3)).
    destruct (rotate s) eqn:Hr.
    + rewrite (Render_rotating t s w pl bx sp) in Hstep by done.
      injection Hstep as <-. by exists m.
    + rewrite (Render_not_rotating t s w) in Hstep by done.
      injection Hstep as <-. by exists m.
  - dispatch_at Hw i s' m' Hs' Hm' Hd.
    assert (m' = m) as -> by congruence.
    rewrite Hd in Hstep. injection Hstep as <-.
    destruct i as [|[|[|[|i]]]]; [| | | |lia]; unfold uniforms_named; wsimpl.
    + by exists m.
    + eexists. rewrite list_lookup_insert_eq by done. by split.
    + eexists. rewrite list_lookup_insert_eq by done. by split.
    + eexists. rewrite list_lookup_insert_eq by done. by split.
Qed.

Lemma reachable_named (t : loc) (mat g : nat) (es : list HostEvent) (w w' : World) :
  wired t mat g w -> uniforms_named mat w -> Forall event_ok es ->
  host_run t g es w = Done tt w' -> wired t mat g w' ∧ uniforms_named mat w'.
Proof.
  intros Hw Hn Hes. revert w Hw Hn.
  induction Hes as [|e es He Hes IH]; intros w Hw Hn Hrun.
  - injection Hrun as <-. done.
  - cbn [host_run] in Hrun. unfold mbind, M_bind in Hrun.
    destruct (host_step t g e w) as [[] w1| |] eqn:Hstep; [|done..].
    apply (IH w1); [| |done].
    + destruct e as [|i]; cbn in Hstep, He.
      * destruct (wired_Frame _ _ _ _ Hw) as (w2 & H2 & Hw2). congruence.
      * by apply (wired_Change_eq t mat g i w).
    + by apply (uniforms_named_step t mat g e w).
Qed.

(** From the check boxes to the picture.  After [Initialize] and any
    sequence of frames and check-box changes, [RenderSetup] of the shared
    material followed by the geometry shader emits 4 vertices if
    [showWireframe] is 1, plus 6 if [showVnormal] is 1, plus 2 if
    [showFnormal] is 1, and none for a field that is 0. *)
Theorem toggles_reach_the_shader
    (t : loc) (s : ShaderGeometry) (cf : ControlFolder) (w : World)
    (es : list HostEvent) (base : Material -> GLS -> GLS) (gs : GLS)
    (MVP : Mat4) (gl_in : nat -> Vec4) (vnormal : nat -> Vec3) :
  sgs w !! t = Some s -> Control w = Some cf -> Forall event_ok es ->
  ∃ w1 w' s' gs',
    ShaderGeometry_Initialize t w = Done tt w1 ∧
    host_run t (length (groups cf)) es w1 = Done tt w' ∧
    sgs w' !! t = Some s' ∧
    NormalsMaterial_RenderSetup base (length (nmats w)) gs w' = Done gs' w' ∧
    uniform_int gs' "ShowWireframe" = showWireframe s' ∧
    uniform_int gs' "ShowVnormal" = showVnormal s' ∧
    uniform_int gs' "ShowFnormal" = showFnormal s' ∧
    Z.of_nat (emitted (geometry_shader MVP gs' gl_in vnormal)) =
      4 * showWireframe s' + 6 * showVnormal s' + 2 * showFnormal s'.
Proof.
  intros Ht Hc Hes.
  pose proof (initialized_wired t s cf w Ht Hc) as Hw1.
  pose proof (uniforms_named_initialized t s w) as Hn1.
  destruct (host_run_wired _ _ _ es _ Hw1 Hes) as (w' & Hrun & _).
  destruct (reachable_named _ _ _ es _ w' Hw1 Hn1 Hes Hrun) as (Hw' & Hn').
  destruct Hn' as (m & Hm & N1 & N2 & N3).
  destruct Hw' as ((s' & m' & Hs' & Hm' & B1 & B2 & B3 & E1 & E2 & E3) & _).
  assert (m' = m) as -> by congruence.
  destruct (RenderSetup_named base (length (nmats w)) gs w' m Hm N1 N2 N3)
    as (gs' & Hrs & U1 & U2 & U3 & _).
  exists (initialized t s w), w', s', gs'.
  split; [by apply ShaderGeometry_Initialize_eq|].
  split; [done|]. split; [done|]. split; [done|].
  rewrite U1, U2, U3, E1, E2, E3. split; [done|]. split; [done|]. split; [done|].
  unfold geometry_shader. rewrite emitted_geometry_main.
  rewrite U1, U2, U3, E1, E2, E3.
  destruct B1 as [-> | ->], B2 as [-> | ->], B3 as [-> | ->]; reflexivity.
Qed.

End ShaderTheory.

(** ** Further properties of the skybox demo *)

(** [Skybox.Initialize] always ends, by returning or in the fatal call: it
    never panics (the index into [textures] stays in range and the mesh it
    updates exists).  Either way it touches only what it adds: the GUI, the
    renderer, the control folder, the files, the other demo's objects and
    both lookup tables are unchanged, and the existing scene nodes, meshes,
    materials, textures and log records are kept in place. *)
Theorem Skybox_Initialize_never_panics (w : World) :
  ∃ w', (Skybox_Initialize w = Done tt w' ∨ Skybox_Initialize w = Aborted w') ∧
    Gui w' = Gui w ∧ Shaders w' = Shaders w ∧ Programs w' = Programs w ∧
    Control w' = Control w ∧ FrameDelta w' = FrameDelta w ∧
    DirData w' = DirData w ∧ Images w' = Images w ∧
    nmats w' = nmats w ∧ sgs w' = sgs w ∧
    TestMap w' = TestMap w ∧ demos_Map w' = demos_Map w ∧
    Scene w `prefix_of` Scene w' ∧ meshes w `prefix_of` meshes w' ∧
    smats w `prefix_of` smats w' ∧ texs w `prefix_of` texs w' ∧
    Log w `prefix_of` Log w'.
Proof.
  rewrite Skybox_Initialize_eq.
  destruct (first_missing w) as [[i name]|]; eexists; (split; [by eauto|]);
    unfold skybox_built, faces_attached; wsimpl;
    repeat (split; [first [reflexivity | by eexists]|]);
    first [reflexivity | by eexists | by exists []; rewrite app_nil_r].
Qed.

(** What a failed [Skybox.Initialize] leaves behind.  If the image of face
    [k] is the first that cannot be loaded, the call ends in the fatal call
    with one log record naming that file; the [k] faces before it have
    been loaded and attached (one texture and one material each), the later
    images were not loaded, and the new mesh exists but was not added to
    the scene, which only gained the axis helper. *)
Theorem Skybox_failure_state (w : World) (k : nat) (name : string) :
  textures !! k = Some name ->
  Images w !! (DirData w +:+ "/images/" +:+ name) = None ->
  (∀ j name', (j < k)%nat -> textures !! j = Some name' ->
     is_Some (Images w !! (DirData w +:+ "/images/" +:+ name'))) ->
  ∃ w' skybox,
    Skybox_Initialize w = Aborted w' ∧
    Log w' = Log w ++
      [ {| log_format := "Error loading texture: %s";
           log_arg := ErrLoad (DirData w +:+ "/images/" +:+ name) |} ] ∧
    Scene w' = Scene w ++ [NodeAxis (int 2)] ∧
    meshes w' = meshes w ++ [skybox] ∧
    length (materials skybox) = k ∧
    length (smats w') = (length (smats w) + k)%nat ∧
    length (texs w') = (length (texs w) + k)%nat ∧
    (tex_path <$> drop (length (texs w)) (texs w')) =
      (λ n, DirData w +:+ "/images/" +:+ n) <$> take k textures.
Proof.
  intros Hk Hnone Hbefore.
  pose proof (lookup_lt_Some _ _ _ Hk) as Hlt.
  assert (first_missing w = Some (k, name)) as Hfm.
  { unfold first_missing. apply list_find_Some. split; [done|]. split; [done|].
    intros j y Hj Hjk Hn. destruct (Hbefore j y Hjk Hj) as [u Hu].
    unfold face_path in Hn. congruence. }
  rewrite Skybox_Initialize_eq, Hfm. eexists _, _. split; [reflexivity|].
  unfold faces_attached, fatal_entry, face_path. wsimpl.
  split; [reflexivity|]. split; [reflexivity|]. split; [reflexivity|].
  cbn [materials skyboxMesh].
  rewrite !length_app, !length_fmap, length_seq, length_take.
  replace (k `min` length textures)%nat with k by lia.
  split; [reflexivity|]. split; [reflexivity|]. split; [reflexivity|].
  rewrite drop_app_length. rewrite <- list_fmap_compose. reflexivity.
Qed.

(** ** The demo template of the README *)

Section ModelTheory.
Context {F32M : Float32Mul F32}.

Lemma model_Initialize_eq (t : loc) (m : testsModel) (a : App) :
  app_models a !! t = Some m ->
  testsModel_Initialize t a =
    Some {| app_Scene := app_Scene a ++ [AppAxisHelper (Num 10 (-1));
                                         AppGridHelper (Some (length (app_grids a)))];
            app_Camera := vec3 (int 0) (int 4) (int 10);
            app_FrameDeltaSeconds := app_FrameDeltaSeconds a;
            app_grids := app_grids a ++
              [graphic_NewGridHelper (int 50) (int 1)
                 {| R := Num 4 (-1); G := Num 4 (-1); B := Num 4 (-1) |}];
            app_models := <[t := {| grid := Some (length (app_grids a)) |}]> (app_models a);
            app_Map := app_Map a |}.
Proof.
  intros Hm. pose proof (lookup_lt_Some _ _ _ Hm) as Hlt.
  unfold testsModel_Initialize. cbn. rewrite Hm. cbn.
  rewrite list_lookup_insert_eq by done. cbn. by rewrite <- app_assoc.
Qed.

Lemma model_frames_eq (t : loc) (deltas : list f32) (a : App)
    (pre : list GridHelper) (g : GridHelper) :
  app_models a !! t = Some {| grid := Some (length pre) |} ->
  model_frames t deltas (set_app_grids (pre ++ [g]) a) =
    Some (set_app_FrameDeltaSeconds (default (app_FrameDeltaSeconds a) (last deltas))
            (set_app_grids
               (pre ++ [fold_left (λ g d, GridHelper_AddRotationY (model_step d) g)
                          deltas g]) a)).
Proof.
  intros Hm. revert a g Hm.
  induction deltas as [|d ds IH]; intros a g Hm.
  - cbn. by destruct a.
  - cbn [model_frames fold_left]. unfold testsModel_Render. cbn.
    rewrite Hm. cbn. rewrite lookup_snoc. cbn. rewrite insert_snoc.
    change (set_app_grids ?x (set_app_FrameDeltaSeconds d (set_app_grids ?y a)))
      with (set_app_grids x (set_app_FrameDeltaSeconds d a)).
    rewrite (IH (set_app_FrameDeltaSeconds d a)) by done.
    f_equal. unfold set_app_FrameDeltaSeconds, set_app_grids. cbn.
    rewrite last_cons. by destruct (last ds).
Qed.

(** The template's [Render] relies on [Initialize].  On a demo object that
    was registered but not initialized, [Render] panics on the nil grid;
    after [Initialize] (which adds the axis helper and the grid to the
    scene, in that order, and puts the camera at (0, 4, 10)) every
    sequence of frames returns. *)
Theorem model_Render_needs_Initialize :
  (∀ a : App, testsModel_Render (length (app_models a)) (init_tests_model a) = None)
  ∧ (∀ (a : App) (deltas : list f32),
       ∃ a1 a2,
         testsModel_Initialize (length (app_models a)) (init_tests_model a) = Some a1 ∧
         app_Scene a1 = app_Scene a ++ [AppAxisHelper (Num 10 (-1));
                                        AppGridHelper (Some (length (app_grids a)))] ∧
         app_Camera a1 = vec3 (int 0) (int 4) (int 10) ∧
         app_Map a1 !! "|tests|.model" = Some (length (app_models a)) ∧
         model_frames (length (app_models a)) deltas a1 = Some a2).
Proof.
  split.
  - intros a. unfold testsModel_Render, init_tests_model. cbn.
    by rewrite lookup_snoc.
  - intros a deltas.
    rewrite (model_Initialize_eq _ {| grid := None |})
      by (unfold init_tests_model; cbn; apply lookup_snoc).
    eexists _, _. split; [reflexivity|]. cbn.
    split; [reflexivity|]. split; [reflexivity|].
    split; [apply lookup_insert_eq|].
    match goal with
    | |- model_frames _ _ ?A = _ =>
        change A with (set_app_grids (app_grids A) A)
    end.
    cbn [app_grids]. apply model_frames_eq. cbn.
    rewrite insert_snoc. apply lookup_snoc.
Qed.

(** The template's animation follows the frame delta-time.  After
    [Initialize], frames with the delta-times [deltas] add to the Y rotation
    of the grid, one after the other, the angles [d * 2 * Pi * 0.05]; its
    X and Z rotation stay 0; the scene, the camera, the demo object and
    every other grid are unchanged. *)
Theorem model_frames_follow_delta_time
    (t : loc) (m : testsModel) (a : App) (deltas : list f32) :
  app_models a !! t = Some m ->
  ∃ a1 a2 g,
    testsModel_Initialize t a = Some a1 ∧
    model_frames t deltas a1 = Some a2 ∧
    app_grids a2 = app_grids a ++ [g] ∧
    grid_rotation g =
      {| vX := f32_const (int 0);
         vY := fold_left (λ r d,
                 f32_add r (f32_mul (f32_mul (f32_mul d (f32_const (int 2)))
                                       (f32_const Pi))
                              (f32_const (Num 5 (-2)))))
                 deltas (f32_const (int 0));
         vZ := f32_const (int 0) |} ∧
    app_Scene a2 = app_Scene a1 ∧ app_Camera a2 = app_Camera a1 ∧
    app_models a2 = app_models a1 ∧ app_Map a2 = app_Map a.
Proof.
  intros Hm. pose proof (lookup_lt_Some _ _ _ Hm) as Hlt.
  rewrite (model_Initialize_eq t m) by done.
  eexists _, _, _. split; [reflexivity|].
  split.
  { match goal with
    | |- model_frames _ _ ?A = _ =>
        change A with (set_app_grids (app_grids A) A)
    end.
    cbn [app_grids]. apply model_frames_eq. cbn.
    by rewrite list_lookup_insert_eq. }
  cbn. split; [reflexivity|].
  split; [|done].
  assert (∀ (g : GridHelper),
            grid_rotation (fold_left (λ g d, GridHelper_AddRotationY (model_step d) g)
                             deltas g)
            = {| vX := vX (grid_rotation g);
                 vY := fold_left (λ r d, f32_add r (model_step d)) deltas
                         (vY (grid_rotation g));
                 vZ := vZ (grid_rotation g) |}) as Hfold.
  { induction deltas as [|d ds IH]; intros g; [by destruct g as [? ? ? []]|].
    cbn [fold_left]. rewrite IH. reflexivity. }
  rewrite Hfold. reflexivity.
Qed.

End ModelTheory.

End Theory.

(** * The claims on concrete runs *)

Section OnRuns.
#[local] Existing Instance ExprFloat32.

(** C1, the claim as stated, fails: with [rotate] set, two frames with
    different delta-times (16 ms and 33 ms) rotate the three meshes by the
    very same amounts, the constants 0.01, 0.01 and 0.005; and so does a
    frame with any other delta-time. *)
Lemma C1_delta_time_ignored :
  (rotate <$> sgs started !! 0%nat) = Some true ∧
  delta_16ms ≠ delta_33ms ∧
  (∃ w1 w2,
     ShaderGeometry_Render 0 (set_FrameDelta delta_16ms started) = Done tt w1 ∧
     ShaderGeometry_Render 0 (set_FrameDelta delta_33ms started) = Done tt w2 ∧
     meshes w1 = meshes w2) ∧
  (∀ dt : ExprF32,
     rotation <$> meshes (after (ShaderGeometry_Render 0) (set_FrameDelta dt started)) =
       [ {| vX := FAdd (FConst (Num 0 0)) (FConst (Num 1 (-2)));
            vY := FConst (Num 0 0); vZ := FConst (Num 0 0) |};
         {| vX := FConst (Num 0 0);
            vY := FAdd (FConst (Num 0 0)) (FConst (Num 1 (-2)));
            vZ := FConst (Num 0 0) |};
         {| vX := FConst (Num 0 0); vY := FConst (Num 0 0);
            vZ := FAdd (FConst (Num 0 0)) (FConst (Num 5 (-3))) |} ]).
Proof.
  split; [reflexivity|]. split; [discriminate|]. split.
  - exists (after (ShaderGeometry_Render 0) (set_FrameDelta delta_16ms started)),
           (after (ShaderGeometry_Render 0) (set_FrameDelta delta_33ms started)).
    vm_compute. repeat split.
  - intros dt. vm_compute. reflexivity.
Qed.

(** C1 (as amended) on the started demo, for a frame of 33 ms. *)
Lemma C1_witness :
  sgs started !! 0%nat = Some started_object ∧
  ShaderGeometry_Render 0 (set_FrameDelta delta_33ms started) =
    Done tt (set_FrameDelta delta_33ms
               (set_meshes
                  (alter (rotatedZ (Num 5 (-3))) 2%nat
                     (alter (rotatedY (Num 1 (-2))) 1%nat
                        (alter (rotatedX (Num 1 (-2))) 0%nat (meshes started)))) started)).
Proof.
  split; [reflexivity|].
  apply (C1_render_adds_fixed_increments 0 started_object started 0 1 2);
    first [reflexivity | vm_compute; eexists; reflexivity].
Defined.

(** C2 on the host that lacks the third image: the iteration for face 2
    ends in the fatal call with the error of that file, and so does
    [Skybox.Initialize]; on the new skybox mesh of the full host the
    iteration for face 0 loads its image and does not make the call. *)
Lemma C2_witness :
  textures !! 2%nat = Some "sanfrancisco/posy.jpg" ∧
  textures !! 0%nat = Some "sanfrancisco/posx.jpg" ∧
  Skybox_face 0 2 host_without_posy =
    Aborted (set_Log [ {| log_format := "Error loading texture: %s";
                          log_arg := ErrLoad "data/images/sanfrancisco/posy.jpg" |} ]
               host_without_posy) ∧
  (∃ w', Skybox_Initialize host_without_posy = Aborted w') ∧
  (∃ w', Skybox_face 0 0 skybox_created = Done tt w') ∧
  (∀ w', Skybox_face 0 0 skybox_created ≠ Aborted w').
Proof.
  split; [reflexivity|]. split; [reflexivity|].
  split; [|split; [|split]].
  - destruct (proj1 C2_fatal_only_on_texture_load_failure 0%nat 2%nat
                "sanfrancisco/posy.jpg" host_without_posy eq_refl)
      as (tex & err & w1 & Hload & Hface).
    vm_compute in Hload. injection Hload as <- <- <-. exact Hface.
  - apply (proj1 (proj2 C2_fatal_only_on_texture_load_failure) host_without_posy).
    exists "sanfrancisco/posy.jpg". split; [set_solver|vm_compute; reflexivity].
  - vm_compute. eexists. reflexivity.
  - destruct (proj1 C2_fatal_only_on_texture_load_failure 0%nat 0%nat
                "sanfrancisco/posx.jpg" skybox_created eq_refl)
      as (tex & err & w1 & Hload & Hface).
    vm_compute in Hload. injection Hload as <- <- <-. exact Hface.
Defined.

(** C4 on the registered demo object. *)
Lemma C4_witness :
  sgs registered !! 0%nat = Some ShaderGeometry_zero ∧
  ∃ w', ShaderGeometry_Initialize 0 registered = Done tt w'
    ∧ Shaders w' !! "shaderGSDemoVertex" = Some sourceGSDemoVertex
    ∧ Shaders w' !! "shaderGSDemoGeometry" = Some sourceGSDemoGeometry
    ∧ Shaders w' !! "shaderGSDemoFrag" = Some sourceGSDemoFrag
    ∧ (∀ k, k ∉ ["shaderGSDemoVertex"; "shaderGSDemoGeometry"; "shaderGSDemoFrag"] ->
         Shaders w' !! k = Shaders registered !! k)
    ∧ Programs w' !! "progGSDemo" =
        Some {| Vertex := "shaderGSDemoVertex"; Fragment := "shaderGSDemoFrag";
                GeometryStage := "shaderGSDemoGeometry" |}
    ∧ (∀ k, k ≠ "progGSDemo" -> Programs w' !! k = Programs registered !! k).
Proof.
  split; [reflexivity|].
  apply (C4_initialize_registers_shaders 0 ShaderGeometry_zero registered).
  reflexivity.
Defined.

(** C5 on the host that has the six images. *)
Lemma C5_witness :
  Forall (λ name, is_Some (Images host !! (DirData host +:+ "/images/" +:+ name))) textures ∧
  ∃ w', Skybox_Initialize host = Done tt w' ∧
        Scene w' = [NodeAxis (int 2); NodeMesh (Some 0%nat)].
Proof.
  assert (Forall (λ name, is_Some (Images host !! (DirData host +:+ "/images/" +:+ name)))
            textures) as H.
  { repeat constructor; vm_compute; eexists; reflexivity. }
  split; [exact H|].
  destruct (C5_skybox_faces host H) as (w' & sk & Hrun & Hscene & _).
  exists w'. split; [exact Hrun|exact Hscene].
Defined.

(** C6 on the registered demo object: the wiring, and one invocation of
    the "Wireframe" handler. *)
Lemma C6_witness :
  sgs registered !! 0%nat = Some ShaderGeometry_zero ∧
  Control registered = Some {| groups := [] |} ∧
  ∃ w', ShaderGeometry_Initialize 0 registered = Done tt w' ∧
        (g_name <$> (Control w' ≫= λ cf, groups cf !! 0%nat)) = Some "Show" ∧
        call (OnWireframe 0 0) gui_OnChange w' =
          Done tt (set_nmats
                     (<[0%nat := set_ShowWireframe
                                   {| uname := "ShowWireframe"; v0 := 0 |}
                                   (normalsMaterial 4 1 1 1)]> (nmats w'))
                     (set_sgs (<[0%nat := set_showWireframe 0 started_object]> (sgs w')) w')).
Proof.
  split; [reflexivity|]. split; [reflexivity|].
  destruct (proj1 C6_checkbox_handlers 0%nat ShaderGeometry_zero {| groups := [] |}
              registered eq_refl eq_refl) as (w' & Hrun & Hctl & Hmat).
  exists w'. split; [exact Hrun|].
  split; [rewrite Hctl; reflexivity|].
  assert (w' = started) as ->.
  { unfold started, after. rewrite Hrun. reflexivity. }
  destruct (proj2 C6_checkbox_handlers 0%nat 0%nat started_object
              (normalsMaterial 4 1 1 1) started gui_OnChange eq_refl eq_refl)
    as (Hw & _).
  exact Hw.
Defined.

(** C7 on the registered demo object, for a run of seven events. *)
Lemma C7_witness :
  sgs registered !! 0%nat = Some ShaderGeometry_zero ∧
  Control registered = Some {| groups := [] |} ∧
  Forall event_ok [Change 1; Frame; Change 3; Change 1; Change 0; Frame; Change 2] ∧
  ∃ w1 w',
    ShaderGeometry_Initialize 0 registered = Done tt w1 ∧
    host_run 0 0 [Change 1; Frame; Change 3; Change 1; Change 0; Frame; Change 2] w1
      = Done tt w' ∧
    (∃ s' m', sgs w' !! 0%nat = Some s' ∧ nmats w' !! 0%nat = Some m' ∧
       (showWireframe s' = 0 ∨ showWireframe s' = 1) ∧
       (showVnormal s' = 0 ∨ showVnormal s' = 1) ∧
       (showFnormal s' = 0 ∨ showFnormal s' = 1) ∧
       v0 (ShowWireframe m') = showWireframe s' ∧
       v0 (ShowVnormal m') = showVnormal s' ∧
       v0 (ShowFnormal m') = showFnormal s') ∧
    (∀ i n, (i < 4)%nat ->
       repeat_m (2 * n) (Dispatch (0%nat, i) gui_OnChange) w' = Done tt w').
Proof.
  assert (Forall event_ok [Change 1; Frame; Change 3; Change 1; Change 0; Frame; Change 2])
    as Hes by (repeat constructor; simpl; lia).
  split; [reflexivity|]. split; [reflexivity|]. split; [exact Hes|].
  exact (C7_toggles_consistent 0 ShaderGeometry_zero {| groups := [] |} registered
           _ eq_refl eq_refl Hes).
Defined.

(** C8 on the registered demo object of a host without control folder,
    for three frames. *)
Lemma C8_witness :
  sgs headless !! 0%nat = Some ShaderGeometry_zero ∧
  Control headless = None ∧
  rotate ShaderGeometry_zero = false ∧
  ∃ w1,
    ShaderGeometry_Initialize 0 headless = Done tt w1 ∧
    (∃ s1, sgs w1 !! 0%nat = Some s1 ∧ rotate s1 = false ∧
       showWireframe s1 = 0 ∧ showVnormal s1 = 0 ∧ showFnormal s1 = 0) ∧
    (∃ m, nmats w1 !! 0%nat = Some m ∧
       v0 (ShowWireframe m) = 1 ∧ v0 (ShowVnormal m) = 1 ∧ v0 (ShowFnormal m) = 1) ∧
    Control w1 = None ∧
    repeat_m 3 (ShaderGeometry_Render 0) w1 = Done tt w1.
Proof.
  split; [reflexivity|]. split; [reflexivity|]. split; [reflexivity|].
  exact (C8_no_control_no_rotation 0 ShaderGeometry_zero headless 3
           eq_refl eq_refl eq_refl).
Defined.

(** ** Further properties on concrete runs *)

#[local] Existing Instance ExprGLSL.

(** The scene of the registered demo after [Initialize]. *)
Lemma Initialize_builds_scene_witness :
  sgs registered !! 0%nat = Some ShaderGeometry_zero ∧
  ∃ w', ShaderGeometry_Initialize 0 registered = Done tt w' ∧
        length (Scene w') = 5%nat ∧ length (meshes w') = 3%nat.
Proof.
  split; [reflexivity|].
  destruct (Initialize_builds_scene 0 ShaderGeometry_zero registered eq_refl)
    as (w' & s' & m & mp & mb & ms & Hrun & _ & Hm & _ & _ & _ & _ & _ & Hsc & _).
  exists w'. split; [exact Hrun|]. rewrite Hsc, Hm. split; reflexivity.
Defined.

Lemma Initialize_preserves_host_witness :
  sgs registered !! 0%nat = Some ShaderGeometry_zero ∧
  ∃ w', ShaderGeometry_Initialize 0 registered = Done tt w' ∧
        Log w' = Log registered ∧ TestMap w' = TestMap registered.
Proof.
  split; [reflexivity|].
  destruct (Initialize_preserves_host 0 ShaderGeometry_zero registered eq_refl)
    as (w' & Hrun & Hlog & _ & _ & _ & _ & _ & Hmap & _).
  exists w'. split; [exact Hrun|]. split; [exact Hlog|exact Hmap].
Defined.

Lemma Render_guarded_by_rotate_witness :
  sgs spinning_without_meshes !! 0%nat = Some (set_rotate true ShaderGeometry_zero) ∧
  ShaderGeometry_Render 0 spinning_without_meshes = Panic.
Proof.
  split; [reflexivity|].
  apply (proj1 (proj2 Render_guarded_by_rotate) 0%nat
           (set_rotate true ShaderGeometry_zero) spinning_without_meshes);
    [reflexivity | reflexivity | left; reflexivity].
Defined.

Lemma frames_accumulate_rotation_witness :
  sgs registered !! 0%nat = Some ShaderGeometry_zero ∧
  Control registered = Some {| groups := [] |} ∧
  ∃ w1 wk plane,
    ShaderGeometry_Initialize 0 registered = Done tt w1 ∧
    repeat_m 3 (ShaderGeometry_Render 0) w1 = Done tt wk ∧
    meshes wk !! 0%nat = Some plane ∧
    vX (rotation plane) =
      FAdd (FAdd (FAdd (FConst (Num 0 0)) (FConst (Num 1 (-2))))
              (FConst (Num 1 (-2)))) (FConst (Num 1 (-2))).
Proof.
  split; [reflexivity|]. split; [reflexivity|].
  destruct (frames_accumulate_rotation 0 ShaderGeometry_zero {| groups := [] |}
              registered 3 eq_refl eq_refl)
    as (w1 & wk & mp & mb & ms & mp' & mb' & ms' & Hini & _ & Hrun & Hwk & Hx & _).
  exists w1, wk, mp'. split; [exact Hini|]. split; [exact Hrun|].
  split; [rewrite Hwk; reflexivity|]. rewrite Hx. reflexivity.
Defined.

Lemma rotate_checkbox_gates_render_witness :
  sgs registered !! 0%nat = Some ShaderGeometry_zero ∧
  Control registered = Some {| groups := [] |} ∧
  Forall event_ok [Change 1; Frame] ∧
  ∃ w1 w' w'',
    ShaderGeometry_Initialize 0 registered = Done tt w1 ∧
    host_run 0 0 [Change 1; Frame] w1 = Done tt w' ∧
    Dispatch (0%nat, 0%nat) gui_OnChange w' = Done tt w'' ∧
    meshes w'' = meshes w'.
Proof.
  assert (Forall event_ok [Change 1; Frame]) as Hes by (repeat constructor; simpl; lia).
  split; [reflexivity|]. split; [reflexivity|]. split; [exact Hes|].
  destruct (rotate_checkbox_gates_render 0 ShaderGeometry_zero {| groups := [] |}
              registered [Change 1; Frame] 2 eq_refl eq_refl Hes)
    as (w1 & w' & w'' & s' & s'' & Hini & Hrun & _ & Hd & _ & _ & Hm & _).
  exists w1, w', w''. repeat split; assumption.
Defined.

Lemma show_handler_resyncs_witness :
  sgs started !! 0%nat = Some started_object ∧
  nmats started !! 0%nat = Some (normalsMaterial 4 1 1 1) ∧
  ∃ w' s' m',
    call (OnVnormal 0 0) gui_OnChange started = Done tt w' ∧
    sgs w' !! 0%nat = Some s' ∧ nmats w' !! 0%nat = Some m' ∧
    v0 (ShowVnormal m') = showVnormal s'.
Proof.
  split; [reflexivity|]. split; [reflexivity|].
  destruct (proj1 (proj2 (show_handler_resyncs 0 0 started_object
                            (normalsMaterial 4 1 1 1) started gui_OnChange
                            eq_refl eq_refl)))
    as (w' & s' & m' & Hc & Hs & Hm & _ & _ & Hv & _).
  exists w', s', m'. repeat split; assumption.
Defined.

Lemma handlers_commute_witness :
  sgs registered !! 0%nat = Some ShaderGeometry_zero ∧
  Control registered = Some {| groups := [] |} ∧
  Forall event_ok some_events ∧ (1 < 4)%nat ∧ (3 < 4)%nat ∧
  ∃ w1 w' w'',
    ShaderGeometry_Initialize 0 registered = Done tt w1 ∧
    host_run 0 0 some_events w1 = Done tt w' ∧
    host_run 0 0 [Change 1; Change 3] w' = Done tt w'' ∧
    host_run 0 0 [Change 3; Change 1] w' = Done tt w''.
Proof.
  assert (Forall event_ok some_events) as Hes by (repeat constructor; simpl; lia).
  split; [reflexivity|]. split; [reflexivity|]. split; [exact Hes|].
  split; [lia|]. split; [lia|].
  exact (handlers_commute 0 ShaderGeometry_zero {| groups := [] |} registered
           some_events 1 3 eq_refl eq_refl Hes ltac:(lia) ltac:(lia)).
Defined.

Lemma show_toggle_commutes_with_frame_witness :
  sgs registered !! 0%nat = Some ShaderGeometry_zero ∧
  Control registered = Some {| groups := [] |} ∧
  Forall event_ok some_events ∧ (0 < 2 < 4)%nat ∧
  ∃ w1 w' w'',
    ShaderGeometry_Initialize 0 registered = Done tt w1 ∧
    host_run 0 0 some_events w1 = Done tt w' ∧
    host_run 0 0 [Frame; Change 2] w' = Done tt w'' ∧
    host_run 0 0 [Change 2; Frame] w' = Done tt w''.
Proof.
  assert (Forall event_ok some_events) as Hes by (repeat constructor; simpl; lia).
  split; [reflexivity|]. split; [reflexivity|]. split; [exact Hes|].
  split; [lia|].
  exact (show_toggle_commutes_with_frame 0 ShaderGeometry_zero {| groups := [] |}
           registered some_events 2 eq_refl eq_refl Hes ltac:(lia)).
Defined.

Lemma shader_geometry_lifecycle_witness :
  Forall event_ok some_events ∧
  (Control host = None -> Forall (λ e, e = Frame) some_events) ∧
  ∃ w1 d w2 w3,
    init_shader_geometry host = Done tt w1 ∧
    TestMap w1 !! "shader.geometry" = Some d ∧
    Initialize d w1 = Done tt w2 ∧
    host_run 0 0 some_events w2 = Done tt w3 ∧
    Log w3 = Log host.
Proof.
  assert (Forall event_ok some_events) as Hes by (repeat constructor; simpl; lia).
  assert (Control host = None -> Forall (λ e, e = Frame) some_events) as Hfr
    by (intros H; discriminate H).
  split; [exact Hes|]. split; [exact Hfr|].
  exact (shader_geometry_lifecycle_never_fails host some_events Hes Hfr).
Defined.

Lemma RenderSetup_transfers_uniforms_witness :
  nmats started !! 0%nat = Some (normalsMaterial 4 1 1 1) ∧
  ∃ gs', NormalsMaterial_RenderSetup plain_setup 0 gs_empty started = Done gs' started ∧
         uniform_int gs' "ShowWireframe" = 1 ∧
         uniform_int gs' "ShowVnormal" = 1 ∧
         uniform_int gs' "ShowFnormal" = 1.
Proof.
  split; [reflexivity|].
  destruct (proj1 (RenderSetup_transfers_uniforms plain_setup 0 gs_empty started)
              (normalsMaterial 4 1 1 1) eq_refl eq_refl eq_refl eq_refl)
    as (gs' & Hrs & H1 & H2 & H3 & _).
  exists gs'. repeat split; assumption.
Defined.

Lemma geometry_shader_primitives_witness :
  (1 ≠ 0) ∧
  ∃ rest,
    primitives (geometry_main MVPmatrix 1 0 1 V4position V3normal GSOut_empty) =
      [ {| out_Position := V4mul MVPmatrix (V4position 0); out_color := colorWire |};
        {| out_Position := V4mul MVPmatrix (V4position 1); out_color := colorWire |};
        {| out_Position := V4mul MVPmatrix (V4position 2); out_color := colorWire |};
        {| out_Position := V4mul MVPmatrix (V4position 0); out_color := colorWire |} ]
      :: rest ∧
    Forall (λ p, length p = 2%nat) rest.
Proof.
  assert (1 ≠ 0) as H by lia. split; [exact H|].
  exact (proj1 (proj2 (proj2 (geometry_shader_primitives MVPmatrix 1 0 1
                                V4position V3normal))) H).
Defined.

Lemma toggles_reach_the_shader_witness :
  sgs registered !! 0%nat = Some ShaderGeometry_zero ∧
  Control registered = Some {| groups := [] |} ∧
  Forall event_ok some_events ∧
  ∃ w1 w' s' gs',
    ShaderGeometry_Initialize 0 registered = Done tt w1 ∧
    host_run 0 0 some_events w1 = Done tt w' ∧
    sgs w' !! 0%nat = Some s' ∧
    NormalsMaterial_RenderSetup plain_setup 0 gs_empty w' = Done gs' w' ∧
    Z.of_nat (emitted (geometry_shader MVPmatrix gs' V4position V3normal)) =
      4 * showWireframe s' + 6 * showVnormal s' + 2 * showFnormal s'.
Proof.
  assert (Forall event_ok some_events) as Hes by (repeat constructor; simpl; lia).
  split; [reflexivity|]. split; [reflexivity|]. split; [exact Hes|].
  destruct (toggles_reach_the_shader (GL := ExprGLSL) 0 ShaderGeometry_zero {| groups := [] |} registered
              some_events plain_setup gs_empty MVPmatrix V4position V3normal
              eq_refl eq_refl Hes)
    as (w1 & w' & s' & gs' & Hini & Hrun & Hs & Hrs & _ & _ & _ & Hem).
  exists w1, w', s', gs'. repeat split; assumption.
Defined.

Lemma Skybox_failure_state_witness :
  textures !! 2%nat = Some "sanfrancisco/posy.jpg" ∧
  Images host_without_posy !! ("data" +:+ "/images/" +:+ "sanfrancisco/posy.jpg") = None ∧
  ∃ w' skybox,
    Skybox_Initialize host_without_posy = Aborted w' ∧
    Scene w' = [NodeAxis (int 2)] ∧
    meshes w' = [skybox] ∧ length (materials skybox) = 2%nat ∧
    length (texs w') = 2%nat.
Proof.
  split; [reflexivity|]. split; [vm_compute; reflexivity|].
  destruct (Skybox_failure_state host_without_posy 2 "sanfrancisco/posy.jpg")
    as (w' & sk & Hrun & _ & Hsc & Hm & Hl & _ & Ht & _).
  - reflexivity.
  - vm_compute. reflexivity.
  - intros j name' Hj Hname.
    destruct j as [|[|j]]; [| |lia]; cbn in Hname; injection Hname as <-;
      vm_compute; eexists; reflexivity.
  - exists w', sk. repeat split; assumption.
Defined.

End OnRuns.

(** * The README template on a concrete run *)

Section OnModelRuns.
#[local] Existing Instance ExprFloat32M.
#[local] Existing Instance ExprFloat32Mul.

Lemma model_frames_follow_delta_time_witness :
  app_models model_app !! 0%nat = Some {| grid := None |} ∧
  ∃ a1 a2 g,
    testsModel_Initialize 0 model_app = Some a1 ∧
    model_frames 0 model_deltas a1 = Some a2 ∧
    app_grids a2 = [g] ∧
    vY (grid_rotation g) =
      MAdd (MAdd (MConst (Num 0 0))
              (MMul (MMul (MMul (MConst (Num 16 (-3))) (MConst (Num 2 0))) (MConst Pi))
                 (MConst (Num 5 (-2)))))
        (MMul (MMul (MMul (MConst (Num 33 (-3))) (MConst (Num 2 0))) (MConst Pi))
           (MConst (Num 5 (-2)))).
Proof.
  split; [reflexivity|].
  destruct (model_frames_follow_delta_time 0 {| grid := None |} model_app model_deltas
              eq_refl)
    as (a1 & a2 & g & Hini & Hfr & Hg & Hrot & _).
  exists a1, a2, g. split; [exact Hini|]. split; [exact Hfr|]. split; [exact Hg|].
  rewrite Hrot. reflexivity.
Defined.

End OnModelRuns.
